(** * AnkiBrain ChatAI module: provider abstraction and line-protocol dispatcher

    Shallow embedding of
      - ChatAI/LLMProvider.py            (provider kinds, providers, factory)
      - ChatAI/ChatAIWithoutDocuments.py (conversation wrapper)
      - ChatAI/__init__.py               (credential check, dispatcher, startup, loop)
      - GitHubCopilotTokenDialog.py      (the dialog that stores the Copilot token)
    Python values are an inductive type, exceptions are an explicit result
    type, and the module-level globals, the process environment, the memory
    buffers and standard output are fields of one state record that the
    dispatcher threads through. *)

From Stdlib Require Import ZArith QArith Lqa Lia Ascii String.
From stdpp Require Import base option list strings pretty gmap.

Set Warnings "-register-all".
Local Open Scope string_scope.

(** ** Python values *)

(** The values that flow through the module: what [json.load]/[json.loads]
    return and what [json.dumps] is given.  A dict is an association list in
    insertion order with unique keys; a tuple is represented as a [PList]. *)
Inductive pyval : Type :=
| PNone
| PBool (b : bool)
| PInt (z : Z)
| PFloat (q : Q)
| PStr (s : string)
| PList (l : list pyval)
| PDict (d : list (string * pyval)).

(** Exceptions (all subclasses of [Exception]). *)
Inductive exn : Type :=
| KeyError (key : pyval)
| NameError (name : string)
| ValueError (value : pyval) (enum : string)
| TypeError (msg : string)
| AttributeError (msg : string)
| JSONDecodeError (msg : string)
| OtherError (cls msg : string).

Inductive result (A : Type) : Type :=
| Ok (a : A)
| Raise (e : exn).
Arguments Ok {A} a.
Arguments Raise {A} e.

Definition is_ok {A} (r : result A) : bool :=
  match r with Ok _ => true | Raise _ => false end.

(** [bool(v)]. *)
Definition truthy (v : pyval) : bool :=
  match v with
  | PNone => false
  | PBool b => b
  | PInt z => negb (z =? 0)%Z
  | PFloat q => negb (Qeq_bool q 0)
  | PStr s => negb (String.eqb s "")
  | PList l => match l with [] => false | _ => true end
  | PDict d => match d with [] => false | _ => true end
  end.

(** [a or b]. *)
Definition py_or (a b : pyval) : pyval := if truthy a then a else b.

Definition type_name (v : pyval) : string :=
  match v with
  | PNone => "NoneType" | PBool _ => "bool" | PInt _ => "int"
  | PFloat _ => "float" | PStr _ => "str" | PList _ => "list"
  | PDict _ => "dict"
  end.

Definition is_dict (v : pyval) : bool :=
  match v with PDict _ => true | _ => false end.

Fixpoint dict_lookup (k : string) (d : list (string * pyval)) : option pyval :=
  match d with
  | [] => None
  | (k', v) :: d' => if String.eqb k k' then Some v else dict_lookup k d'
  end.

(** [d[k] = v]: overwrite in place, or append a new key at the end. *)
Fixpoint dict_set (k : string) (v : pyval) (d : list (string * pyval))
  : list (string * pyval) :=
  match d with
  | [] => [(k, v)]
  | (k', v') :: d' =>
      if String.eqb k k' then (k, v) :: d' else (k', v') :: dict_set k v d'
  end.

(** [obj.get(k, default)]. *)
Definition py_get (obj : pyval) (k : string) (default : pyval) : result pyval :=
  match obj with
  | PDict d => Ok (from_option id default (dict_lookup k d))
  | _ => Raise (AttributeError
                  ("'" +:+ type_name obj +:+ "' object has no attribute 'get'"))
  end.

(** [obj[k]] for a string key [k]. *)
Definition py_getitem (obj : pyval) (k : string) : result pyval :=
  match obj with
  | PDict d =>
      match dict_lookup k d with
      | Some v => Ok v
      | None => Raise (KeyError (PStr k))
      end
  | PList _ => Raise (TypeError "list indices must be integers or slices, not str")
  | PStr _ => Raise (TypeError "string indices must be integers, not 'str'")
  | _ => Raise (TypeError ("'" +:+ type_name obj +:+ "' object is not subscriptable"))
  end.

(** [obj[i]] for a literal index [i] (used on the tuples the wrappers return). *)
Definition py_index (obj : pyval) (i : nat) : result pyval :=
  match obj with
  | PList l =>
      match l !! i with
      | Some v => Ok v
      | None => Raise (OtherError "IndexError" "list index out of range")
      end
  | PStr s =>
      match String.get i s with
      | Some c => Ok (PStr (String c EmptyString))
      | None => Raise (OtherError "IndexError" "string index out of range")
      end
  | PDict d =>
      Raise (KeyError (PInt (Z.of_nat i)))
  | _ => Raise (TypeError ("'" +:+ type_name obj +:+ "' object is not subscriptable"))
  end.

Fixpoint chars (s : string) : list pyval :=
  match s with
  | EmptyString => []
  | String c s' => PStr (String c EmptyString) :: chars s'
  end.

(** [for x in obj]: the items the loop visits. *)
Definition py_iter (obj : pyval) : result (list pyval) :=
  match obj with
  | PList l => Ok l
  | PDict d => Ok (map (λ kv, PStr kv.1) d)
  | PStr s => Ok (chars s)
  | _ => Raise (TypeError ("'" +:+ type_name obj +:+ "' object is not iterable"))
  end.

(** [obj.attr] on the objects an absent class hands back; such an object is
    represented by the dict of its attributes. *)
Definition py_getattr (obj : pyval) (attr : string) : result pyval :=
  match obj with
  | PDict d =>
      match dict_lookup attr d with
      | Some v => Ok v
      | None => Raise (AttributeError ("object has no attribute '" +:+ attr +:+ "'"))
      end
  | _ => Raise (AttributeError
                  ("'" +:+ type_name obj +:+ "' object has no attribute '" +:+ attr +:+ "'"))
  end.

(** [str.strip()].  A [str] is held as the bytes of its UTF-8 encoding,
    which is also how a string literal of this file is read.  The
    characters [strip] removes are those of [str.isspace()]:
      U+0009..U+000D, U+001C..U+001F, U+0020,
      U+0085, U+00A0,
      U+1680, U+2000..U+200A, U+2028, U+2029, U+202F, U+205F, U+3000.
    [py_isspace] recognises the ones below code 128, which take one byte,
    [py_isspace2] the two encoded in two bytes (C2 85, C2 A0) and
    [py_isspace3] those encoded in three (E1 9A 80, E2 80 80..8A,
    E2 80 A8, E2 80 A9, E2 80 AF, E2 81 9F, E3 80 80).  A byte that is
    not part of the encoding of one of these characters is not
    whitespace. *)
Definition py_isspace (c : Ascii.ascii) : bool :=
  let n := Ascii.nat_of_ascii c in
  (((9 <=? n) && (n <=? 13)) || ((28 <=? n) && (n <=? 32)))%nat.

Definition py_isspace2 (c1 c2 : Ascii.ascii) : bool :=
  let n1 := Ascii.nat_of_ascii c1 in
  let n2 := Ascii.nat_of_ascii c2 in
  ((n1 =? 194) && ((n2 =? 133) || (n2 =? 160)))%nat.

Definition py_isspace3 (c1 c2 c3 : Ascii.ascii) : bool :=
  let n1 := Ascii.nat_of_ascii c1 in
  let n2 := Ascii.nat_of_ascii c2 in
  let n3 := Ascii.nat_of_ascii c3 in
  (((n1 =? 225) && (n2 =? 154) && (n3 =? 128))
   || ((n1 =? 226) && (n2 =? 128)
       && (((128 <=? n3) && (n3 <=? 138)) || (n3 =? 168) || (n3 =? 169) || (n3 =? 175)))
   || ((n1 =? 226) && (n2 =? 129) && (n3 =? 159))
   || ((n1 =? 227) && (n2 =? 128) && (n3 =? 128)))%nat.

(** [space_prefix s]: the rest of [s] after the whitespace character it
    begins with, if it begins with one. *)
Definition space_prefix (s : string) : option string :=
  match s with
  | EmptyString => None
  | String c1 s1 =>
      if py_isspace c1 then Some s1
      else
        match s1 with
        | EmptyString => None
        | String c2 s2 =>
            if py_isspace2 c1 c2 then Some s2
            else
              match s2 with
              | EmptyString => None
              | String c3 s3 => if py_isspace3 c1 c2 c3 then Some s3 else None
              end
        end
  end.

(** [str.lstrip()]: the leading whitespace characters are dropped one
    after the other. *)
Fixpoint lstrip (s : string) : string :=
  match s with
  | EmptyString => EmptyString
  | String c1 s1 =>
      if py_isspace c1 then lstrip s1
      else
        match s1 with
        | EmptyString => s
        | String c2 s2 =>
            if py_isspace2 c1 c2 then lstrip s2
            else
              match s2 with
              | EmptyString => s
              | String c3 s3 => if py_isspace3 c1 c2 c3 then lstrip s3 else s
              end
        end
  end.

(** [all_space s]: [s] is a sequence of whitespace characters. *)
Fixpoint all_space (s : string) : bool :=
  match s with
  | EmptyString => true
  | String c1 s1 =>
      if py_isspace c1 then all_space s1
      else
        match s1 with
        | EmptyString => false
        | String c2 s2 =>
            if py_isspace2 c1 c2 then all_space s2
            else
              match s2 with
              | EmptyString => false
              | String c3 s3 => py_isspace3 c1 c2 c3 && all_space s3
              end
        end
  end.

(** [str.rstrip()]: the text is cut where nothing but whitespace follows. *)
Fixpoint rstrip (s : string) : string :=
  match s with
  | EmptyString => EmptyString
  | String c s' => if all_space s then EmptyString else String c (rstrip s')
  end.

Definition strip (s : string) : string := rstrip (lstrip s).

(** ** LLMProvider.py *)

Module LLMProvider.

(** [class LLMProviderType(Enum)]. *)
Inductive LLMProviderType : Type := OPENAI | GITHUB_COPILOT.

Definition value (t : LLMProviderType) : string :=
  match t with
  | OPENAI => "openai"
  | GITHUB_COPILOT => "github_copilot"
  end.

(** [LLMProviderType(v)]: lookup by value; [ValueError] when no member
    has that value (in particular for every non-string [v]). *)
Definition LLMProviderType_call (v : pyval) : result LLMProviderType :=
  match v with
  | PStr s =>
      if String.eqb s "openai" then Ok OPENAI
      else if String.eqb s "github_copilot" then Ok GITHUB_COPILOT
      else Raise (ValueError v "LLMProviderType")
  | _ => Raise (ValueError v "LLMProviderType")
  end.

(** The fields of a [ChatOpenAI] chat-model handle (langchain) that
    LLMProvider.py passes as keyword arguments; as arguments, a keyword
    that is not passed is [None]/empty. *)
Record ChatOpenAI : Type := mkChatOpenAI {
  co_temperature : pyval;
  co_model_name : pyval;
  openai_api_key : option string;
  openai_api_base : option string;
  model_kwargs : list (string * list (string * string))
}.

(** The two concrete subclasses of the abstract [LLMProvider]; both carry
    the fields set by [LLMProvider.__init__]. *)
Inductive Provider : Type :=
| OpenAIProvider (model_name temperature : pyval)
| GitHubCopilotProvider (model_name temperature : pyval).

Definition model_name (p : Provider) : pyval :=
  match p with OpenAIProvider m _ | GitHubCopilotProvider m _ => m end.

Definition temperature (p : Provider) : pyval :=
  match p with OpenAIProvider _ t | GitHubCopilotProvider _ t => t end.

Definition kind (p : Provider) : LLMProviderType :=
  match p with
  | OpenAIProvider _ _ => OPENAI
  | GitHubCopilotProvider _ _ => GITHUB_COPILOT
  end.

Definition DEFAULT_MODEL : string := "gpt-4o".

Definition AVAILABLE_MODELS : list string :=
  ["gpt-4o"; "gpt-4"; "gpt-3.5-turbo"; "o1-preview"; "o1-mini"; "claude-3.5-sonnet"].

Definition get_api_key_env_var (p : Provider) : string :=
  match p with
  | OpenAIProvider _ _ => "OPENAI_API_KEY"
  | GitHubCopilotProvider _ _ => "GITHUB_COPILOT_TOKEN"
  end.

(** [os.getenv(name)]. *)
Definition getenv (environ : gmap string string) (name : string) : option string :=
  environ !! name.

(** [os.getenv(...) is not None]. *)
Definition validate_credentials (environ : gmap string string) (p : Provider) : bool :=
  match p with
  | OpenAIProvider _ _ =>
      match getenv environ "OPENAI_API_KEY" with Some _ => true | None => false end
  | GitHubCopilotProvider _ _ =>
      match getenv environ "GITHUB_COPILOT_TOKEN" with Some _ => true | None => false end
  end.

(** The keyword arguments [get_llm] calls [ChatOpenAI] with. *)
Definition get_llm_arguments (environ : gmap string string) (p : Provider) : ChatOpenAI :=
  match p with
  | OpenAIProvider m t =>
      {| co_temperature := t; co_model_name := m;
         openai_api_key := None; openai_api_base := None;
         model_kwargs := [] |}
  | GitHubCopilotProvider m t =>
      let api_key := getenv environ (get_api_key_env_var p) in
      {| co_temperature := t; co_model_name := m;
         openai_api_key := api_key;
         openai_api_base := Some "https://api.githubcopilot.com";
         model_kwargs :=
           [("headers", [("Editor-Version", "vscode/1.95.0");
                         ("Editor-Plugin-Version", "copilot-chat/0.22.4")])] |}
  end.

(** [LLMProviderFactory.create_provider].  The final [else: raise
    ValueError] of the source is unreachable for a member of the enum. *)
Definition create_provider (provider_type : LLMProviderType)
    (model_name temperature : pyval) : Provider :=
  match provider_type with
  | OPENAI =>
      let model := py_or model_name (PStr "gpt-3.5-turbo") in
      OpenAIProvider model temperature
  | GITHUB_COPILOT =>
      let model := py_or model_name (PStr DEFAULT_MODEL) in
      GitHubCopilotProvider model temperature
  end.

Definition get_available_models (provider_type : LLMProviderType) : list string :=
  match provider_type with
  | OPENAI => ["gpt-4"; "gpt-4-turbo-preview"; "gpt-3.5-turbo"; "gpt-3.5-turbo-16k"]
  | GITHUB_COPILOT => AVAILABLE_MODELS
  end.

End LLMProvider.

(** ** InterprocessCommand *)

Module InterprocessCommand.

(** Modelled from the spec: the enum [InterprocessCommand] (imported as
    [IC]; InterprocessCommand.py is not part of the sources at hand).  Its
    members are the eight request tags and the nine response tags of the
    line protocol, exactly the members ChatAI/__init__.py refers to. *)
Inductive IC : Type :=
| ASK_CONVERSATION_DOCUMENTS | DID_ASK_CONVERSATION_DOCUMENTS
| ASK_CONVERSATION_NO_DOCUMENTS | DID_ASK_CONVERSATION_NO_DOCUMENTS
| EXPLAIN_TOPIC | DID_EXPLAIN_TOPIC
| GENERATE_CARDS | DID_GENERATE_CARDS
| CLEAR_CONVERSATION | DID_CLEAR_CONVERSATION
| ADD_DOCUMENTS | DID_ADD_DOCUMENTS
| DELETE_ALL_DOCUMENTS | DID_DELETE_ALL_DOCUMENTS
| SPLIT_DOCUMENT | DID_SPLIT_DOCUMENT
| SUBMODULE_ERROR.

Definition members : list IC :=
  [ASK_CONVERSATION_DOCUMENTS; DID_ASK_CONVERSATION_DOCUMENTS;
   ASK_CONVERSATION_NO_DOCUMENTS; DID_ASK_CONVERSATION_NO_DOCUMENTS;
   EXPLAIN_TOPIC; DID_EXPLAIN_TOPIC;
   GENERATE_CARDS; DID_GENERATE_CARDS;
   CLEAR_CONVERSATION; DID_CLEAR_CONVERSATION;
   ADD_DOCUMENTS; DID_ADD_DOCUMENTS;
   DELETE_ALL_DOCUMENTS; DID_DELETE_ALL_DOCUMENTS;
   SPLIT_DOCUMENT; DID_SPLIT_DOCUMENT;
   SUBMODULE_ERROR].

Definition name (c : IC) : string :=
  match c with
  | ASK_CONVERSATION_DOCUMENTS => "ASK_CONVERSATION_DOCUMENTS"
  | DID_ASK_CONVERSATION_DOCUMENTS => "DID_ASK_CONVERSATION_DOCUMENTS"
  | ASK_CONVERSATION_NO_DOCUMENTS => "ASK_CONVERSATION_NO_DOCUMENTS"
  | DID_ASK_CONVERSATION_NO_DOCUMENTS => "DID_ASK_CONVERSATION_NO_DOCUMENTS"
  | EXPLAIN_TOPIC => "EXPLAIN_TOPIC"
  | DID_EXPLAIN_TOPIC => "DID_EXPLAIN_TOPIC"
  | GENERATE_CARDS => "GENERATE_CARDS"
  | DID_GENERATE_CARDS => "DID_GENERATE_CARDS"
  | CLEAR_CONVERSATION => "CLEAR_CONVERSATION"
  | DID_CLEAR_CONVERSATION => "DID_CLEAR_CONVERSATION"
  | ADD_DOCUMENTS => "ADD_DOCUMENTS"
  | DID_ADD_DOCUMENTS => "DID_ADD_DOCUMENTS"
  | DELETE_ALL_DOCUMENTS => "DELETE_ALL_DOCUMENTS"
  | DID_DELETE_ALL_DOCUMENTS => "DID_DELETE_ALL_DOCUMENTS"
  | SPLIT_DOCUMENT => "SPLIT_DOCUMENT"
  | DID_SPLIT_DOCUMENT => "DID_SPLIT_DOCUMENT"
  | SUBMODULE_ERROR => "SUBMODULE_ERROR"
  end.

(** Modelled from the spec: the value of a member is its tag as it
    appears on the wire, which the protocol description spells like the
    member's name. *)
Definition value (c : IC) : string := name c.

Definition by_name (s : string) : option IC :=
  find (λ c, String.eqb (name c) s) members.

(** [IC[key]]: lookup of a member by name. *)
Definition getitem (key : pyval) : result IC :=
  match key with
  | PStr s =>
      match by_name s with
      | Some c => Ok c
      | None => Raise (KeyError key)
      end
  | PList _ => Raise (TypeError "unhashable type: 'list'")
  | PDict _ => Raise (TypeError "unhashable type: 'dict'")
  | _ => Raise (KeyError key)
  end.

(** The request tags [handle_module_input] has a branch for. *)
Definition is_request (c : IC) : bool :=
  match c with
  | ASK_CONVERSATION_DOCUMENTS | ASK_CONVERSATION_NO_DOCUMENTS
  | EXPLAIN_TOPIC | GENERATE_CARDS | CLEAR_CONVERSATION
  | ADD_DOCUMENTS | DELETE_ALL_DOCUMENTS | SPLIT_DOCUMENT => true
  | _ => false
  end.

End InterprocessCommand.

(** ** Objects shared by the wrappers and the dispatcher *)

Import LLMProvider InterprocessCommand.

(** A [ConversationBufferMemory] is a mutable object; objects are addressed
    by location in the state's heap so that two references to one buffer
    stay one buffer. *)
Abbreviation loc := nat.

Inductive turn : Type :=
| Human (text : pyval)
| AI (text : pyval).

(** What one call of the chat model is given. *)
Record Request : Type := mkRequest {
  rq_llm : ChatOpenAI;
  rq_history : list turn;
  rq_input : pyval
}.

(** [ConversationChain(llm=..., memory=..., verbose=...)] (langchain). *)
Record ConversationChain : Type := mkConversationChain {
  cc_llm : ChatOpenAI;
  cc_memory : loc;
  cc_verbose : bool
}.

(** The instance attributes set by [ChatAIWithoutDocuments.__init__]. *)
Record ChatAIWithoutDocuments : Type := mkChatAIWithoutDocuments {
  llm : ChatOpenAI;
  memory : loc;
  conversationChain : ConversationChain
}.

(** Modelled from the spec: the class [ChatAIWithDocuments]
    (ChatAIWithDocuments.py is not part of the sources at hand).  Like its
    sibling it holds a memory buffer of its own, which [clear_memory]
    empties in place; its retrieval chain, document store and splitter are
    external collaborators and live in the external world [Ext] below. *)
Record ChatAIWithDocuments : Type := mkChatAIWithDocuments {
  wd_memory : loc
}.

(** The handler bound by [with get_openai_callback() as oa_cb] (langchain). *)
Record OpenAICallbackHandler : Type := mkHandler { total_cost : Q }.

(** Calls into [ChatAIWithDocuments] other than [clear_memory]. *)
Inductive wd_call : Type :=
| WD_human_message (query : pyval)
| WD_explain_topic (topic options : pyval)
| WD_add_document_from_path (docpath : pyval)
| WD_clear_documents
| WD_split_document (docpath : pyval).

(** Calls into the methods a wrapper inherits from [ChatInterface]
    (ChatInterface.py is not part of the sources at hand). *)
Inductive ci_call : Type :=
| CI_explain_topic (topic options : pyval)
| CI_generate_cards (text options : pyval).

(** What a call into absent code may do: move the external world, rewrite
    the memory buffer of the wrapper it is called on, add to the cost the
    callback handler tracks, and return or raise. *)
Record Outcome (Ext : Type) : Type := mkOutcome {
  o_ext : Ext;
  o_memory : list turn;
  o_cost : Q;
  o_result : result pyval
}.
Arguments mkOutcome {Ext} _ _ _ _.
Arguments o_ext {Ext} _.
Arguments o_memory {Ext} _.
Arguments o_cost {Ext} _.
Arguments o_result {Ext} _.

(** Everything the module calls but does not define: the hosted chat
    model, the absent classes of this repository, and the Python runtime. *)
Class Externals : Type := {
  (** The world outside the module: the hosted chat-model services, the
      document store, the state of the libraries. *)
  Ext : Type;
  (** The constructor [ChatOpenAI(...)] (langchain), given the process
      environment and the keyword arguments: the handle it builds, in
      which what the arguments leave out is completed from the
      environment, or the error it raises (no usable key, a temperature
      that is no number, ...). *)
  ChatOpenAI_new : gmap string string → ChatOpenAI → result ChatOpenAI;
  (** What [ConversationChain] (langchain) makes of an answered exchange
      whose input is not a [str]: the turns it stores, or the error its
      validation of the message content raises. *)
  save_context : pyval → pyval → result (list turn);
  (** One blocking request to the chat model: the new external world, the
      cost the callback handler adds for it, and the reply or the error. *)
  llm_invoke : Ext → Request → Ext * Q * result pyval;
  (** [ChatAIWithDocuments()], given the environment and the settings file. *)
  wd_new : gmap string string → result pyval → Ext → Ext * result unit;
  wd_step : wd_call → Ext → list turn → Outcome Ext;
  ci_step : ci_call → ChatOpenAI → Ext → list turn → Outcome Ext;
  (** [json.loads], [json.dumps], [str] and [repr] of the Python runtime. *)
  json_loads : string → result pyval;
  json_dumps : pyval → string;
  py_str : pyval → string;
  py_repr : pyval → string
}.

Section Dispatcher.

Context {E : Externals}.

(** [str(e)]. *)
Definition str_exn (e : exn) : string :=
  match e with
  | KeyError key => py_repr key
  | NameError name => "name '" +:+ name +:+ "' is not defined"
  | ValueError v enum => py_repr v +:+ " is not a valid " +:+ enum
  | TypeError msg | AttributeError msg | JSONDecodeError msg => msg
  | OtherError _ msg => msg
  end.

(** The state of the process.  A module-level global is [None] while its
    name is unbound.  [settings_file] is the outcome of opening
    user_files/settings.json and decoding it with [json.load]; the file
    is read-only to this module.  [requests] is a ghost log of the
    requests the without-documents wrappers send to the chat model through
    their chain; [stdout] holds, in order, the dict of every line printed
    by [_module_return]. *)
Record State : Type := mkState {
  environ : gmap string string;
  settings_file : result pyval;
  withDocumentsAI : option ChatAIWithDocuments;
  withoutDocumentsAI : option ChatAIWithoutDocuments;
  withoutDocumentsSingleQuery : option ChatAIWithoutDocuments;
  oa_cb : option (option OpenAICallbackHandler);
  heap : gmap loc (list turn);
  ext : Ext;
  requests : list Request;
  stdout : list pyval
}.

Definition set_environ (x : gmap string string) (st : State) : State :=
  mkState x (settings_file st) (withDocumentsAI st) (withoutDocumentsAI st)
    (withoutDocumentsSingleQuery st) (oa_cb st) (heap st) (ext st)
    (requests st) (stdout st).
Definition set_withDocumentsAI (x : option ChatAIWithDocuments) (st : State) : State :=
  mkState (environ st) (settings_file st) x (withoutDocumentsAI st)
    (withoutDocumentsSingleQuery st) (oa_cb st) (heap st) (ext st)
    (requests st) (stdout st).
Definition set_withoutDocumentsAI (x : option ChatAIWithoutDocuments) (st : State) : State :=
  mkState (environ st) (settings_file st) (withDocumentsAI st) x
    (withoutDocumentsSingleQuery st) (oa_cb st) (heap st) (ext st)
    (requests st) (stdout st).
Definition set_withoutDocumentsSingleQuery (x : option ChatAIWithoutDocuments)
    (st : State) : State :=
  mkState (environ st) (settings_file st) (withDocumentsAI st) (withoutDocumentsAI st)
    x (oa_cb st) (heap st) (ext st) (requests st) (stdout st).
Definition set_oa_cb (x : option (option OpenAICallbackHandler)) (st : State) : State :=
  mkState (environ st) (settings_file st) (withDocumentsAI st) (withoutDocumentsAI st)
    (withoutDocumentsSingleQuery st) x (heap st) (ext st) (requests st) (stdout st).
Definition set_heap (x : gmap loc (list turn)) (st : State) : State :=
  mkState (environ st) (settings_file st) (withDocumentsAI st) (withoutDocumentsAI st)
    (withoutDocumentsSingleQuery st) (oa_cb st) x (ext st) (requests st) (stdout st).
Definition set_ext (x : Ext) (st : State) : State :=
  mkState (environ st) (settings_file st) (withDocumentsAI st) (withoutDocumentsAI st)
    (withoutDocumentsSingleQuery st) (oa_cb st) (heap st) x (requests st) (stdout st).
Definition set_requests (x : list Request) (st : State) : State :=
  mkState (environ st) (settings_file st) (withDocumentsAI st) (withoutDocumentsAI st)
    (withoutDocumentsSingleQuery st) (oa_cb st) (heap st) (ext st) x (stdout st).
Definition set_stdout (x : list pyval) (st : State) : State :=
  mkState (environ st) (settings_file st) (withDocumentsAI st) (withoutDocumentsAI st)
    (withoutDocumentsSingleQuery st) (oa_cb st) (heap st) (ext st) (requests st) x.

(** *** State and exceptions *)

(** A Python statement sequence: it returns or raises, and the state it
    leaves behind survives in both cases. *)
Definition M (A : Type) : Type := State → result A * State.

Definition ret {A} (a : A) : M A := λ st, (Ok a, st).
Definition bind {A B} (k : A → M B) (m : M A) : M B :=
  λ st, match m st with
        | (Ok a, st') => k a st'
        | (Raise e, st') => (Raise e, st')
        end.
Definition lift {A} (r : result A) : M A := λ st, (r, st).
Definition gets {A} (f : State → A) : M A := λ st, (Ok (f st), st).
Definition modify (f : State → State) : M unit := λ st, (Ok tt, f st).
(** [try: m  except Exception as e: h e]. *)
Definition try_except {A} (m : M A) (h : exn → M A) : M A :=
  λ st, match m st with
        | (Ok a, st') => (Ok a, st')
        | (Raise e, st') => h e st'
        end.

#[global] Instance M_ret : MRet M := @ret.
#[global] Instance M_bind : MBind M := @bind.

(** Reading a global name. *)
Definition global {A} (name : string) (f : State → option A) : M A :=
  λ st, match f st with
        | Some a => (Ok a, st)
        | None => (Raise (NameError name), st)
        end.

Fixpoint for_each {A B} (f : A → M B) (l : list A) : M (list B) :=
  match l with
  | [] => mret []
  | x :: l' => y ← f x; ys ← for_each f l'; mret (y :: ys)
  end.

(** The turns held by the buffer at [l]. *)
Definition buffer (st : State) (l : loc) : list turn := default [] (heap st !! l).

(** The callback handler adds the cost of what ran inside its [with]. *)
Definition add_cost (c : Q) (st : State) : State :=
  match oa_cb st with
  | Some (Some cb) => set_oa_cb (Some (Some (mkHandler (total_cost cb + c)%Q))) st
  | _ => st
  end.

(** [ConversationBufferMemory()]: a fresh, empty buffer. *)
Definition new_memory : M loc :=
  λ st, let l := fresh (dom (heap st)) in
        (Ok l, set_heap (<[l := []]> (heap st)) st).

(** *** LLMProvider.py, continued *)

(** [get_llm] of the two providers: [ChatOpenAI(...)] with the provider's
    keyword arguments. *)
Definition get_llm (environ : gmap string string) (p : Provider) : result ChatOpenAI :=
  ChatOpenAI_new environ (get_llm_arguments environ p).

(** *** ChatAIWithoutDocuments.py *)

Definition load_settings : M pyval := λ st, (settings_file st, st).

(** [try: LLMProviderType(provider_str)  except ValueError: OPENAI]. *)
Definition provider_type_or_default (provider_str : pyval) : result LLMProviderType :=
  match LLMProviderType_call provider_str with
  | Raise (ValueError _ _) => Ok OPENAI
  | r => r
  end.

(** [ChatAIWithoutDocuments.__init__]. *)
Definition ChatAIWithoutDocuments_init (verbose : bool) : M ChatAIWithoutDocuments :=
  data ← load_settings;
  temperature ← lift (py_get data "temperature" (PInt 0));
  model_name ← lift (py_get data "llmModel" (PStr "gpt-3.5-turbo"));
  provider_str ← lift (py_get data "llmProvider" (PStr "openai"));
  provider_type ← lift (provider_type_or_default provider_str);
  let provider := create_provider provider_type model_name temperature in
  env ← gets environ;
  llm ← lift (get_llm env provider);
  memory ← new_memory;
  mret (mkChatAIWithoutDocuments llm memory
          (mkConversationChain llm memory verbose)).

(** [ConversationChain.predict(input=query)] (langchain): the model is
    called with the turns the chain's buffer holds and the new input; an
    answered exchange is then saved to that buffer.  For a [str] input the
    input and the reply are appended; for any other input the chain's
    validation decides ([save_context]), and when it raises the request
    has been made and the buffer is left as it was. *)
Definition predict (chain : ConversationChain) (input : pyval) : M pyval :=
  λ st,
    let history := buffer st (cc_memory chain) in
    let rq := mkRequest (cc_llm chain) history input in
    let '(e', cost, r) := llm_invoke (ext st) rq in
    let st1 := add_cost cost (set_requests (requests st ++ [rq])%list (set_ext e' st)) in
    match r with
    | Ok reply =>
        let saved :=
          match input with
          | PStr _ => Ok [Human input; AI reply]
          | _ => save_context input reply
          end in
        match saved with
        | Ok turns =>
            (Ok reply,
             set_heap (<[cc_memory chain := (history ++ turns)%list]> (heap st1)) st1)
        | Raise e => (Raise e, st1)
        end
    | Raise e => (Raise e, st1)
    end.

(** [return self.conversationChain.predict(input=query), None]. *)
Definition human_message (self : ChatAIWithoutDocuments) (query : pyval) : M pyval :=
  reply ← predict (conversationChain self) query;
  mret (PList [reply; PNone]).

(** [self.memory.clear()]. *)
Definition clear_memory (self : ChatAIWithoutDocuments) : M unit :=
  modify (λ st, set_heap (<[memory self := []]> (heap st)) st).

(** The methods inherited from [ChatInterface], run on [self]. *)
Definition ci_invoke (self : ChatAIWithoutDocuments) (c : ci_call) : M pyval :=
  λ st,
    let o := ci_step c (llm self) (ext st) (buffer st (memory self)) in
    (o_result o,
     add_cost (o_cost o)
       (set_heap (<[memory self := o_memory o]> (heap st)) (set_ext (o_ext o) st))).

(** *** ChatAIWithDocuments (absent class) *)

Definition ChatAIWithDocuments_init : M ChatAIWithDocuments :=
  λ st,
    let '(e', r) := wd_new (environ st) (settings_file st) (ext st) in
    let st1 := set_ext e' st in
    match r with
    | Ok _ => (memory ← new_memory; mret (mkChatAIWithDocuments memory)) st1
    | Raise e => (Raise e, st1)
    end.

Definition wd_invoke (self : ChatAIWithDocuments) (c : wd_call) : M pyval :=
  λ st,
    let o := wd_step c (ext st) (buffer st (wd_memory self)) in
    (o_result o,
     add_cost (o_cost o)
       (set_heap (<[wd_memory self := o_memory o]> (heap st)) (set_ext (o_ext o) st))).

(** Modelled from the spec: [ChatAIWithDocuments.clear_memory] empties
    the wrapper's memory buffer in place. *)
Definition wd_clear_memory (self : ChatAIWithDocuments) : M unit :=
  modify (λ st, set_heap (<[wd_memory self := []]> (heap st)) st).

(** *** ChatAI/__init__.py *)

(** [print(json.dumps(data)); sys.stdout.flush()]. *)
Definition _module_return (data : pyval) : M unit :=
  modify (λ st, set_stdout (stdout st ++ [data])%list st).

Definition module_return (cmd : IC) (data : list (string * pyval)) : M unit :=
  λ st,
    match oa_cb st with
    | None => (Raise (NameError "oa_cb"), st)
    | Some None =>
        (Raise (OtherError "Exception" "Must supply an OpenAICallbackHandler."), st)
    | Some (Some cb) =>
        let data := dict_set "total_cost" (PFloat (total_cost cb)) data in
        _module_return
          (PDict [("cmd", PStr (InterprocessCommand.value cmd)); ("data", PDict data)]) st
    end.

Definition module_error (text : string) : M unit :=
  _module_return
    (PDict [("cmd", PStr (InterprocessCommand.value SUBMODULE_ERROR));
            ("data", PDict [("error", PStr text)])]).

Definition check_credentials : M bool :=
  settings ← load_settings;
  provider_str ← lift (py_get settings "llmProvider" (PStr "openai"));
  provider_type ← lift (provider_type_or_default provider_str);
  env ← gets environ;
  match provider_type with
  | OPENAI =>
      match getenv env "OPENAI_API_KEY" with
      | None => module_error "Please set OPENAI_API_KEY";; mret false
      | Some _ => mret true
      end
  | GITHUB_COPILOT =>
      match getenv env "GITHUB_COPILOT_TOKEN" with
      | None => module_error "Please set GITHUB_COPILOT_TOKEN";; mret false
      | Some _ => mret true
      end
  end.

(** The branch of [handle_module_input] taken for the member [cmd]. *)
Definition dispatch (cmd : IC) (data : pyval) : M unit :=
  match cmd with
  | ASK_CONVERSATION_DOCUMENTS =>
      wd ← global "withDocumentsAI" withDocumentsAI;
      query ← lift (py_getitem data "query");
      response ← wd_invoke wd (WD_human_message query);
      r0 ← lift (py_index response 0);
      r1 ← lift (py_index response 1);
      module_return DID_ASK_CONVERSATION_DOCUMENTS
        [("response", r0); ("source_documents", PStr (json_dumps r1))]
  | ASK_CONVERSATION_NO_DOCUMENTS =>
      w ← global "withoutDocumentsAI" withoutDocumentsAI;
      query ← lift (py_getitem data "query");
      response ← human_message w query;
      r0 ← lift (py_index response 0);
      module_return DID_ASK_CONVERSATION_NO_DOCUMENTS [("response", r0)]
  | EXPLAIN_TOPIC =>
      topic ← lift (py_getitem data "topic");
      options ← lift (py_getitem data "options");
      custom_prompt ← lift (py_getitem options "custom_prompt");
      level_of_detail ← lift (py_getitem options "level_of_detail");
      level_of_expertise ← lift (py_getitem options "level_of_expertise");
      use_documents ← lift (py_getitem options "use_documents");
      language ← lift (py_getitem options "language");
      let opts := PDict [("custom_prompt", custom_prompt);
                         ("level_of_detail", level_of_detail);
                         ("level_of_expertise", level_of_expertise);
                         ("language", language)] in
      response ←
        (if truthy use_documents then
           wd ← global "withDocumentsAI" withDocumentsAI;
           wd_invoke wd (WD_explain_topic topic opts)
         else
           w ← global "withoutDocumentsSingleQuery" withoutDocumentsSingleQuery;
           ci_invoke w (CI_explain_topic topic opts));
      module_return DID_EXPLAIN_TOPIC [("explanation", response)]
  | GENERATE_CARDS =>
      text ← lift (py_getitem data "text");
      custom_prompt ← lift (py_getitem data "custom_prompt");
      card_type ← lift (py_getitem data "type");
      language ← lift (py_getitem data "language");
      try_except
        (w ← global "withoutDocumentsSingleQuery" withoutDocumentsSingleQuery;
         cards_raw_string ←
           ci_invoke w (CI_generate_cards text
                          (PDict [("custom_prompt", custom_prompt);
                                  ("type", card_type);
                                  ("language", language)]));
         module_return DID_GENERATE_CARDS [("cardsRawString", cards_raw_string)])
        (λ e, module_error (str_exn e))
  | CLEAR_CONVERSATION =>
      wd ← global "withDocumentsAI" withDocumentsAI;
      wd_clear_memory wd;;
      w ← global "withoutDocumentsAI" withoutDocumentsAI;
      clear_memory w;;
      module_return DID_CLEAR_CONVERSATION []
  | ADD_DOCUMENTS =>
      documents ← lift (py_getitem data "documents");
      docs ← lift (py_iter documents);
      docpaths ← for_each (λ doc, lift (py_getitem doc "path")) docs;
      for_each (λ docpath,
                  wd ← global "withDocumentsAI" withDocumentsAI;
                  wd_invoke wd (WD_add_document_from_path docpath)) docpaths;;
      module_return DID_ADD_DOCUMENTS [("documents_added", documents)]
  | DELETE_ALL_DOCUMENTS =>
      wd ← global "withDocumentsAI" withDocumentsAI;
      wd_invoke wd WD_clear_documents;;
      module_return DID_DELETE_ALL_DOCUMENTS []
  | SPLIT_DOCUMENT =>
      wd ← global "withDocumentsAI" withDocumentsAI;
      docpath ← lift (py_getitem data "path");
      document_chunks ← wd_invoke wd (WD_split_document docpath);
      items ← lift (py_iter document_chunks);
      chunks ← for_each (λ chunk, lift (py_getattr chunk "page_content")) items;
      module_return DID_SPLIT_DOCUMENT [("chunks", PStr (json_dumps (PList chunks)))]
  | _ => mret tt
  end.

Definition handle_module_input (data : pyval) : M unit :=
  ok ← check_credentials;
  if negb ok then mret tt
  else
    cmd ← lift (py_getitem data "cmd");
    cmd ← lift (InterprocessCommand.getitem cmd);
    dispatch cmd data.

(** The command run when a step ends in an uncaught exception. *)
Definition report {A} (r : result A * State) : State :=
  match r with
  | (Ok _, st) => st
  | (Raise e, st) => (module_error (str_exn e) st).2
  end.

(** One iteration of [while True], for the line [readline()] returned. *)
Definition loop_body (line : string) (st : State) : State :=
  let input_line := strip line in
  if String.eqb input_line "" then st
  else
    match json_loads input_line with
    | Ok input_data =>
        if negb (truthy input_data) || negb (is_dict input_data) then
          (module_error ("<ChatAI Module> Malformed module input: "
                         +:+ py_str input_data) st).2
        else report (handle_module_input input_data st)
    | Raise (JSONDecodeError _) =>
        (module_error ("Invalid JSON input: " +:+ input_line) st).2
    | Raise e => (module_error (str_exn e) st).2
    end.

(** The loop has no exit; [main_loop lines] is the state after the lines
    read so far. *)
Definition main_loop (lines : list string) (st : State) : State :=
  fold_left (λ st line, loop_body line st) lines st.

(** The [try] block that runs before the loop.  [dotenv] is the outcome
    of creating user_files/.env when it is absent and reading it
    (python-dotenv): the variables it defines, which override the
    environment, or the error raised. *)
Definition startup (dotenv : result (gmap string string)) (st : State) : State :=
  report
    ((vars ← lift dotenv;
      modify (λ st, set_environ (vars ∪ environ st) st);;
      ok ← check_credentials;
      (if ok : bool then
         wd ← ChatAIWithDocuments_init;
         modify (set_withDocumentsAI (Some wd));;
         w ← ChatAIWithoutDocuments_init false;
         modify (set_withoutDocumentsAI (Some w));;
         w ← ChatAIWithoutDocuments_init false;
         modify (set_withoutDocumentsSingleQuery (Some w))
       else mret tt);;
      _module_return (PDict [("status", PStr "success")])) st).

(** [with get_openai_callback() as oa_cb]: a handler that has counted
    nothing yet. *)
Definition enter_loop (st : State) : State :=
  set_oa_cb (Some (Some (mkHandler 0))) st.

(** The process before [__main__] runs. *)
Definition initial (env : gmap string string) (settings : result pyval) (e : Ext)
  : State :=
  mkState env settings None None None None ∅ e [] [].

Definition main (dotenv : result (gmap string string)) (lines : list string)
    (st : State) : State :=
  main_loop lines (enter_loop (startup dotenv st)).

End Dispatcher.

(** ** A concrete runtime

    An instance of [Externals] on which the dispatcher can be run: a
    decoder for the JSON fragment the protocol uses, printers, and a
    scripted chat model. *)

Module Json.

Import Ascii.
Local Open Scope char_scope.

Definition dquote : ascii := ascii_of_nat 34.

(** Writes the double quotes of a line as single quotes in the text below. *)
Fixpoint dq (s : string) : string :=
  match s with
  | EmptyString => EmptyString
  | String c s' => String (if Ascii.eqb c "'" then dquote else c) (dq s')
  end.

Definition is_ws (c : ascii) : bool :=
  Ascii.eqb c " " || Ascii.eqb c (ascii_of_nat 9)
  || Ascii.eqb c (ascii_of_nat 10) || Ascii.eqb c (ascii_of_nat 13).

Fixpoint skip_ws (s : string) : string :=
  match s with
  | String c s' => if is_ws c then skip_ws s' else s
  | EmptyString => s
  end.

Definition unescape (c : ascii) : option ascii :=
  if Ascii.eqb c dquote then Some dquote
  else if Ascii.eqb c "\" then Some "\"
  else if Ascii.eqb c "/" then Some "/"
  else if Ascii.eqb c "b" then Some (ascii_of_nat 8)
  else if Ascii.eqb c "f" then Some (ascii_of_nat 12)
  else if Ascii.eqb c "n" then Some (ascii_of_nat 10)
  else if Ascii.eqb c "r" then Some (ascii_of_nat 13)
  else if Ascii.eqb c "t" then Some (ascii_of_nat 9)
  else None.

(** The text after an opening quote: the string's content and the rest.
    Escapes of the form \uXXXX are outside the fragment. *)
Fixpoint scan_string (s : string) : option (string * string) :=
  match s with
  | EmptyString => None
  | String c s' =>
      if Ascii.eqb c dquote then Some (EmptyString, s')
      else if Ascii.eqb c "\" then
        match s' with
        | String e s'' =>
            match unescape e, scan_string s'' with
            | Some ch, Some (body, rest) => Some (String ch body, rest)
            | _, _ => None
            end
        | EmptyString => None
        end
      else if (nat_of_ascii c <? 32)%nat then None
      else
        match scan_string s' with
        | Some (body, rest) => Some (String c body, rest)
        | None => None
        end
  end.

Definition digit (c : ascii) : option Z :=
  let n := nat_of_ascii c in
  if ((48 <=? n) && (n <=? 57))%nat then Some (Z.of_nat (n - 48)) else None.

(** Value of the leading digits, their number, and the rest. *)
Fixpoint scan_digits (s : string) (acc : Z) (n : nat) : Z * nat * string :=
  match s with
  | String c s' =>
      match digit c with
      | Some d => scan_digits s' (10 * acc + d)%Z (S n)
      | None => (acc, n, s)
      end
  | EmptyString => (acc, n, s)
  end.

(** Integers and decimal fractions; a fraction is kept as the exact
    rational.  Exponent notation is outside the fragment. *)
Definition scan_number (s : string) : option (pyval * string) :=
  let '(neg, s1) :=
    match s with
    | String c r => if Ascii.eqb c "-" then (true, r) else (false, s)
    | EmptyString => (false, s)
    end in
  let '(ip, n, s2) :=
    match s1 with
    | String c r => if Ascii.eqb c "0" then (0%Z, 1%nat, r) else scan_digits s1 0 0
    | EmptyString => (0%Z, 0%nat, s1)
    end in
  let sign (z : Z) := if neg : bool then (- z)%Z else z in
  match n with
  | O => None
  | S _ =>
      match s2 with
      | String c r =>
          if Ascii.eqb c "." then
            let '(fp, k, s3) := scan_digits r 0 0 in
            match k with
            | O => Some (PInt (sign ip), s2)
            | S _ =>
                let den := (10 ^ Z.of_nat k)%Z in
                Some (PFloat (Qmake (sign (ip * den + fp)%Z) (Z.to_pos den)), s3)
            end
          else Some (PInt (sign ip), s2)
      | EmptyString => Some (PInt (sign ip), s2)
      end
  end.

(** [prefix p s]: the rest of [s] after the literal [p]. *)
Fixpoint after (p s : string) : option string :=
  match p, s with
  | EmptyString, _ => Some s
  | String a p', String b s' => if Ascii.eqb a b then after p' s' else None
  | _, EmptyString => None
  end.

Fixpoint parse_value (fuel : nat) (s : string) : option (pyval * string) :=
  match fuel with
  | O => None
  | S fuel =>
      match skip_ws s with
      | EmptyString => None
      | String c r as s0 =>
          if Ascii.eqb c "{" then
            match skip_ws r with
            | String c' r' =>
                if Ascii.eqb c' "}" then Some (PDict [], r')
                else parse_members fuel r []
            | EmptyString => None
            end
          else if Ascii.eqb c "[" then
            match skip_ws r with
            | String c' r' =>
                if Ascii.eqb c' "]" then Some (PList [], r')
                else parse_elements fuel r []
            | EmptyString => None
            end
          else if Ascii.eqb c dquote then
            match scan_string r with
            | Some (body, rest) => Some (PStr body, rest)
            | None => None
            end
          else
            match after "null" s0, after "true" s0, after "false" s0 with
            | Some rest, _, _ => Some (PNone, rest)
            | _, Some rest, _ => Some (PBool true, rest)
            | _, _, Some rest => Some (PBool false, rest)
            | _, _, _ => scan_number s0
            end
      end
  end
with parse_elements (fuel : nat) (s : string) (acc : list pyval)
  : option (pyval * string) :=
  match fuel with
  | O => None
  | S fuel =>
      match parse_value fuel s with
      | Some (v, r) =>
          match skip_ws r with
          | String c r' =>
              if Ascii.eqb c "," then parse_elements fuel r' (acc ++ [v])
              else if Ascii.eqb c "]" then Some (PList (acc ++ [v]), r')
              else None
          | EmptyString => None
          end
      | None => None
      end
  end
with parse_members (fuel : nat) (s : string) (acc : list (string * pyval))
  : option (pyval * string) :=
  match fuel with
  | O => None
  | S fuel =>
      match skip_ws s with
      | String c r =>
          if Ascii.eqb c dquote then
            match scan_string r with
            | Some (k, r1) =>
                match skip_ws r1 with
                | String c1 r2 =>
                    if Ascii.eqb c1 ":" then
                      match parse_value fuel r2 with
                      | Some (v, r3) =>
                          match skip_ws r3 with
                          | String c3 r4 =>
                              if Ascii.eqb c3 "," then
                                parse_members fuel r4 (dict_set k v acc)
                              else if Ascii.eqb c3 "}" then
                                Some (PDict (dict_set k v acc), r4)
                              else None
                          | EmptyString => None
                          end
                      | None => None
                      end
                    else None
                | EmptyString => None
                end
            | None => None
            end
          else None
      | EmptyString => None
      end
  end.

(** The decoder: one value, surrounded by whitespace only. *)
Definition loads (s : string) : result pyval :=
  match parse_value (2 * String.length s + 2) s with
  | Some (v, rest) =>
      match skip_ws rest with
      | EmptyString => Ok v
      | _ => Raise (JSONDecodeError "Extra data")
      end
  | None => Raise (JSONDecodeError "Expecting value")
  end.

End Json.

Module Demo.

(** Text of a value, with [q] as the string quote and the given names for
    the three constants.  A float is shown as its fraction. *)
Fixpoint show (q none true false : string) (v : pyval) : string :=
  match v with
  | PNone => none
  | PBool b => if b then true else false
  | PInt z => pretty z
  | PFloat x => pretty (Qnum x) +:+ "/" +:+ pretty (Z.pos (Qden x))
  | PStr s => q +:+ s +:+ q
  | PList l =>
      "[" +:+
      (fix items (l : list pyval) : string :=
         match l with
         | [] => ""
         | [x] => show q none true false x
         | x :: l' => show q none true false x +:+ ", " +:+ items l'
         end) l +:+ "]"
  | PDict d =>
      "{" +:+
      (fix items (d : list (string * pyval)) : string :=
         match d with
         | [] => ""
         | [(k, x)] => q +:+ k +:+ q +:+ ": " +:+ show q none true false x
         | (k, x) :: d' =>
             q +:+ k +:+ q +:+ ": " +:+ show q none true false x +:+ ", " +:+ items d'
         end) d +:+ "}"
  end.

Definition repr (v : pyval) : string := show "'" "None" "True" "False" v.

Definition str (v : pyval) : string :=
  match v with PStr s => s | _ => repr v end.

Definition dumps (v : pyval) : string :=
  show (String Json.dquote EmptyString) "null" "true" "false" v.

(** A chat model that always answers, at a cost of one cent a request;
    the external world counts the requests served. *)
Definition invoke (e : nat) (rq : Request) : nat * Q * result pyval :=
  (S e, 1 # 100, Ok (PStr "answer")).

Definition new (env : gmap string string) (settings : result pyval) (e : nat)
  : nat * result unit := (e, Ok tt).

Definition wd (c : wd_call) (e : nat) (m : list turn) : Outcome nat :=
  match c with
  | WD_human_message query =>
      mkOutcome (S e) (m ++ [Human query; AI (PStr "answer")]) (1 # 100)
        (Ok (PList [PStr "answer"; PList []]))
  | WD_explain_topic _ _ => mkOutcome (S e) [] (1 # 100) (Ok (PStr "explanation"))
  | WD_add_document_from_path _ => mkOutcome e m 0 (Ok PNone)
  | WD_clear_documents => mkOutcome e m 0 (Ok PNone)
  | WD_split_document _ =>
      mkOutcome e m 0 (Ok (PList [PDict [("page_content", PStr "chunk")]]))
  end.

Definition ci (c : ci_call) (handle : ChatOpenAI) (e : nat) (m : list turn)
  : Outcome nat :=
  match c with
  | CI_explain_topic _ _ => mkOutcome (S e) m (1 # 100) (Ok (PStr "explanation"))
  | CI_generate_cards _ _ => mkOutcome (S e) m (1 # 100) (Ok (PStr "[]"))
  end.

(** A constructor that wants a number for the temperature and a key that
    is not empty, passed or else found in OPENAI_API_KEY. *)
Definition new_handle (env : gmap string string) (args : ChatOpenAI)
  : result ChatOpenAI :=
  let key := from_option Some (env !! "OPENAI_API_KEY") (openai_api_key args) in
  match co_temperature args, key with
  | (PInt _ | PFloat _), Some k =>
      if String.eqb k "" then
        Raise (OtherError "ValidationError" "Did not find openai_api_key")
      else
        Ok (mkChatOpenAI (co_temperature args) (co_model_name args) (Some k)
              (openai_api_base args) (model_kwargs args))
  | (PInt _ | PFloat _), None =>
      Raise (OtherError "ValidationError" "Did not find openai_api_key")
  | _, _ => Raise (OtherError "ValidationError" "value is not a valid float")
  end.

(** A chain that stores [str] inputs only. *)
Definition save (input reply : pyval) : result (list turn) :=
  Raise (OtherError "ValidationError" "str type expected").

Definition externals : Externals :=
  {| Ext := nat; ChatOpenAI_new := new_handle; save_context := save;
     llm_invoke := invoke; wd_new := new; wd_step := wd; ci_step := ci;
     json_loads := Json.loads; json_dumps := dumps; py_str := str; py_repr := repr |}.

(** Settings and environment of a Copilot installation, and of one with
    no credentials at all. *)
Definition copilot_settings : pyval :=
  PDict [("temperature", PInt 0); ("llmModel", PStr "gpt-4");
         ("llmProvider", PStr "github_copilot")].

Definition copilot_env : gmap string string := {["GITHUB_COPILOT_TOKEN" := "ghu_token"]}.

(** The process after a successful start, at loop entry. *)
Definition ready : @State externals :=
  enter_loop (startup (Ok ∅) (@initial externals copilot_env (Ok copilot_settings) 0%nat)).

(** The process after a start with no credentials and empty settings. *)
Definition bare : @State externals :=
  enter_loop (startup (Ok ∅) (@initial externals ∅ (Ok (PDict [])) 0%nat)).

(** Input lines. *)
Definition ask_hi : string :=
  Json.dq "{'cmd': 'ASK_CONVERSATION_NO_DOCUMENTS', 'query': 'hi'}".
Definition ask_x : string :=
  Json.dq "{'cmd': 'ASK_CONVERSATION_NO_DOCUMENTS', 'query': 'X'}".
Definition clear : string := Json.dq "{'cmd': 'CLEAR_CONVERSATION'}".
Definition unknown : string := Json.dq "{'cmd': 'FOO'}".
Definition not_json : string := "not json".
Definition blank : string := "   ".

End Demo.

(** ** Observations on runs and invariants of the loop *)

Section Observations.

Context {E : Externals}.

(** The line printed by [module_error text]. *)
Definition error_line (text : string) : pyval :=
  PDict [("cmd", PStr "SUBMODULE_ERROR"); ("data", PDict [("error", PStr text)])].

(** The line printed by [module_return cmd data] under the handler [cb]. *)
Definition response_line (cmd : IC) (data : list (string * pyval))
    (cb : OpenAICallbackHandler) : pyval :=
  PDict [("cmd", PStr (InterprocessCommand.value cmd));
         ("data", PDict (dict_set "total_cost" (PFloat (total_cost cb)) data))].

(** [say line st]: the state [st] after printing [line]; nothing but
    standard output differs. *)
Definition say (line : pyval) (st : State) : State :=
  set_stdout (stdout st ++ [line])%list st.

(** The payload of an envelope, and the [total_cost] field it carries. *)
Definition payload (line : pyval) : option (list (string * pyval)) :=
  match line with
  | PDict d =>
      match dict_lookup "data" d with
      | Some (PDict data) => Some data
      | _ => None
      end
  | _ => None
  end.

Definition cost_of (line : pyval) : option Q :=
  match payload line with
  | Some data =>
      match dict_lookup "total_cost" data with
      | Some (PFloat q) => Some q
      | _ => None
      end
  | None => None
  end.

(** The response tags, which is what [module_return] is called with. *)
Definition is_response (c : IC) : bool :=
  match c with
  | DID_ASK_CONVERSATION_DOCUMENTS | DID_ASK_CONVERSATION_NO_DOCUMENTS
  | DID_EXPLAIN_TOPIC | DID_GENERATE_CARDS | DID_CLEAR_CONVERSATION
  | DID_ADD_DOCUMENTS | DID_DELETE_ALL_DOCUMENTS | DID_SPLIT_DOCUMENT => true
  | _ => false
  end.

(** The current reading of the cost accumulator. *)
Definition accumulated (st : State) : option Q :=
  match oa_cb st with
  | Some (Some cb) => Some (total_cost cb)
  | _ => None
  end.

Definition nondecreasing (l : list Q) : Prop :=
  ∀ i j a b, (i ≤ j)%nat → l !! i = Some a → l !! j = Some b → (a <= b)%Q.

(** A computation preserves [P] when [P] holds of the state it leaves,
    whether it returns or raises. *)
Definition preserves {A} (P : State → Prop) (m : M A) : Prop :=
  ∀ st, P st → P (m st).2.

(** [P] survives every primitive effect of the loop; [okc] is what is
    known of the costs the callback handler adds. *)
Record stable (okc : Q → Prop) (P : State → Prop) : Prop := mkStable {
  stable_heap : ∀ h st, P st → P (set_heap h st);
  stable_ext : ∀ e st, P st → P (set_ext e st);
  stable_requests : ∀ r st, P st → P (set_requests r st);
  stable_cost : ∀ c st, okc c → P st → P (add_cost c st);
  stable_error : ∀ text st, P st → P (say (error_line text) st);
  stable_return :
    ∀ cmd data st, is_response cmd = true → P st → P (module_return cmd data st).2
}.

Definition costs_satisfy (okc : Q → Prop) : Prop :=
  (∀ e rq, okc (llm_invoke e rq).1.2)
  ∧ (∀ c e m, okc (o_cost (wd_step c e m)))
  ∧ (∀ c h e m, okc (o_cost (ci_step c h e m))).

(** What a line printed inside the loop looks like: an error envelope,
    which has no [total_cost] field, or the envelope of a response tag,
    which has one. *)
Definition envelope_ok (line : pyval) : Prop :=
  (∃ text, line = error_line text ∧ cost_of line = None)
  ∨ (∃ cmd data cost,
       is_response cmd = true
       ∧ line = PDict [("cmd", PStr (InterprocessCommand.value cmd)); ("data", PDict data)]
       ∧ cost_of line = Some cost).

(** The invariant behind the cost property: since [base] was printed, the
    lines are well-formed envelopes whose costs never decrease and never
    exceed the accumulator. *)
Definition cost_inv (base : list pyval) (st : State) : Prop :=
  ∃ acc out,
    accumulated st = Some acc
    ∧ stdout st = (base ++ out)%list
    ∧ Forall envelope_ok out
    ∧ nondecreasing (omap cost_of out)
    ∧ Forall (λ q, (q <= acc)%Q) (omap cost_of out).

(** The provider kind the settings file selects at the moment, and the
    environment variable [check_credentials] looks up for a kind. *)
Definition configured_provider (st : State) : result LLMProviderType :=
  match settings_file st with
  | Ok settings =>
      match py_get settings "llmProvider" (PStr "openai") with
      | Ok provider_str => provider_type_or_default provider_str
      | Raise e => Raise e
      end
  | Raise e => Raise e
  end.

Definition credential_var (t : LLMProviderType) : string :=
  match t with
  | OPENAI => "OPENAI_API_KEY"
  | GITHUB_COPILOT => "GITHUB_COPILOT_TOKEN"
  end.

(** What [handle_module_input] does once the credential check passed. *)
Definition execute (data : pyval) : M unit :=
  cmd ← lift (py_getitem data "cmd");
  cmd ← lift (InterprocessCommand.getitem cmd);
  dispatch cmd data.

(** The ready message. *)
Definition success_line : pyval := PDict [("status", PStr "success")].

(** How the [try] block before the loop ends: the credential check
    passed and the three wrappers were built; or the check found the
    variable [var] unset; or an exception [ex] was raised before any
    wrapper was bound ([Failed]); or [ChatAIWithoutDocuments()] raised
    [ex] after [withDocumentsAI] had been bound ([FailedHalfway]). *)
Inductive outcome : Type :=
| Started
| MissingCredential (var : string)
| Failed (ex : exn)
| FailedHalfway (ex : exn).

Definition startup_outcome (dotenv : result (gmap string string))
    (env : gmap string string) (settings : result pyval) (e : Ext) : outcome :=
  match dotenv with
  | Raise ex => Failed ex
  | Ok vars =>
      match configured_provider (initial (vars ∪ env) settings e) with
      | Raise ex => Failed ex
      | Ok t =>
          match getenv (vars ∪ env) (credential_var t) with
          | None => MissingCredential (credential_var t)
          | Some _ =>
              match (wd_new (vars ∪ env) settings e).2 with
              | Raise ex => Failed ex
              | Ok _ =>
                  match (ChatAIWithoutDocuments_init false
                           (initial (vars ∪ env) settings e)).1 with
                  | Raise ex => FailedHalfway ex
                  | Ok _ => Started
                  end
              end
          end
      end
  end.

(** None of the three wrappers is bound. *)
Definition unbound (st : State) : Prop :=
  withDocumentsAI st = None
  ∧ withoutDocumentsAI st = None
  ∧ withoutDocumentsSingleQuery st = None.

(** Neither of the two without-documents wrappers is bound. *)
Definition conversation_unbound (st : State) : Prop :=
  withoutDocumentsAI st = None
  ∧ withoutDocumentsSingleQuery st = None.

(** [st] has the environment, the settings and the wrappers of [st0],
    and a callback handler is bound. *)
Definition same_setup (st0 st : State) : Prop :=
  environ st = environ st0
  ∧ settings_file st = settings_file st0
  ∧ withDocumentsAI st = withDocumentsAI st0
  ∧ withoutDocumentsAI st = withoutDocumentsAI st0
  ∧ withoutDocumentsSingleQuery st = withoutDocumentsSingleQuery st0
  ∧ is_Some (accumulated st).

(** The loop is running with the three wrappers bound: each wrapper's
    chain reads the wrapper's own buffer, the three buffers are three
    objects, and the credential check passes. *)
Record Ready (st : State) (wd : ChatAIWithDocuments)
    (w sq : ChatAIWithoutDocuments) : Prop := mkReady {
  ready_wd : withDocumentsAI st = Some wd;
  ready_w : withoutDocumentsAI st = Some w;
  ready_sq : withoutDocumentsSingleQuery st = Some sq;
  ready_cb : is_Some (accumulated st);
  ready_credentials : check_credentials st = (Ok true, st);
  ready_chain_w : cc_memory (conversationChain w) = memory w
                  ∧ cc_llm (conversationChain w) = llm w;
  ready_chain_sq : cc_memory (conversationChain sq) = memory sq
                   ∧ cc_llm (conversationChain sq) = llm sq;
  ready_distinct : wd_memory wd ≠ memory w
                   ∧ wd_memory wd ≠ memory sq
                   ∧ memory w ≠ memory sq
}.

(** The command tag of an envelope. *)
Definition tag_of (line : pyval) : option pyval :=
  match line with
  | PDict d => dict_lookup "cmd" d
  | _ => None
  end.

(** The tag of the response to an ASK_CONVERSATION_NO_DOCUMENTS command,
    according to how the model call [r] ended. *)
Definition ask_tag (r : result pyval) : string :=
  if is_ok r then "DID_ASK_CONVERSATION_NO_DOCUMENTS" else "SUBMODULE_ERROR".

End Observations.

(** ** GitHubCopilotTokenDialog.py *)

Module GitHubCopilotTokenDialog.

(** [QLineEdit.EchoMode] and the result code of a [QDialog]. *)
Inductive EchoMode : Type := Normal | Password.
Inductive DialogCode : Type := Rejected | Accepted.

(** [Qt.CheckState.Checked.value]. *)
Definition Checked : Z := 2.

(** The dialog and what its slots touch.  [token_input] is the text of the
    line edit; [callback] is [None] for [None] and any other falsy object,
    and a callable is represented by what one call of it returns or raises;
    [finished] is [None] while the dialog is open.  [dotenv] holds the
    variables of the .env file at [dotenv_path] and [dotenv_error] the
    error [set_key] raises when the file cannot be written (python-dotenv);
    [warnings] logs the message boxes shown and [calls] the tokens the
    callback was called with. *)
Record Dialog : Type := mkDialog {
  token_input : string;
  echo_mode : EchoMode;
  callback : option (string → result unit);
  finished : option DialogCode;
  dotenv : gmap string string;
  dotenv_error : option exn;
  warnings : list (string * string);
  calls : list string
}.

Definition set_token_input (x : string) (self : Dialog) : Dialog :=
  mkDialog x (echo_mode self) (callback self) (finished self) (dotenv self)
    (dotenv_error self) (warnings self) (calls self).
Definition set_echo_mode (x : EchoMode) (self : Dialog) : Dialog :=
  mkDialog (token_input self) x (callback self) (finished self) (dotenv self)
    (dotenv_error self) (warnings self) (calls self).
Definition set_callback (x : option (string → result unit)) (self : Dialog) : Dialog :=
  mkDialog (token_input self) (echo_mode self) x (finished self) (dotenv self)
    (dotenv_error self) (warnings self) (calls self).
Definition set_finished (x : option DialogCode) (self : Dialog) : Dialog :=
  mkDialog (token_input self) (echo_mode self) (callback self) x (dotenv self)
    (dotenv_error self) (warnings self) (calls self).
Definition set_dotenv (x : gmap string string) (self : Dialog) : Dialog :=
  mkDialog (token_input self) (echo_mode self) (callback self) (finished self) x
    (dotenv_error self) (warnings self) (calls self).
Definition set_warnings (x : list (string * string)) (self : Dialog) : Dialog :=
  mkDialog (token_input self) (echo_mode self) (callback self) (finished self)
    (dotenv self) (dotenv_error self) x (calls self).
Definition set_calls (x : list string) (self : Dialog) : Dialog :=
  mkDialog (token_input self) (echo_mode self) (callback self) (finished self)
    (dotenv self) (dotenv_error self) (warnings self) x.

(** [__init__] with [setup_ui]: an empty, masked line edit and no callback,
    over the .env file as it is. *)
Definition init (file : gmap string string) (file_error : option exn) : Dialog :=
  mkDialog "" Password None None file file_error [] [].

Definition toggle_token_visibility (state : Z) (self : Dialog) : Dialog :=
  if (state =? Checked)%Z then set_echo_mode Normal self
  else set_echo_mode Password self.

(** [set_key(dotenv_path, key, value)]. *)
Definition set_key (key value : string) (self : Dialog) : result unit * Dialog :=
  match dotenv_error self with
  | Some e => (Raise e, self)
  | None => (Ok tt, set_dotenv (<[key := value]> (dotenv self)) self)
  end.

Definition save_token (self : Dialog) : result unit * Dialog :=
  let token := strip (token_input self) in
  if String.eqb token "" then
    (Ok tt,
     set_warnings
       (warnings self
        ++ [("Invalid Token", "Please enter a valid GitHub Copilot token.")])%list self)
  else
    match set_key "GITHUB_COPILOT_TOKEN" token self with
    | (Raise e, self) => (Raise e, self)
    | (Ok _, self) =>
        match callback self with
        | Some call =>
            let self := set_calls (calls self ++ [token])%list self in
            match call token with
            | Raise e => (Raise e, self)
            | Ok _ => (Ok tt, set_finished (Some Accepted) self)
            end
        | None => (Ok tt, set_finished (Some Accepted) self)
        end
    end.

Definition on_token_save (call : option (string → result unit)) (self : Dialog)
  : Dialog := set_callback call self.

(** The Cancel button: [QDialog.reject]. *)
Definition reject (self : Dialog) : Dialog := set_finished (Some Rejected) self.

End GitHubCopilotTokenDialog.

(** ** Triples, footprints and further observations *)

(** [starts_clean s]: [s] does not begin with a whitespace character. *)
Definition starts_clean (s : string) : Prop := space_prefix s = None.

(** The list of the results of [f], or the first error. *)
Fixpoint collect {A B} (f : A → result B) (l : list A) : result (list B) :=
  match l with
  | [] => Ok []
  | x :: l' =>
      match f x with
      | Ok y =>
          match collect f l' with
          | Ok ys => Ok (y :: ys)
          | Raise e => Raise e
          end
      | Raise e => Raise e
      end
  end.

Section Footprints.

Context {E : Externals}.

(** [triple P m Q Qe]: run from a state in [P], [m] either returns a value
    and a state in [Q], or raises and leaves a state in [Qe]. *)
Definition triple {A} (P : State → Prop) (m : M A) (Q : A → State → Prop)
    (Qe : State → Prop) : Prop :=
  ∀ st, P st →
    match m st with
    | (Ok a, st') => Q a st'
    | (Raise _, st') => Qe st'
    end.

(** [st] has the environment, the settings and the wrappers of [st0]. *)
Definition same_bindings (st0 st : State) : Prop :=
  environ st = environ st0
  ∧ settings_file st = settings_file st0
  ∧ withDocumentsAI st = withDocumentsAI st0
  ∧ withoutDocumentsAI st = withoutDocumentsAI st0
  ∧ withoutDocumentsSingleQuery st = withoutDocumentsSingleQuery st0.

(** The three wrappers are bound to [wd], [w] and [sq], and [Q] holds of
    the conversation buffer of [w] and of the request log. *)
Definition conversation (wd : ChatAIWithDocuments) (w sq : ChatAIWithoutDocuments)
    (Q : list turn → list Request → Prop) (st : State) : Prop :=
  withDocumentsAI st = Some wd
  ∧ withoutDocumentsAI st = Some w
  ∧ withoutDocumentsSingleQuery st = Some sq
  ∧ Q (buffer st (memory w)) (requests st).

(** Nothing has been printed since [base]; exactly one line has. *)
Definition quiet (base : list pyval) (st : State) : Prop := stdout st = base.
Definition once (base : list pyval) (st : State) : Prop :=
  ∃ o, stdout st = (base ++ [o])%list.

End Footprints.

(** Further input lines and dialogs for the concrete runtime. *)
Module Scenario.

Definition ask_without_query : string :=
  Json.dq "{'cmd': 'ASK_CONVERSATION_NO_DOCUMENTS'}".
Definition no_cmd : string := Json.dq "{'query': 'hi'}".
Definition empty_object : string := "{}".
Definition explain : string :=
  Json.dq ("{'cmd': 'EXPLAIN_TOPIC', 'topic': 'cells', 'options': {'custom_prompt': '', "
           +:+ "'level_of_detail': 'low', 'level_of_expertise': 'novice', "
           +:+ "'use_documents': false, 'language': 'English'}}").
(** U+00A0, U+3000 and U+0085 in UTF-8, and a line made of whitespace of
    one, two and three bytes. *)
Definition nbsp : string :=
  String (Ascii.ascii_of_nat 194) (String (Ascii.ascii_of_nat 160) "").
Definition ideographic_space : string :=
  String (Ascii.ascii_of_nat 227)
    (String (Ascii.ascii_of_nat 128) (String (Ascii.ascii_of_nat 128) "")).
Definition next_line : string :=
  String (Ascii.ascii_of_nat 194) (String (Ascii.ascii_of_nat 133) "").
Definition unicode_blank : string :=
  nbsp +:+ String (Ascii.ascii_of_nat 9) "" +:+ ideographic_space.

Definition add_two_one_bad : string :=
  Json.dq "{'cmd': 'ADD_DOCUMENTS', 'documents': [{'path': 'a.pdf'}, {'name': 'b'}]}".

(** A dialog in which a space, a no-break space and a tab were typed. *)
Definition typed_blanks : GitHubCopilotTokenDialog.Dialog :=
  GitHubCopilotTokenDialog.set_token_input
    (" " +:+ nbsp +:+ String (Ascii.ascii_of_nat 9) "")
    (GitHubCopilotTokenDialog.init ∅ None).

(** A callback that does nothing, and a dialog in which "ghu_abc", padded
    with spaces and no-break spaces, was typed after that callback was
    registered. *)
Definition nothing (token : string) : result unit := Ok tt.

Definition typed : GitHubCopilotTokenDialog.Dialog :=
  GitHubCopilotTokenDialog.set_token_input (" " +:+ nbsp +:+ "ghu_abc" +:+ nbsp +:+ " ")
    (GitHubCopilotTokenDialog.on_token_save (Some nothing)
       (GitHubCopilotTokenDialog.init {["OPENAI_API_KEY" := "sk"]} None)).

(** The parts of [explain] once decoded. *)
Definition explain_options : list (string * pyval) :=
  [("custom_prompt", PStr ""); ("level_of_detail", PStr "low");
   ("level_of_expertise", PStr "novice"); ("use_documents", PBool false);
   ("language", PStr "English")].
Definition explain_object : list (string * pyval) :=
  [("cmd", PStr "EXPLAIN_TOPIC"); ("topic", PStr "cells");
   ("options", PDict explain_options)].

(** The handle and the wrappers of the Copilot installation. *)
Definition handle : ChatOpenAI :=
  get_llm_arguments Demo.copilot_env (GitHubCopilotProvider (PStr "gpt-4") (PInt 0)).
Definition wrapper (l : loc) : ChatAIWithoutDocuments :=
  mkChatAIWithoutDocuments handle l (mkConversationChain handle l false).
Definition installed : @State Demo.externals :=
  @initial Demo.externals Demo.copilot_env (Ok Demo.copilot_settings) 0%nat.

(** An installation whose settings name a provider that does not exist. *)
Definition bogus : @State Demo.externals :=
  @initial Demo.externals {["OPENAI_API_KEY" := "sk"]}
    (Ok (PDict [("llmProvider", PStr "bogus")])) 0%nat.

End Scenario.

(** * Properties *)

Section Properties.

Context {E : Externals}.

(** Unfolds the plumbing of the state-and-exception monad. *)
Ltac run :=
  cbv [mbind mret M_bind M_ret bind ret lift gets modify load_settings global
       try_except report module_error _module_return say].

(** ** Whitespace *)

Lemma lstrip_eq (s : string) :
  lstrip s = match space_prefix s with Some r => lstrip r | None => s end.
Proof.
  destruct s as [|c1 s1]; [reflexivity|]. cbn [lstrip space_prefix].
  destruct (py_isspace c1); [reflexivity|].
  destruct s1 as [|c2 s2]; [reflexivity|]. cbn iota.
  destruct (py_isspace2 c1 c2); [reflexivity|].
  destruct s2 as [|c3 s3]; [reflexivity|]. cbn iota.
  by destruct (py_isspace3 c1 c2 c3).
Qed.

Lemma all_space_eq (s : string) :
  all_space s
  = match s with
    | EmptyString => true
    | _ => match space_prefix s with Some r => all_space r | None => false end
    end.
Proof.
  destruct s as [|c1 s1]; [reflexivity|]. cbn [all_space space_prefix].
  destruct (py_isspace c1); [reflexivity|].
  destruct s1 as [|c2 s2]; [reflexivity|]. cbn iota.
  destruct (py_isspace2 c1 c2); [reflexivity|].
  destruct s2 as [|c3 s3]; [reflexivity|]. cbn iota.
  by destruct (py_isspace3 c1 c2 c3).
Qed.

Lemma space_prefix_length (s r : string) :
  space_prefix s = Some r → (String.length r < String.length s)%nat.
Proof.
  destruct s as [|c1 [|c2 [|c3 s3]]]; cbn [space_prefix]; intros H;
    repeat case_match; simplify_eq; simpl; lia.
Qed.

Lemma space_ind (P : string → Prop) :
  (∀ s, space_prefix s = None → P s) →
  (∀ s r, space_prefix s = Some r → P r → P s) →
  ∀ s, P s.
Proof.
  intros Hn Hs s.
  remember (String.length s) as n eqn:Hlen. revert s Hlen.
  induction n as [n IH] using lt_wf_ind. intros s ->.
  destruct (space_prefix s) as [r|] eqn:Hp; [|by apply Hn].
  apply (Hs s r Hp). apply (IH (String.length r)); [|done].
  by apply space_prefix_length.
Qed.

Lemma space_prefix_app (a r b : string) :
  space_prefix a = Some r → space_prefix (a +:+ b) = Some (r +:+ b).
Proof.
  destruct a as [|c1 s1]; [done|].
  change (String c1 s1 +:+ b) with (String c1 (s1 +:+ b)). cbn [space_prefix].
  destruct (py_isspace c1); [by intros [= <-]|].
  destruct s1 as [|c2 s2]; [done|].
  change (String c2 s2 +:+ b) with (String c2 (s2 +:+ b)). cbn iota.
  destruct (py_isspace2 c1 c2); [by intros [= <-]|].
  destruct s2 as [|c3 s3]; [done|].
  change (String c3 s3 +:+ b) with (String c3 (s3 +:+ b)). cbn iota.
  destruct (py_isspace3 c1 c2 c3); [by intros [= <-]|done].
Qed.

Lemma lstrip_all_space (s : string) : all_space s = true → lstrip s = "".
Proof.
  induction s as [s Hp|s r Hp IH] using space_ind;
    rewrite all_space_eq, lstrip_eq, Hp.
  - by destruct s.
  - destruct s; [done|]. exact IH.
Qed.

Lemma all_space_lstrip (s : string) : lstrip s = "" → all_space s = true.
Proof.
  induction s as [s Hp|s r Hp IH] using space_ind;
    rewrite all_space_eq, lstrip_eq, Hp.
  - by intros ->.
  - destruct s; [done|]. exact IH.
Qed.

Lemma strip_all_space (s : string) : all_space s = true → strip s = "".
Proof. intros H. unfold strip. by rewrite (lstrip_all_space s H). Qed.

Lemma rstrip_empty (s : string) : rstrip s = "" → all_space s = true.
Proof.
  destruct s as [|c s]; [done|]. cbn [rstrip].
  by destruct (all_space (String c s)).
Qed.

Lemma lstrip_all_space_inv (s : string) : all_space (lstrip s) = true → all_space s = true.
Proof.
  induction s as [s Hp|s r Hp IH] using space_ind;
    rewrite lstrip_eq, Hp; [done|].
  intros H. rewrite all_space_eq, Hp. destruct s; [done|]. by apply IH.
Qed.

Lemma strip_empty_iff (s : string) : strip s = "" ↔ all_space s = true.
Proof.
  split; [|apply strip_all_space].
  intros H. apply lstrip_all_space_inv. by apply rstrip_empty.
Qed.

Lemma lstrip_starts_clean (s : string) : starts_clean (lstrip s).
Proof.
  induction s as [s Hp|s r Hp IH] using space_ind; rewrite lstrip_eq, Hp; done.
Qed.

Lemma starts_clean_lstrip (s : string) : starts_clean s → lstrip s = s.
Proof. intros H. rewrite lstrip_eq. unfold starts_clean in H. by rewrite H. Qed.

Lemma rstrip_cons (c : Ascii.ascii) (s : string) :
  rstrip (String c s) = "" ∨ rstrip (String c s) = String c (rstrip s).
Proof. cbn [rstrip]. destruct (all_space (String c s)); auto. Qed.

Lemma rstrip_starts_clean (s : string) : starts_clean s → starts_clean (rstrip s).
Proof.
  unfold starts_clean.
  destruct s as [|c1 s1]; [done|].
  destruct (rstrip_cons c1 s1) as [->| ->]; [done|].
  cbn [space_prefix]. destruct (py_isspace c1); [done|].
  destruct s1 as [|c2 s2]; [done|].
  destruct (rstrip_cons c2 s2) as [->| ->]; [done|].
  destruct (py_isspace2 c1 c2); [done|].
  destruct s2 as [|c3 s3]; [done|].
  destruct (rstrip_cons c3 s3) as [->| ->]; [done|].
  by destruct (py_isspace3 c1 c2 c3).
Qed.

Lemma all_space_app (a b : string) :
  all_space a = true → all_space b = true → all_space (a +:+ b) = true.
Proof.
  intros Ha Hb. induction a as [a Hp|a r Hp IH] using space_ind.
  - rewrite all_space_eq, Hp in Ha. by destruct a.
  - rewrite all_space_eq, Hp in Ha.
    rewrite all_space_eq, (space_prefix_app a r b Hp).
    destruct a; [done|]. simpl. by apply IH.
Qed.

Lemma rstrip_split (s : string) : ∃ r, s = rstrip s +:+ r ∧ all_space r = true.
Proof.
  induction s as [|c s (r & Hs & Hr)]; [by exists ""|].
  cbn [rstrip]. destruct (all_space (String c s)) eqn:Ha.
  - by exists (String c s).
  - exists r. split; [|done].
    change (String c (rstrip s) +:+ r) with (String c (rstrip s +:+ r)).
    by rewrite <- Hs.
Qed.

Lemma all_space_rstrip (s : string) : all_space (rstrip s) = true → all_space s = true.
Proof.
  intros H. destruct (rstrip_split s) as (r & Hs & Hr).
  rewrite Hs. by apply all_space_app.
Qed.

Lemma rstrip_idem (s : string) : rstrip (rstrip s) = rstrip s.
Proof.
  induction s as [|c s IH]; [done|].
  destruct (all_space (String c s)) eqn:Ha.
  - cbn [rstrip]. by rewrite Ha.
  - assert (rstrip (String c s) = String c (rstrip s)) as Hr.
    { cbn [rstrip]. by rewrite Ha. }
    rewrite Hr. cbn [rstrip]. rewrite IH.
    destruct (all_space (String c (rstrip s))) eqn:Hb; [|done].
    rewrite <- Hr in Hb. apply all_space_rstrip in Hb. congruence.
Qed.

Lemma strip_idem (s : string) : strip (strip s) = strip s.
Proof.
  unfold strip.
  rewrite (starts_clean_lstrip (rstrip (lstrip s))).
  - apply rstrip_idem.
  - apply rstrip_starts_clean, lstrip_starts_clean.
Qed.

Lemma module_error_say (text : string) (st : State) :
  module_error text st = (Ok tt, say (error_line text) st).
Proof. reflexivity. Qed.

Lemma module_return_say (cmd : IC) data cb (st : State) :
  oa_cb st = Some (Some cb) →
  module_return cmd data st = (Ok tt, say (response_line cmd data cb) st).
Proof. intros H. unfold module_return. rewrite H. reflexivity. Qed.

(** ** Providers and settings *)

(** C1, as amended: for both provider kinds, [validate_credentials]
    returns true exactly when the provider's environment variable
    (OPENAI_API_KEY for the OpenAI provider, GITHUB_COPILOT_TOKEN for the
    GitHub-Copilot provider) is set, whatever its value. *)
Theorem validate_credentials_iff_set (env : gmap string string) (p : Provider) :
  get_api_key_env_var p =
    match kind p with
    | OPENAI => "OPENAI_API_KEY"
    | GITHUB_COPILOT => "GITHUB_COPILOT_TOKEN"
    end
  ∧ (validate_credentials env p = true ↔ is_Some (getenv env (get_api_key_env_var p))).
Proof.
  destruct p; simpl; (split; [reflexivity|]);
    match goal with |- context [getenv env ?v] => destruct (getenv env v) eqn:Hv end;
    split; intros H; try done; try (by eexists); by destruct H.
Qed.

(** C1, counterexample: with OPENAI_API_KEY set to the empty string the
    OpenAI provider validates, although the variable is not non-empty. *)
Lemma validate_credentials_accepts_empty_value :
  validate_credentials {["OPENAI_API_KEY" := ""]}
    (OpenAIProvider (PStr "gpt-3.5-turbo") (PInt 0)) = true
  ∧ getenv {["OPENAI_API_KEY" := ""]}
      (get_api_key_env_var (OpenAIProvider (PStr "gpt-3.5-turbo") (PInt 0)))
    = Some ""
  ∧ ¬ (∃ v, getenv {["OPENAI_API_KEY" := ""]}
              (get_api_key_env_var (OpenAIProvider (PStr "gpt-3.5-turbo") (PInt 0)))
            = Some v ∧ v ≠ "").
Proof.
  split; [reflexivity|]. split; [reflexivity|].
  intros (v & Hv & Hne). vm_compute in Hv. congruence.
Qed.

Lemma load_settings_eq (st : State) : load_settings st = (settings_file st, st).
Proof. reflexivity. Qed.

(** [__init__] on a settings dict: the provider kind, model and
    temperature it reads, and the wrapper it builds around the handle and
    one fresh buffer, unless the constructor of the handle raises. *)
Lemma ChatAIWithoutDocuments_init_dict (d : list (string * pyval)) (verbose : bool)
    (st : State) (t : LLMProviderType) :
  settings_file st = Ok (PDict d) →
  provider_type_or_default (from_option id (PStr "openai") (dict_lookup "llmProvider" d))
    = Ok t →
  let l := fresh (dom (heap st)) in
  ChatAIWithoutDocuments_init verbose st =
    match get_llm (environ st)
            (create_provider t
               (from_option id (PStr "gpt-3.5-turbo") (dict_lookup "llmModel" d))
               (from_option id (PInt 0) (dict_lookup "temperature" d))) with
    | Ok handle =>
        (Ok (mkChatAIWithoutDocuments handle l (mkConversationChain handle l verbose)),
         set_heap (<[l := []]> (heap st)) st)
    | Raise ex => (Raise ex, st)
    end.
Proof.
  intros Hs Ht. unfold ChatAIWithoutDocuments_init. run.
  rewrite Hs. simpl. rewrite Ht. simpl.
  by destruct (get_llm _ _).
Qed.

(** C5: settings with provider "github_copilot" and model "gpt-4" make
    the factory build a GitHub-Copilot provider with model "gpt-4", not
    the default "gpt-4o", and the chat-model handle of that provider, and
    of the wrapper built from these settings, is the one [ChatOpenAI]
    builds for the base URL https://api.githubcopilot.com, the model name
    "gpt-4" and the GitHub-Copilot token; the wrapper is built exactly
    when that constructor returns, and its error is passed on
    otherwise. *)
Theorem copilot_settings_give_copilot_gpt4 (d : list (string * pyval))
    (verbose : bool) (st : State) :
  settings_file st = Ok (PDict d) →
  dict_lookup "llmProvider" d = Some (PStr "github_copilot") →
  dict_lookup "llmModel" d = Some (PStr "gpt-4") →
  let temperature := from_option id (PInt 0) (dict_lookup "temperature" d) in
  let arguments :=
    {| co_temperature := temperature;
       co_model_name := PStr "gpt-4";
       openai_api_key := getenv (environ st) "GITHUB_COPILOT_TOKEN";
       openai_api_base := Some "https://api.githubcopilot.com";
       model_kwargs :=
         [("headers", [("Editor-Version", "vscode/1.95.0");
                       ("Editor-Plugin-Version", "copilot-chat/0.22.4")])] |} in
  create_provider GITHUB_COPILOT (PStr "gpt-4") temperature
    = GitHubCopilotProvider (PStr "gpt-4") temperature
  ∧ LLMProvider.model_name (GitHubCopilotProvider (PStr "gpt-4") temperature)
    ≠ PStr DEFAULT_MODEL
  ∧ get_llm (environ st) (GitHubCopilotProvider (PStr "gpt-4") temperature)
    = ChatOpenAI_new (environ st) arguments
  ∧ match ChatOpenAI_new (environ st) arguments with
    | Ok handle =>
        ∃ w st',
          ChatAIWithoutDocuments_init verbose st = (Ok w, st')
          ∧ llm w = handle
          ∧ cc_llm (conversationChain w) = handle
    | Raise ex => ChatAIWithoutDocuments_init verbose st = (Raise ex, st)
    end.
Proof.
  intros Hs Hp Hm temperature arguments.
  split; [reflexivity|]. split; [discriminate|]. split; [reflexivity|].
  rewrite (ChatAIWithoutDocuments_init_dict d verbose st GITHUB_COPILOT Hs);
    [|by rewrite Hp].
  rewrite Hm.
  change (get_llm (environ st) _) with (ChatOpenAI_new (environ st) arguments).
  destruct (ChatOpenAI_new (environ st) arguments) as [handle|ex]; [|reflexivity].
  by eexists _, _.
Qed.

Lemma provider_type_or_default_unrecognized (v : pyval) :
  v ≠ PStr "openai" → v ≠ PStr "github_copilot" →
  provider_type_or_default v = Ok OPENAI.
Proof.
  intros H1 H2. unfold provider_type_or_default, LLMProviderType_call.
  destruct v; try reflexivity.
  destruct (String.eqb s "openai") eqn:Ha.
  { apply String.eqb_eq in Ha. congruence. }
  destruct (String.eqb s "github_copilot") eqn:Hb.
  { apply String.eqb_eq in Hb. congruence. }
  reflexivity.
Qed.

(** C6: when the llmProvider entry of the settings is not one of the
    recognized identifiers "openai" and "github_copilot", the provider
    kind falls back to OpenAI: the wrapper is built around the handle
    [ChatOpenAI] builds from the model and the temperature alone (no base
    URL, no explicit key), exactly when that constructor returns, and the
    credential check consults OPENAI_API_KEY. *)
Theorem unrecognized_provider_falls_back_to_openai (d : list (string * pyval))
    (v : pyval) (verbose : bool) (st : State) :
  settings_file st = Ok (PDict d) →
  dict_lookup "llmProvider" d = Some v →
  v ≠ PStr "openai" → v ≠ PStr "github_copilot" →
  let model :=
    py_or (from_option id (PStr "gpt-3.5-turbo") (dict_lookup "llmModel" d))
      (PStr "gpt-3.5-turbo") in
  let temperature := from_option id (PInt 0) (dict_lookup "temperature" d) in
  let arguments := mkChatOpenAI temperature model None None [] in
  provider_type_or_default v = Ok OPENAI
  ∧ get_llm (environ st) (OpenAIProvider model temperature)
    = ChatOpenAI_new (environ st) arguments
  ∧ match ChatOpenAI_new (environ st) arguments with
    | Ok handle =>
        ∃ w st',
          ChatAIWithoutDocuments_init verbose st = (Ok w, st')
          ∧ llm w = handle
          ∧ cc_llm (conversationChain w) = handle
    | Raise ex => ChatAIWithoutDocuments_init verbose st = (Raise ex, st)
    end
  ∧ check_credentials st =
      match getenv (environ st) "OPENAI_API_KEY" with
      | Some _ => (Ok true, st)
      | None => (Ok false, say (error_line "Please set OPENAI_API_KEY") st)
      end.
Proof.
  intros Hs Hp H1 H2 model temperature arguments.
  pose proof (provider_type_or_default_unrecognized v H1 H2) as Ht.
  split; [exact Ht|]. split; [reflexivity|]. split.
  - rewrite (ChatAIWithoutDocuments_init_dict d verbose st OPENAI Hs);
      [|by rewrite Hp].
    change (get_llm (environ st) _) with (ChatOpenAI_new (environ st) arguments).
    destruct (ChatOpenAI_new (environ st) arguments) as [handle|ex]; [|reflexivity].
    by eexists _, _.
  - unfold check_credentials. run. rewrite Hs. simpl. rewrite Hp. simpl.
    rewrite Ht. destruct (getenv (environ st) "OPENAI_API_KEY"); reflexivity.
Qed.

(** ** Invariants of the dispatcher *)

Section Preservation.

Variable okc : Q → Prop.
Variable P : State → Prop.
Hypothesis HP : stable okc P.
Hypothesis Hc : costs_satisfy okc.

Lemma preserves_ret {A} (a : A) : preserves P (mret a).
Proof. intros st H. exact H. Qed.

Lemma preserves_lift {A} (r : result A) : preserves P (lift r).
Proof. intros st H. exact H. Qed.

Lemma preserves_gets {A} (f : State → A) : preserves P (gets f).
Proof. intros st H. exact H. Qed.

Lemma preserves_global {A} (name : string) (f : State → option A) :
  preserves P (global name f).
Proof. intros st H. unfold global. destruct (f st); exact H. Qed.

Lemma preserves_bind {A B} (m : M A) (k : A → M B) :
  preserves P m → (∀ a, preserves P (k a)) → preserves P (m ≫= k).
Proof.
  intros Hm Hk st H. specialize (Hm st H). run.
  destruct (m st) as [[a|e] st']; simpl in *; [by apply Hk | exact Hm].
Qed.

Lemma preserves_try_except {A} (m : M A) (h : exn → M A) :
  preserves P m → (∀ e, preserves P (h e)) → preserves P (try_except m h).
Proof.
  intros Hm Hh st H. specialize (Hm st H). unfold try_except.
  destruct (m st) as [[a|e] st']; simpl in *; [exact Hm | by apply Hh].
Qed.

Lemma preserves_for_each {A B} (f : A → M B) (l : list A) :
  (∀ a, preserves P (f a)) → preserves P (for_each f l).
Proof.
  intros Hf. induction l as [|x l IH]; simpl.
  - apply preserves_ret.
  - apply preserves_bind; [apply Hf|]. intros y.
    apply preserves_bind; [exact IH|]. intros ys. apply preserves_ret.
Qed.

Lemma preserves_module_error (text : string) : preserves P (module_error text).
Proof. intros st H. rewrite module_error_say. by apply (stable_error _ _ HP). Qed.

Lemma preserves_module_return (cmd : IC) data :
  is_response cmd = true → preserves P (module_return cmd data).
Proof. intros Hr st H. by apply (stable_return _ _ HP). Qed.

Lemma preserves_predict (chain : ConversationChain) (input : pyval) :
  preserves P (predict chain input).
Proof.
  intros st H. unfold predict.
  destruct Hc as (Hllm & _ & _).
  specialize (Hllm (ext st)
                (mkRequest (cc_llm chain) (buffer st (cc_memory chain)) input)).
  destruct (llm_invoke _ _) as [[e' cost] r]. simpl in Hllm.
  assert (P (add_cost cost
               (set_requests
                  (requests st ++
                     [mkRequest (cc_llm chain) (buffer st (cc_memory chain)) input])%list
                  (set_ext e' st)))) as H1.
  { apply (stable_cost _ _ HP); [exact Hllm|].
    apply (stable_requests _ _ HP). by apply (stable_ext _ _ HP). }
  destruct r as [reply|ex]; simpl; [|exact H1].
  destruct (match input with PStr _ => _ | _ => _ end); simpl;
    [by apply (stable_heap _ _ HP) | exact H1].
Qed.

Lemma preserves_human_message (self : ChatAIWithoutDocuments) (query : pyval) :
  preserves P (human_message self query).
Proof.
  unfold human_message. apply preserves_bind; [apply preserves_predict|].
  intros reply. apply preserves_ret.
Qed.

Lemma preserves_clear_memory (self : ChatAIWithoutDocuments) :
  preserves P (clear_memory self).
Proof. intros st H. by apply (stable_heap _ _ HP). Qed.

Lemma preserves_wd_clear_memory (self : ChatAIWithDocuments) :
  preserves P (wd_clear_memory self).
Proof. intros st H. by apply (stable_heap _ _ HP). Qed.

Lemma preserves_ci_invoke (self : ChatAIWithoutDocuments) (c : ci_call) :
  preserves P (ci_invoke self c).
Proof.
  intros st H. unfold ci_invoke. simpl.
  destruct Hc as (_ & _ & Hci).
  apply (stable_cost _ _ HP); [apply Hci|].
  apply (stable_heap _ _ HP). by apply (stable_ext _ _ HP).
Qed.

Lemma preserves_wd_invoke (self : ChatAIWithDocuments) (c : wd_call) :
  preserves P (wd_invoke self c).
Proof.
  intros st H. unfold wd_invoke. simpl.
  destruct Hc as (_ & Hwd & _).
  apply (stable_cost _ _ HP); [apply Hwd|].
  apply (stable_heap _ _ HP). by apply (stable_ext _ _ HP).
Qed.

(** Splits a goal [preserves P m] along the structure of [m]. *)
Ltac pres :=
  repeat first
    [ apply preserves_ret | apply preserves_lift | apply preserves_gets
    | apply preserves_global | apply preserves_module_error
    | (apply preserves_module_return; reflexivity)
    | apply preserves_human_message | apply preserves_clear_memory
    | apply preserves_wd_clear_memory | apply preserves_ci_invoke
    | apply preserves_wd_invoke
    | (apply preserves_bind; [|intros ?])
    | (apply preserves_try_except; [|intros ?])
    | (apply preserves_for_each; intros ?)
    | match goal with
      | |- preserves _ (if ?b then _ else _) => destruct b
      | |- preserves _ (match ?x with _ => _ end) => destruct x
      end ].

Lemma preserves_check_credentials : preserves P check_credentials.
Proof. unfold check_credentials, load_settings. pres. intros st H. exact H. Qed.

Lemma preserves_dispatch (cmd : IC) (data : pyval) : preserves P (dispatch cmd data).
Proof. destruct cmd; unfold dispatch; pres. Qed.

Lemma preserves_handle_module_input (data : pyval) :
  preserves P (handle_module_input data).
Proof.
  unfold handle_module_input.
  apply preserves_bind; [apply preserves_check_credentials|]. intros ok.
  destruct (negb ok); pres. apply preserves_dispatch.
Qed.

Lemma report_preserved {A} (r : result A * State) : P r.2 → P (report r).
Proof.
  destruct r as [[a|e] st]; simpl; [done|]. intros H.
  by apply (stable_error _ _ HP).
Qed.

Lemma loop_body_preserved (line : string) (st : State) : P st → P (loop_body line st).
Proof.
  intros H. unfold loop_body.
  destruct (String.eqb (strip line) ""); [exact H|].
  destruct (json_loads (strip line)) as [input_data|e].
  - destruct (negb (truthy input_data) || negb (is_dict input_data)).
    + by apply (stable_error _ _ HP).
    + apply report_preserved. by apply preserves_handle_module_input.
  - destruct e; by apply (stable_error _ _ HP).
Qed.

Lemma main_loop_preserved (lines : list string) (st : State) :
  P st → P (main_loop lines st).
Proof.
  revert st. induction lines as [|line lines IH]; intros st H; simpl; [exact H|].
  apply IH. by apply loop_body_preserved.
Qed.

End Preservation.

(** ** The cost accumulator *)

Lemma dict_lookup_set_eq (k : string) (v : pyval) (d : list (string * pyval)) :
  dict_lookup k (dict_set k v d) = Some v.
Proof.
  induction d as [|[k' v'] d IH]; simpl.
  - by rewrite String.eqb_refl.
  - destruct (String.eqb k k') eqn:Hk; simpl; rewrite ?String.eqb_refl, ?Hk; done.
Qed.

Lemma cost_of_response_line (cmd : IC) data (cb : OpenAICallbackHandler) :
  cost_of (response_line cmd data cb) = Some (total_cost cb).
Proof.
  unfold cost_of, payload, response_line. simpl.
  by rewrite dict_lookup_set_eq.
Qed.

Lemma nondecreasing_snoc (l : list Q) (x : Q) :
  nondecreasing l → Forall (λ q, (q <= x)%Q) l → nondecreasing (l ++ [x]).
Proof.
  intros Hl Hx i j a b Hij Hi Hj.
  destruct (decide (j < length l)%nat) as [Hjl|Hjl].
  - rewrite lookup_app_l in Hj; [|done].
    rewrite lookup_app_l in Hi; [|lia]. exact (Hl i j a b Hij Hi Hj).
  - assert (b = x) as ->.
    { rewrite lookup_app_r in Hj; [|lia].
      destruct (j - length l)%nat as [|k]; simpl in Hj; [congruence|].
      by rewrite lookup_nil in Hj. }
    destruct (decide (i < length l)%nat) as [Hil|Hil].
    + rewrite lookup_app_l in Hi; [|done].
      rewrite Forall_forall in Hx. apply Hx. by eapply list_elem_of_lookup_2.
    + rewrite lookup_app_r in Hi; [|lia].
      destruct (i - length l)%nat as [|k]; simpl in Hi.
      * injection Hi as <-. apply Qle_refl.
      * by rewrite lookup_nil in Hi.
Qed.

Lemma cost_inv_stable (base : list pyval) :
  stable (λ c, (0 <= c)%Q) (cost_inv base).
Proof.
  split.
  - intros h st H. exact H.
  - intros e st H. exact H.
  - intros r st H. exact H.
  - intros c st Hc (acc & out & Ha & Ho & Hok & Hnd & Hle).
    unfold accumulated in Ha. unfold add_cost.
    destruct (oa_cb st) as [[cb|]|] eqn:Hcb; try discriminate.
    injection Ha as <-.
    exists (total_cost cb + c)%Q, out.
    split; [reflexivity|]. split; [exact Ho|]. split; [exact Hok|].
    split; [exact Hnd|].
    eapply Forall_impl; [exact Hle|]. simpl. intros q Hq. lra.
  - intros text st (acc & out & Ha & Ho & Hok & Hnd & Hle).
    exists acc, (out ++ [error_line text])%list. unfold say. simpl.
    rewrite Ho. rewrite omap_app. simpl. rewrite app_nil_r.
    split; [exact Ha|]. split; [by rewrite app_assoc|].
    split; [|split; [exact Hnd|exact Hle]].
    apply Forall_app. split; [done|]. constructor; [|constructor].
    left. by exists text.
  - intros cmd data st Hr (acc & out & Ha & Ho & Hok & Hnd & Hle).
    unfold accumulated in Ha.
    destruct (oa_cb st) as [[cb|]|] eqn:Hcb; try discriminate.
    injection Ha as <-.
    rewrite (module_return_say cmd data cb st Hcb). simpl.
    exists (total_cost cb), (out ++ [response_line cmd data cb])%list.
    rewrite omap_app. simpl. rewrite cost_of_response_line. simpl.
    split; [|split; [|split; [|split]]].
    + unfold accumulated. simpl. by rewrite Hcb.
    + rewrite Ho. by rewrite app_assoc.
    + apply Forall_app. split; [done|]. constructor; [|constructor].
      right. exists cmd, (dict_set "total_cost" (PFloat (total_cost cb)) data),
        (total_cost cb).
      split; [done|]. split; [reflexivity|]. apply cost_of_response_line.
    + by apply nondecreasing_snoc.
    + apply Forall_app. split; [done|]. constructor; [apply Qle_refl|constructor].
Qed.

(** C3, as amended: every response printed by [module_return] carries a
    [total_cost] field holding the cost accumulator, SUBMODULE_ERROR
    responses carry no [total_cost] field, and over one run of the loop,
    whose accumulator starts at zero, the [total_cost] values of the
    responses that carry one are non-decreasing (and bounded by the
    final accumulator), provided no call adds a negative cost. *)
Theorem total_cost_attached_and_nondecreasing (lines : list string) (st : State) :
  (∀ e rq, (0 <= (llm_invoke e rq).1.2)%Q) →
  (∀ c e m, (0 <= o_cost (wd_step c e m))%Q) →
  (∀ c h e m, (0 <= o_cost (ci_step c h e m))%Q) →
  (∀ cmd data st' cb,
      oa_cb st' = Some (Some cb) →
      module_return cmd data st' = (Ok tt, say (response_line cmd data cb) st')
      ∧ cost_of (response_line cmd data cb) = Some (total_cost cb))
  ∧ (∀ text st',
      module_error text st' = (Ok tt, say (error_line text) st')
      ∧ cost_of (error_line text) = None)
  ∧ accumulated (enter_loop st) = Some 0%Q
  ∧ ∃ out acc,
      stdout (main_loop lines (enter_loop st)) = (stdout st ++ out)%list
      ∧ Forall envelope_ok out
      ∧ nondecreasing (omap cost_of out)
      ∧ accumulated (main_loop lines (enter_loop st)) = Some acc
      ∧ Forall (λ q, (q <= acc)%Q) (omap cost_of out).
Proof.
  intros Hllm Hwd Hci. split; [|split; [|split]].
  - intros cmd data st' cb Hcb. split; [by apply module_return_say|].
    apply cost_of_response_line.
  - intros text st'. split; reflexivity.
  - reflexivity.
  - assert (cost_inv (stdout st) (main_loop lines (enter_loop st)))
      as (acc & out & Ha & Ho & Hok & Hnd & Hle).
    { apply (main_loop_preserved _ _ (cost_inv_stable (stdout st))).
      - split; [exact Hllm|]. split; [exact Hwd|exact Hci].
      - exists 0%Q, []. unfold accumulated. simpl. rewrite app_nil_r.
        split; [reflexivity|]. split; [reflexivity|]. split; [constructor|].
        split; [|constructor]. intros i j a b _ Hi. by rewrite lookup_nil in Hi. }
    by exists out, acc.
Qed.

(** ** The loop, line by line *)

Lemma main_loop_cons (line : string) (rest : list string) (st : State) :
  main_loop (line :: rest) st = main_loop rest (loop_body line st).
Proof. reflexivity. Qed.

Lemma check_credentials_eq (st : State) :
  check_credentials st =
    match configured_provider st with
    | Raise e => (Raise e, st)
    | Ok t =>
        match getenv (environ st) (credential_var t) with
        | Some _ => (Ok true, st)
        | None => (Ok false, say (error_line ("Please set " +:+ credential_var t)) st)
        end
    end.
Proof.
  unfold check_credentials, configured_provider. run.
  destruct (settings_file st) as [settings|e]; [|reflexivity].
  destruct (py_get settings "llmProvider" (PStr "openai")) as [v|e]; [|reflexivity].
  destruct (provider_type_or_default v) as [[|]|e]; simpl; [| |reflexivity].
  - destruct (getenv (environ st) "OPENAI_API_KEY"); reflexivity.
  - destruct (getenv (environ st) "GITHUB_COPILOT_TOKEN"); reflexivity.
Qed.

Lemma handle_module_input_eq (data : pyval) (st : State) :
  handle_module_input data st =
    match check_credentials st with
    | (Ok true, st') => execute data st'
    | (Ok false, st') => (Ok tt, st')
    | (Raise e, st') => (Raise e, st')
    end.
Proof.
  unfold handle_module_input, execute. run.
  destruct (check_credentials st) as [[[|]|e] st']; reflexivity.
Qed.

(** A line that decodes to a non-empty dict is handed to
    [handle_module_input]. *)
Lemma loop_body_dict (line : string) (d : list (string * pyval)) (st : State) :
  strip line ≠ "" →
  json_loads (strip line) = Ok (PDict d) →
  d ≠ [] →
  loop_body line st = report (handle_module_input (PDict d) st).
Proof.
  intros Hne Hd Hd0. unfold loop_body.
  apply String.eqb_neq in Hne. rewrite Hne, Hd.
  destruct d; [done|reflexivity].
Qed.

(** C4, as amended: for every input line that is non-empty after
    stripping surrounding whitespace and is not valid JSON, the loop
    prints exactly one SUBMODULE_ERROR response, whose payload holds an
    error string, changes nothing else, and goes on with the lines that
    follow; a line made of whitespace only is skipped without any
    response, and the loop goes on as well. *)
Theorem invalid_json_reported_once (line msg : string) (rest : list string)
    (st : State) :
  strip line ≠ "" →
  json_loads (strip line) = Raise (JSONDecodeError msg) →
  loop_body line st = say (error_line ("Invalid JSON input: " +:+ strip line)) st
  ∧ main_loop (line :: rest) st
    = main_loop rest (say (error_line ("Invalid JSON input: " +:+ strip line)) st)
  ∧ ∀ blank,
      all_space blank = true →
      loop_body blank st = st ∧ main_loop (blank :: rest) st = main_loop rest st.
Proof.
  intros Hne Hd.
  assert (loop_body line st
          = say (error_line ("Invalid JSON input: " +:+ strip line)) st) as Hb.
  { unfold loop_body. apply String.eqb_neq in Hne. by rewrite Hne, Hd. }
  split; [exact Hb|]. split; [by rewrite main_loop_cons, Hb|].
  intros blank Hblank.
  assert (loop_body blank st = st) as Hs.
  { unfold loop_body. by rewrite (strip_all_space blank Hblank). }
  split; [exact Hs|]. by rewrite main_loop_cons, Hs.
Qed.


(** C2, as amended: for a line that decodes to a command object whose
    tag is not a request tag, the line is silently ignored only when the
    credential check passes and the tag is the name of a member of
    [InterprocessCommand] (a response tag); in every other case, and in
    particular for every tag that is not a member name, exactly one
    SUBMODULE_ERROR response is printed.  Nothing else changes, and the
    loop goes on with the next line. *)
Theorem unrecognized_tag_reported_or_ignored (line : string)
    (d : list (string * pyval)) (tag : pyval) (rest : list string) (st : State) :
  strip line ≠ "" →
  json_loads (strip line) = Ok (PDict d) →
  dict_lookup "cmd" d = Some tag →
  (∀ c, InterprocessCommand.getitem tag = Ok c → is_request c = false) →
  (∃ text,
     loop_body line st =
       match (check_credentials st).1, InterprocessCommand.getitem tag with
       | Ok true, Ok _ => st
       | _, _ => say (error_line text) st
       end)
  ∧ main_loop (line :: rest) st = main_loop rest (loop_body line st).
Proof.
  intros Hne Hd Htag Hun. split; [|reflexivity].
  assert (d ≠ []) as Hd0 by (intros ->; discriminate).
  rewrite (loop_body_dict line d st Hne Hd Hd0).
  rewrite handle_module_input_eq, check_credentials_eq.
  destruct (configured_provider st) as [t|e]; simpl.
  2:{ by exists (str_exn e). }
  destruct (getenv (environ st) (credential_var t)); simpl.
  2:{ by exists ("Please set " +:+ credential_var t). }
  unfold execute. run. simpl. rewrite Htag.
  destruct (InterprocessCommand.getitem tag) as [c|e] eqn:Hc; simpl.
  - exists "". specialize (Hun c eq_refl). destruct c; try discriminate; reflexivity.
  - by exists (str_exn e).
Qed.

(** ** Startup *)

Lemma configured_provider_dict (st : State) (t : LLMProviderType) :
  configured_provider st = Ok t →
  ∃ d, settings_file st = Ok (PDict d)
       ∧ provider_type_or_default
           (from_option id (PStr "openai") (dict_lookup "llmProvider" d)) = Ok t.
Proof.
  unfold configured_provider. intros H.
  destruct (settings_file st) as [settings|e]; [|discriminate].
  destruct settings; try discriminate. by exists d.
Qed.

Lemma startup_started (vars env : gmap string string) (settings : result pyval)
    (e : Ext) :
  startup_outcome (Ok vars) env settings e = Started →
  ∃ handle e',
    let l0 := fresh (dom (∅ : gmap loc (list turn))) in
    let h1 : gmap loc (list turn) := <[l0 := []]> ∅ in
    let l1 := fresh (dom h1) in
    let h2 := <[l1 := []]> h1 in
    let l2 := fresh (dom h2) in
    let h3 := <[l2 := []]> h2 in
    startup (Ok vars) (initial env settings e) =
      mkState (vars ∪ env) settings
        (Some (mkChatAIWithDocuments l0))
        (Some (mkChatAIWithoutDocuments handle l1 (mkConversationChain handle l1 false)))
        (Some (mkChatAIWithoutDocuments handle l2 (mkConversationChain handle l2 false)))
        None h3 e' [] [success_line].
Proof.
  unfold startup_outcome. intros H.
  destruct (configured_provider (initial (vars ∪ env) settings e)) as [t|] eqn:Ht;
    [|discriminate].
  destruct (getenv (vars ∪ env) (credential_var t)) as [key|] eqn:Hk; [|discriminate].
  destruct (wd_new (vars ∪ env) settings e) as [e' [u|ex]] eqn:Hwd; [|discriminate].
  destruct (configured_provider_dict _ _ Ht) as (d & Hs & Hp). simpl in Hs.
  subst settings. simpl in H.
  rewrite (ChatAIWithoutDocuments_init_dict d false
             (initial (vars ∪ env) (Ok (PDict d)) e) t eq_refl Hp) in H.
  cbn [environ initial] in H.
  destruct (get_llm (vars ∪ env) _) as [handle|ex] eqn:Hh; [|discriminate].
  exists handle, e'. simpl.
  unfold startup. run. simpl.
  rewrite check_credentials_eq.
  change (set_environ (vars ∪ env) (initial env (Ok (PDict d)) e))
    with (initial (vars ∪ env) (Ok (PDict d)) e).
  rewrite Ht. simpl. rewrite Hk.
  unfold ChatAIWithDocuments_init. simpl. rewrite Hwd. run. simpl.
  erewrite (ChatAIWithoutDocuments_init_dict d false _ t); [|reflexivity|exact Hp].
  match goal with
  | |- context [get_llm ?a ?p] => change (get_llm a p) with (get_llm (vars ∪ env) p)
  end.
  rewrite Hh. simpl.
  erewrite (ChatAIWithoutDocuments_init_dict d false _ t); [|reflexivity|exact Hp].
  match goal with
  | |- context [get_llm ?a ?p] => change (get_llm a p) with (get_llm (vars ∪ env) p)
  end.
  rewrite Hh. simpl.
  reflexivity.
Qed.

Lemma costs_satisfy_True : costs_satisfy (λ _, True).
Proof. by repeat split. Qed.

Lemma unbound_stable : stable (λ _, True) unbound.
Proof.
  split; try (intros ? st H; exact H).
  - intros c st _ H. unfold add_cost. by destruct (oa_cb st) as [[cb|]|].
  - intros cmd data st _ H. unfold module_return.
    by destruct (oa_cb st) as [[cb|]|].
Qed.

Lemma same_setup_stable (st0 : State) : stable (λ _, True) (same_setup st0).
Proof.
  split; try (intros ? st H; exact H).
  - intros c st _ H. unfold add_cost.
    destruct (oa_cb st) as [[cb|]|] eqn:Hcb; try exact H.
    destruct H as (? & ? & ? & ? & ? & ?). by repeat split.
  - intros cmd data st _ H. unfold module_return.
    by destruct (oa_cb st) as [[cb|]|].
Qed.

Lemma same_setup_main_loop (lines : list string) (st : State) :
  is_Some (accumulated st) → same_setup st (main_loop lines st).
Proof.
  intros H.
  apply (main_loop_preserved _ _ (same_setup_stable st) costs_satisfy_True).
  by repeat split.
Qed.

Lemma Ready_same_setup (st0 st : State) wd w sq :
  Ready st0 wd w sq → same_setup st0 st → Ready st wd w sq.
Proof.
  intros [Hwd Hw Hsq Hcb Hcr Hcw Hcsq Hd] (He & Hs & H1 & H2 & H3 & H4).
  split; try congruence; try done.
  rewrite check_credentials_eq in Hcr. rewrite check_credentials_eq.
  unfold configured_provider in *. rewrite Hs, He.
  destruct (settings_file st0) as [settings|]; [|discriminate].
  destruct (py_get settings "llmProvider" (PStr "openai")); [|discriminate].
  destruct (provider_type_or_default a) as [t|]; [|discriminate].
  destruct (getenv (environ st0) (credential_var t)); [reflexivity|discriminate].
Qed.

(** After a successful start the loop is, and stays, ready. *)
Lemma started_ready (dotenv : result (gmap string string)) (env : gmap string string)
    (settings : result pyval) (e : Ext) :
  startup_outcome dotenv env settings e = Started →
  ∃ wd w sq,
    stdout (startup dotenv (initial env settings e)) = [success_line]
    ∧ buffer (startup dotenv (initial env settings e)) (memory w) = []
    ∧ ∀ lines, Ready (main dotenv lines (initial env settings e)) wd w sq.
Proof.
  intros H. destruct dotenv as [vars|ex]; [|discriminate].
  destruct (startup_started vars env settings e H) as (handle & e' & Hst).
  simpl in Hst.
  set (l0 := fresh (dom (∅ : gmap loc (list turn)))) in *.
  set (h1 := (<[l0 := []]> ∅ : gmap loc (list turn))) in *.
  set (l1 := fresh (dom h1)) in *.
  set (h2 := <[l1 := []]> h1) in *.
  set (l2 := fresh (dom h2)) in *.
  assert (l1 ≠ l0) as H10.
  { intros Heq. apply (is_fresh (dom h1)). fold l1. rewrite Heq.
    unfold h1. rewrite dom_insert_L. set_solver. }
  assert (l2 ≠ l1 ∧ l2 ≠ l0) as [H21 H20].
  { split; intros Heq; apply (is_fresh (dom h2)); fold l2; rewrite Heq;
      unfold h2, h1; rewrite !dom_insert_L; set_solver. }
  exists (mkChatAIWithDocuments l0),
    (mkChatAIWithoutDocuments handle l1 (mkConversationChain handle l1 false)),
    (mkChatAIWithoutDocuments handle l2 (mkConversationChain handle l2 false)).
  split; [by rewrite Hst|]. split.
  { rewrite Hst. unfold buffer. simpl.
    rewrite lookup_insert_ne; [|done]. unfold h2. by rewrite lookup_insert_eq. }
  intros lines. unfold main.
  eapply Ready_same_setup; [|apply same_setup_main_loop; by eexists].
  rewrite Hst. split; simpl; try done; try by eexists.
  rewrite check_credentials_eq.
  unfold startup_outcome in H.
  change (configured_provider (enter_loop _))
    with (configured_provider (initial (vars ∪ env) settings e)).
  destruct (configured_provider (initial (vars ∪ env) settings e)) as [t|];
    [|discriminate].
  simpl. destruct (getenv (vars ∪ env) (credential_var t)); [reflexivity|discriminate].
Qed.

Lemma getitem_name (c : IC) :
  InterprocessCommand.getitem (PStr (InterprocessCommand.name c)) = Ok c.
Proof. by destruct c. Qed.

(** With no wrapper bound, a command that needs one ends in an error
    response. *)
Lemma unbound_command_fails (line : string) (d : list (string * pyval)) (c : IC)
    (st : State) :
  unbound st →
  strip line ≠ "" →
  json_loads (strip line) = Ok (PDict d) →
  dict_lookup "cmd" d = Some (PStr (InterprocessCommand.name c)) →
  is_request c = true →
  c ≠ ADD_DOCUMENTS →
  ∃ text, loop_body line st = say (error_line text) st.
Proof.
  intros (Hwd & Hw & Hsq) Hne Hd Htag Hreq Hadd.
  assert (d ≠ []) as Hd0 by (intros ->; discriminate).
  rewrite (loop_body_dict line d st Hne Hd Hd0).
  rewrite handle_module_input_eq, check_credentials_eq.
  destruct (configured_provider st) as [t|e]; simpl; [|by eexists].
  destruct (getenv (environ st) (credential_var t)); simpl; [|by eexists].
  unfold execute. run. simpl. rewrite Htag, getitem_name.
  destruct c; try discriminate; try done; unfold dispatch; run;
    rewrite ?Hwd, ?Hw, ?Hsq;
    repeat match goal with
           | |- context [match py_getitem ?a ?b with _ => _ end] =>
               destruct (py_getitem a b); simpl
           | |- context [match dict_lookup ?a ?b with _ => _ end] =>
               destruct (dict_lookup a b); simpl
           | |- context [if truthy ?a then _ else _] =>
               destruct (truthy a); simpl
           end;
    rewrite ?Hwd, ?Hw, ?Hsq; by eexists.
Qed.

Lemma conversation_unbound_stable : stable (λ _, True) conversation_unbound.
Proof.
  split; try (intros ? st H; exact H).
  - intros c st _ H. unfold add_cost. by destruct (oa_cb st) as [[cb|]|].
  - intros cmd data st _ H. unfold module_return.
    by destruct (oa_cb st) as [[cb|]|].
Qed.

(** With neither without-documents wrapper bound, the three commands that
    are served by them alone are answered by one error response. *)
Lemma conversation_unbound_command_fails (line : string) (d : list (string * pyval))
    (c : IC) (st : State) :
  conversation_unbound st →
  strip line ≠ "" →
  json_loads (strip line) = Ok (PDict d) →
  dict_lookup "cmd" d = Some (PStr (InterprocessCommand.name c)) →
  c = ASK_CONVERSATION_NO_DOCUMENTS ∨ c = CLEAR_CONVERSATION ∨ c = GENERATE_CARDS →
  ∃ text, stdout (loop_body line st) = (stdout st ++ [error_line text])%list.
Proof.
  intros (Hw & Hsq) Hne Hd Htag Hc.
  assert (d ≠ []) as Hd0 by (intros ->; discriminate).
  rewrite (loop_body_dict line d st Hne Hd Hd0).
  rewrite handle_module_input_eq, check_credentials_eq.
  destruct (configured_provider st) as [t|e]; simpl; [|by eexists].
  destruct (getenv (environ st) (credential_var t)); simpl; [|by eexists].
  unfold execute. run. simpl. rewrite Htag, getitem_name.
  destruct Hc as [->|[->| ->]]; unfold dispatch; run; rewrite ?Hw, ?Hsq.
  - by eexists.
  - destruct (withDocumentsAI st) as [wd|]; simpl; [|by eexists].
    unfold wd_clear_memory. run. simpl. rewrite Hw. by eexists.
  - repeat match goal with
           | |- context [match py_getitem ?a ?b with _ => _ end] =>
               destruct (py_getitem a b); simpl
           | |- context [match dict_lookup ?a ?b with _ => _ end] =>
               destruct (dict_lookup a b); simpl
           end;
      rewrite ?Hsq; simpl; by eexists.
Qed.

(** C9, as amended: when the credential check passes and the three
    wrappers are built, the process prints the single line
    {"status": "success"}, which has no cost field, and enters the loop
    ready.  When the credential check finds the variable unset, it prints
    one error response followed by the same success line; when an
    exception is raised before a wrapper is bound, it prints one error
    response and no success line; in these two cases no wrapper is bound,
    and in the loop every command that needs a wrapper (every request but
    ADD_DOCUMENTS) ends in an error response and changes nothing else.
    When [ChatAIWithoutDocuments()] raises, one error response and no
    success line are printed, and [withDocumentsAI] is bound while the two
    without-documents wrappers are not.  After every start that is not a
    success, ASK_CONVERSATION_NO_DOCUMENTS, CLEAR_CONVERSATION and
    GENERATE_CARDS are answered by one error response. *)
Theorem startup_outcomes (dotenv : result (gmap string string))
    (env : gmap string string) (settings : result pyval) (e : Ext) :
  let st1 := startup dotenv (initial env settings e) in
  match startup_outcome dotenv env settings e with
  | Started =>
      stdout st1 = [success_line] ∧ cost_of success_line = None
      ∧ ∃ wd w sq, Ready (enter_loop st1) wd w sq
  | MissingCredential var =>
      stdout st1 = [error_line ("Please set " +:+ var); success_line] ∧ unbound st1
  | Failed ex =>
      stdout st1 = [error_line (str_exn ex)] ∧ unbound st1
  | FailedHalfway ex =>
      stdout st1 = [error_line (str_exn ex)]
      ∧ is_Some (withDocumentsAI st1) ∧ conversation_unbound st1
  end
  ∧ (unbound st1 →
     ∀ lines line d c,
       strip line ≠ "" →
       json_loads (strip line) = Ok (PDict d) →
       dict_lookup "cmd" d = Some (PStr (InterprocessCommand.name c)) →
       is_request c = true →
       c ≠ ADD_DOCUMENTS →
       ∃ text,
         loop_body line (main_loop lines (enter_loop st1))
         = say (error_line text) (main_loop lines (enter_loop st1)))
  ∧ (startup_outcome dotenv env settings e ≠ Started →
     ∀ lines line d c,
       strip line ≠ "" →
       json_loads (strip line) = Ok (PDict d) →
       dict_lookup "cmd" d = Some (PStr (InterprocessCommand.name c)) →
       c = ASK_CONVERSATION_NO_DOCUMENTS ∨ c = CLEAR_CONVERSATION ∨ c = GENERATE_CARDS →
       ∃ text,
         stdout (loop_body line (main_loop lines (enter_loop st1)))
         = (stdout (main_loop lines (enter_loop st1)) ++ [error_line text])%list).
Proof.
  intros st1.
  assert (match startup_outcome dotenv env settings e with
          | Started =>
              stdout st1 = [success_line] ∧ cost_of success_line = None
              ∧ ∃ wd w sq, Ready (enter_loop st1) wd w sq
          | MissingCredential var =>
              stdout st1 = [error_line ("Please set " +:+ var); success_line]
              ∧ unbound st1
          | Failed ex => stdout st1 = [error_line (str_exn ex)] ∧ unbound st1
          | FailedHalfway ex =>
              stdout st1 = [error_line (str_exn ex)]
              ∧ is_Some (withDocumentsAI st1) ∧ conversation_unbound st1
          end) as Htable.
  { destruct (startup_outcome dotenv env settings e) eqn:Ho.
    - destruct (started_ready dotenv env settings e Ho) as (wd & w & sq & Hout & _ & Hr).
      split; [exact Hout|]. split; [reflexivity|].
      exists wd, w, sq. exact (Hr []).
    - subst st1. unfold startup_outcome in Ho.
      destruct dotenv as [vars|]; [|discriminate].
      unfold startup. run. simpl. rewrite check_credentials_eq.
      change (set_environ (vars ∪ env) (initial env settings e))
        with (initial (vars ∪ env) settings e).
      destruct (configured_provider (initial (vars ∪ env) settings e)) as [t|];
        [|discriminate].
      simpl. destruct (getenv (vars ∪ env) (credential_var t)).
      { destruct ((wd_new (vars ∪ env) settings e).2); [|discriminate].
        destruct ((ChatAIWithoutDocuments_init false _).1); discriminate. }
      injection Ho as <-. by split.
    - subst st1. unfold startup_outcome in Ho.
      destruct dotenv as [vars|ex0].
      2:{ injection Ho as <-. by split. }
      unfold startup. run. simpl. rewrite check_credentials_eq.
      change (set_environ (vars ∪ env) (initial env settings e))
        with (initial (vars ∪ env) settings e).
      destruct (configured_provider (initial (vars ∪ env) settings e)) as [t|ex0].
      2:{ injection Ho as <-. by split. }
      simpl. destruct (getenv (vars ∪ env) (credential_var t)); [|discriminate].
      unfold ChatAIWithDocuments_init. simpl.
      destruct (wd_new (vars ∪ env) settings e) as [e' [u|ex0]].
      { simpl in Ho. destruct ((ChatAIWithoutDocuments_init false _).1); discriminate. }
      simpl in Ho. injection Ho as <-. by split.
    - subst st1. unfold startup_outcome in Ho.
      destruct dotenv as [vars|ex0]; [|discriminate].
      destruct (configured_provider (initial (vars ∪ env) settings e)) as [t|ex0] eqn:Ht;
        [|discriminate].
      destruct (getenv (vars ∪ env) (credential_var t)) as [key|] eqn:Hk; [|discriminate].
      destruct (wd_new (vars ∪ env) settings e) as [e' [u|ex0]] eqn:Hwd; [|discriminate].
      destruct (configured_provider_dict _ _ Ht) as (d & Hs & Hp). simpl in Hs.
      subst settings. simpl in Ho.
      rewrite (ChatAIWithoutDocuments_init_dict d false
                 (initial (vars ∪ env) (Ok (PDict d)) e) t eq_refl Hp) in Ho.
      cbn [environ initial] in Ho.
      destruct (get_llm (vars ∪ env) _) as [handle|ex0] eqn:Hh; [discriminate|].
      simpl in Ho. injection Ho as <-.
      unfold startup. run. simpl. rewrite check_credentials_eq.
      change (set_environ (vars ∪ env) (initial env (Ok (PDict d)) e))
        with (initial (vars ∪ env) (Ok (PDict d)) e).
      rewrite Ht. simpl. rewrite Hk.
      unfold ChatAIWithDocuments_init. simpl. rewrite Hwd. run. simpl.
      erewrite (ChatAIWithoutDocuments_init_dict d false _ t); [|reflexivity|exact Hp].
      match goal with
      | |- context [get_llm ?a ?p] => change (get_llm a p) with (get_llm (vars ∪ env) p)
      end.
      rewrite Hh. simpl. split; [reflexivity|]. split; [by eexists|]. by split. }
  split; [exact Htable|]. split.
  - intros Hu lines line d c Hne Hd Htag Hreq Hadd.
    apply (unbound_command_fails line d c); try done.
    by apply (main_loop_preserved _ _ unbound_stable costs_satisfy_True).
  - intros Hns lines line d c Hne Hd Htag Hc.
    apply (conversation_unbound_command_fails line d c); try done.
    apply (main_loop_preserved _ _ conversation_unbound_stable costs_satisfy_True).
    destruct (startup_outcome dotenv env settings e); [done| | |];
      destruct Htable as (_ & Hb); apply Hb.
Qed.

(** ** Conversation memory *)

Lemma Ready_handler (st : State) wd w sq :
  Ready st wd w sq → ∃ cb, oa_cb st = Some (Some cb).
Proof.
  intros H. destruct (ready_cb _ _ _ _ H) as [acc Ha].
  unfold accumulated in Ha. destruct (oa_cb st) as [[cb|]|]; try discriminate.
  by exists cb.
Qed.

Lemma Ready_loop_body (line : string) (st : State) wd w sq :
  Ready st wd w sq → Ready (loop_body line st) wd w sq.
Proof.
  intros H. eapply Ready_same_setup; [exact H|].
  apply (loop_body_preserved _ _ (same_setup_stable st) costs_satisfy_True).
  repeat split; try done. apply (ready_cb _ _ _ _ H).
Qed.

(** CLEAR_CONVERSATION in a ready loop: the two conversation buffers are
    emptied and one response is printed. *)
Lemma clear_step (line : string) (d : list (string * pyval)) (st : State) wd w sq cb :
  Ready st wd w sq →
  oa_cb st = Some (Some cb) →
  strip line ≠ "" →
  json_loads (strip line) = Ok (PDict d) →
  dict_lookup "cmd" d = Some (PStr "CLEAR_CONVERSATION") →
  loop_body line st =
    say (response_line DID_CLEAR_CONVERSATION [] cb)
      (set_heap (<[memory w := []]> (<[wd_memory wd := []]> (heap st))) st).
Proof.
  intros Hr Hcb Hne Hd Htag.
  assert (d ≠ []) as Hd0 by (intros ->; discriminate).
  rewrite (loop_body_dict line d st Hne Hd Hd0).
  rewrite handle_module_input_eq, (ready_credentials _ _ _ _ Hr).
  unfold execute. run. simpl. rewrite Htag. simpl.
  unfold dispatch. run.
  rewrite (ready_wd _ _ _ _ Hr). unfold wd_clear_memory, clear_memory. run. simpl.
  rewrite (ready_w _ _ _ _ Hr). unfold module_return. simpl. rewrite Hcb.
  reflexivity.
Qed.

(** ASK_CONVERSATION_NO_DOCUMENTS with a [str] query in a ready loop: one
    request with the buffer's turns as history, and one response. *)
Lemma ask_step (line : string) (d : list (string * pyval)) (q : string) (st : State)
    wd w sq :
  Ready st wd w sq →
  strip line ≠ "" →
  json_loads (strip line) = Ok (PDict d) →
  dict_lookup "cmd" d = Some (PStr "ASK_CONVERSATION_NO_DOCUMENTS") →
  dict_lookup "query" d = Some (PStr q) →
  let rq := mkRequest (llm w) (buffer st (memory w)) (PStr q) in
  ∃ o,
    stdout (loop_body line st) = (stdout st ++ [o])%list
    ∧ tag_of o = Some (PStr (ask_tag (llm_invoke (ext st) rq).2))
    ∧ requests (loop_body line st) = (requests st ++ [rq])%list
    ∧ ext (loop_body line st) = (llm_invoke (ext st) rq).1.1.
Proof.
  intros Hr Hne Hd Htag Hq rq.
  destruct (Ready_handler _ _ _ _ Hr) as [cb Hcb].
  assert (d ≠ []) as Hd0 by (intros ->; discriminate).
  rewrite (loop_body_dict line d st Hne Hd Hd0).
  rewrite handle_module_input_eq, (ready_credentials _ _ _ _ Hr).
  unfold execute. run. simpl. rewrite Htag. simpl.
  unfold dispatch. run.
  rewrite (ready_w _ _ _ _ Hr). simpl. rewrite Hq.
  unfold human_message, predict. run.
  destruct (ready_chain_w _ _ _ _ Hr) as [-> ->]. fold rq.
  destruct (llm_invoke (ext st) rq) as [[e' cost] [reply|ex]]; simpl.
  - unfold module_return, add_cost. simpl. rewrite Hcb. simpl.
    eexists. repeat split; reflexivity.
  - unfold add_cost. simpl. rewrite Hcb. simpl.
    eexists. repeat split; reflexivity.
Qed.

Lemma buffer_cleared (h : gmap loc (list turn)) (st : State) (l : loc) :
  buffer (set_heap (<[l := []]> h) st) l = [].
Proof. unfold buffer. simpl. by rewrite lookup_insert_eq. Qed.

(** C7: a wrapper's [clear_memory] empties the very buffer its chain
    reads, so the request of the next [human_message] has an empty
    history, whatever the history was; and in a started process the
    commands ASK_CONVERSATION_NO_DOCUMENTS, CLEAR_CONVERSATION,
    ASK_CONVERSATION_NO_DOCUMENTS, the asks with [str] queries, yield
    three responses in that order (an ask is answered by its DID_ tag, or
    by SUBMODULE_ERROR when the model call raises), and the request of the
    second ask carries no prior turn. *)
Theorem clear_then_ask_has_no_history (dotenv : result (gmap string string))
    (env : gmap string string) (settings : result pyval) (e : Ext)
    (lines : list string) (l1 l2 l3 : string) (d1 d2 d3 : list (string * pyval))
    (q1 q3 : string) :
  startup_outcome dotenv env settings e = Started →
  strip l1 ≠ "" → json_loads (strip l1) = Ok (PDict d1) →
  dict_lookup "cmd" d1 = Some (PStr "ASK_CONVERSATION_NO_DOCUMENTS") →
  dict_lookup "query" d1 = Some (PStr q1) →
  strip l2 ≠ "" → json_loads (strip l2) = Ok (PDict d2) →
  dict_lookup "cmd" d2 = Some (PStr "CLEAR_CONVERSATION") →
  strip l3 ≠ "" → json_loads (strip l3) = Ok (PDict d3) →
  dict_lookup "cmd" d3 = Some (PStr "ASK_CONVERSATION_NO_DOCUMENTS") →
  dict_lookup "query" d3 = Some (PStr q3) →
  let st := main dotenv lines (initial env settings e) in
  (∀ verbose st0 w0 st1 st' x,
      ChatAIWithoutDocuments_init verbose st0 = (Ok w0, st1) →
      buffer (clear_memory w0 st').2 (memory w0) = []
      ∧ cc_memory (conversationChain w0) = memory w0
      ∧ requests (human_message w0 x (clear_memory w0 st').2).2
        = (requests st' ++ [mkRequest (llm w0) [] x])%list)
  ∧ ∃ w o1 o2 o3,
      withoutDocumentsAI st = Some w
      ∧ let rq1 := mkRequest (llm w) (buffer st (memory w)) (PStr q1) in
        let rq3 := mkRequest (llm w) [] (PStr q3) in
        stdout (main_loop [l1; l2; l3] st) = (stdout st ++ [o1; o2; o3])%list
        ∧ tag_of o1 = Some (PStr (ask_tag (llm_invoke (ext st) rq1).2))
        ∧ tag_of o2 = Some (PStr "DID_CLEAR_CONVERSATION")
        ∧ tag_of o3
          = Some (PStr (ask_tag (llm_invoke (llm_invoke (ext st) rq1).1.1 rq3).2))
        ∧ requests (main_loop [l1; l2; l3] st) = (requests st ++ [rq1; rq3])%list.
Proof.
  intros Hs Hn1 Hd1 Ht1 Hq1 Hn2 Hd2 Ht2 Hn3 Hd3 Ht3 Hq3 st. split.
  - intros verbose st0 w0 st1 st' x Hinit.
    assert (cc_memory (conversationChain w0) = memory w0
            ∧ cc_llm (conversationChain w0) = llm w0) as [Hm Hl].
    { unfold ChatAIWithoutDocuments_init in Hinit. revert Hinit. run.
      destruct (settings_file st0) as [data|]; [|discriminate].
      destruct (py_get data "temperature" (PInt 0)); [|discriminate].
      destruct (py_get data "llmModel" (PStr "gpt-3.5-turbo")); [|discriminate].
      destruct (py_get data "llmProvider" (PStr "openai")); [|discriminate].
      destruct (provider_type_or_default a1); [|discriminate].
      simpl. destruct (get_llm _ _); [|discriminate].
      simpl. intros [= <- _]. by split. }
    split; [apply buffer_cleared|]. split; [exact Hm|].
    unfold human_message, predict, clear_memory. run. rewrite Hm, Hl.
    cbn [snd]. rewrite !buffer_cleared. simpl.
    destruct (llm_invoke _ _) as [[e' cost] [reply|ex]]; simpl;
      try destruct (match x with PStr _ => _ | _ => _ end); simpl;
      unfold add_cost; simpl; by destruct (oa_cb st') as [[cb|]|].
  - destruct (started_ready dotenv env settings e Hs) as (wd & w & sq & _ & _ & Hr).
    specialize (Hr lines). fold st in Hr.
    exists w.
    destruct (ask_step l1 d1 q1 st wd w sq Hr Hn1 Hd1 Ht1 Hq1)
      as (o1 & Ho1 & Htag1 & Hrq1 & Hext1).
    set (st1 := loop_body l1 st) in *.
    pose proof (Ready_loop_body l1 st wd w sq Hr) as Hr1. fold st1 in Hr1.
    destruct (Ready_handler _ _ _ _ Hr1) as [cb1 Hcb1].
    pose proof (clear_step l2 d2 st1 wd w sq cb1 Hr1 Hcb1 Hn2 Hd2 Ht2) as Hst2.
    set (st2 := loop_body l2 st1) in *.
    pose proof (Ready_loop_body l2 st1 wd w sq Hr1) as Hr2. fold st2 in Hr2.
    destruct (ask_step l3 d3 q3 st2 wd w sq Hr2 Hn3 Hd3 Ht3 Hq3)
      as (o3 & Ho3 & Htag3 & Hrq3 & _).
    assert (buffer st2 (memory w) = []) as Hb2.
    { rewrite Hst2. unfold say, buffer. simpl. by rewrite lookup_insert_eq. }
    assert (ext st2 = ext st1 ∧ requests st2 = requests st1
            ∧ stdout st2
              = (stdout st1 ++ [response_line DID_CLEAR_CONVERSATION [] cb1])%list)
      as (He2 & Hq2 & Ho2) by (by rewrite Hst2).
    exists o1, (response_line DID_CLEAR_CONVERSATION [] cb1), o3.
    split; [apply (ready_w _ _ _ _ Hr)|]. cbn zeta.
    unfold main_loop. cbn [fold_left]. fold st1. fold st2.
    rewrite Ho3, Hrq3, Hb2, Ho2, Hq2, Ho1, Hrq1.
    rewrite Hb2, He2, Hext1 in Htag3.
    split; [by rewrite <- !app_assoc|]. split; [exact Htag1|].
    split; [reflexivity|]. split; [exact Htag3|]. by rewrite <- !app_assoc.
Qed.

(** C10: in a started process, a CLEAR_CONVERSATION command empties the
    memory buffer of the with-documents wrapper and that of the
    without-documents wrapper and prints one DID_CLEAR_CONVERSATION
    response.  The buffer of the single-query wrapper, every other
    buffer, the three wrappers, the environment, the settings, the cost
    accumulator, the external world and the request log are unchanged. *)
Theorem clear_conversation_frame (dotenv : result (gmap string string))
    (env : gmap string string) (settings : result pyval) (e : Ext)
    (lines : list string) (line : string) (d : list (string * pyval)) :
  startup_outcome dotenv env settings e = Started →
  strip line ≠ "" →
  json_loads (strip line) = Ok (PDict d) →
  dict_lookup "cmd" d = Some (PStr "CLEAR_CONVERSATION") →
  let st := main dotenv lines (initial env settings e) in
  let st' := loop_body line st in
  ∃ wd w sq cb,
    withDocumentsAI st = Some wd
    ∧ withoutDocumentsAI st = Some w
    ∧ withoutDocumentsSingleQuery st = Some sq
    ∧ oa_cb st = Some (Some cb)
    ∧ st' = say (response_line DID_CLEAR_CONVERSATION [] cb)
              (set_heap (<[memory w := []]> (<[wd_memory wd := []]> (heap st))) st)
    ∧ buffer st' (wd_memory wd) = []
    ∧ buffer st' (memory w) = []
    ∧ buffer st' (memory sq) = buffer st (memory sq)
    ∧ (∀ l, l ≠ wd_memory wd → l ≠ memory w → heap st' !! l = heap st !! l)
    ∧ stdout st' = (stdout st ++ [response_line DID_CLEAR_CONVERSATION [] cb])%list
    ∧ environ st' = environ st
    ∧ settings_file st' = settings_file st
    ∧ withDocumentsAI st' = withDocumentsAI st
    ∧ withoutDocumentsAI st' = withoutDocumentsAI st
    ∧ withoutDocumentsSingleQuery st' = withoutDocumentsSingleQuery st
    ∧ oa_cb st' = oa_cb st
    ∧ ext st' = ext st
    ∧ requests st' = requests st.
Proof.
  intros Hs Hne Hd Htag st st'.
  destruct (started_ready dotenv env settings e Hs) as (wd & w & sq & _ & _ & Hr).
  specialize (Hr lines). fold st in Hr.
  destruct (Ready_handler _ _ _ _ Hr) as [cb Hcb].
  pose proof (clear_step line d st wd w sq cb Hr Hcb Hne Hd Htag) as Hst'.
  fold st' in Hst'.
  destruct (ready_distinct _ _ _ _ Hr) as (Hd1 & Hd2 & Hd3).
  exists wd, w, sq, cb.
  split; [apply (ready_wd _ _ _ _ Hr)|]. split; [apply (ready_w _ _ _ _ Hr)|].
  split; [apply (ready_sq _ _ _ _ Hr)|]. split; [exact Hcb|].
  split; [exact Hst'|]. rewrite Hst'. unfold say, buffer. simpl.
  split.
  { destruct (decide (memory w = wd_memory wd)) as [->|Hn].
    - by rewrite lookup_insert_eq.
    - rewrite lookup_insert_ne; [|done]. by rewrite lookup_insert_eq. }
  split; [by rewrite lookup_insert_eq|].
  split.
  { rewrite lookup_insert_ne; [|done]. by rewrite lookup_insert_ne. }
  split.
  { intros l H1 H2. rewrite lookup_insert_ne; [|done]. by rewrite lookup_insert_ne. }
  by repeat split.
Qed.

End Properties.

(** * The properties on the concrete runtime *)

Section Instances.

Local Abbreviation X := Demo.externals.

(** The model runs: a few evaluations. *)

Example strip_tab_and_spaces : strip (String (Ascii.ascii_of_nat 9) " a b  ") = "a b".
Proof. reflexivity. Qed.

Example strip_unicode_spaces :
  strip (Scenario.nbsp +:+ " a b" +:+ Scenario.ideographic_space +:+ Scenario.next_line)
  = "a b".
Proof. reflexivity. Qed.

Example strip_keeps_letters : strip "déjà" = "déjà".
Proof. reflexivity. Qed.

Example strip_unicode_blank : strip Scenario.unicode_blank = "".
Proof. reflexivity. Qed.

Example loads_ask_hi :
  Json.loads Demo.ask_hi
  = Ok (PDict [("cmd", PStr "ASK_CONVERSATION_NO_DOCUMENTS"); ("query", PStr "hi")]).
Proof. reflexivity. Qed.

Example loads_nested :
  Json.loads (Json.dq "{'a': [1, -2, true, null], 'a': {'b': ''}}")
  = Ok (PDict [("a", PDict [("b", PStr "")])]).
Proof. reflexivity. Qed.

Example loads_not_json : Json.loads Demo.not_json = Raise (JSONDecodeError "Expecting value").
Proof. reflexivity. Qed.

Example provider_of_bogus :
  LLMProviderType_call (PStr "bogus") = Raise (ValueError (PStr "bogus") "LLMProviderType").
Proof. reflexivity. Qed.

Example factory_default_model :
  create_provider GITHUB_COPILOT PNone (PInt 0)
  = GitHubCopilotProvider (PStr "gpt-4o") (PInt 0).
Proof. reflexivity. Qed.

Example ready_has_printed_success : stdout Demo.ready = [success_line].
Proof. vm_compute. reflexivity. Qed.

Example ready_buffers :
  (wd_memory <$> withDocumentsAI Demo.ready,
   memory <$> withoutDocumentsAI Demo.ready,
   memory <$> withoutDocumentsSingleQuery Demo.ready)
  = (Some 0%nat, Some 1%nat, Some 2%nat).
Proof. vm_compute. reflexivity. Qed.

Example run_ask_clear_ask :
  stdout (main_loop [Demo.ask_hi; Demo.clear; Demo.ask_x] Demo.ready)
  = [success_line;
     PDict [("cmd", PStr "DID_ASK_CONVERSATION_NO_DOCUMENTS");
            ("data", PDict [("response", PStr "answer"); ("total_cost", PFloat (1 # 100))])];
     PDict [("cmd", PStr "DID_CLEAR_CONVERSATION");
            ("data", PDict [("total_cost", PFloat (1 # 100))])];
     PDict [("cmd", PStr "DID_ASK_CONVERSATION_NO_DOCUMENTS");
            ("data", PDict [("response", PStr "answer");
                            ("total_cost", PFloat (200 # 10000))])]].
Proof. vm_compute. reflexivity. Qed.

Example run_response_tag_is_ignored :
  stdout (@loop_body X (Json.dq "{'cmd': 'DID_CLEAR_CONVERSATION'}") Demo.ready)
  = stdout Demo.ready.
Proof. vm_compute. reflexivity. Qed.

(** A start that fails on the .env file leaves the wrappers unbound; an
    ADD_DOCUMENTS command with no document still gets its response. *)
Example run_empty_add_documents_without_wrappers :
  stdout (@main X (Raise (OtherError "PermissionError" "Permission denied"))
            [Json.dq "{'cmd': 'ADD_DOCUMENTS', 'documents': []}"]
            (@initial X {["OPENAI_API_KEY" := "sk"]} (Ok (PDict [])) 0%nat))
  = [error_line "Permission denied";
     PDict [("cmd", PStr "DID_ADD_DOCUMENTS");
            ("data", PDict [("documents_added", PList []); ("total_cost", PFloat 0)])]].
Proof. vm_compute. reflexivity. Qed.

(** C5 at the Copilot settings. *)
Lemma copilot_settings_give_copilot_gpt4_witness :
  (settings_file Scenario.installed = Ok Demo.copilot_settings
   ∧ dict_lookup "llmProvider"
       [("temperature", PInt 0); ("llmModel", PStr "gpt-4");
        ("llmProvider", PStr "github_copilot")] = Some (PStr "github_copilot")
   ∧ dict_lookup "llmModel"
       [("temperature", PInt 0); ("llmModel", PStr "gpt-4");
        ("llmProvider", PStr "github_copilot")] = Some (PStr "gpt-4"))
  ∧ ∃ w st',
      ChatAIWithoutDocuments_init false Scenario.installed = (Ok w, st')
      ∧ llm w = Scenario.handle.
Proof.
  split; [by repeat split|].
  destruct (@copilot_settings_give_copilot_gpt4 X
              [("temperature", PInt 0); ("llmModel", PStr "gpt-4");
               ("llmProvider", PStr "github_copilot")] false
              Scenario.installed eq_refl eq_refl eq_refl)
    as (_ & _ & _ & H).
  match type of H with
  | match ?c with _ => _ end =>
      assert (c = Ok Scenario.handle) as Hc by (vm_compute; reflexivity);
      rewrite Hc in H
  end.
  destruct H as (w & st' & Hi & Hl & _).
  exists w, st'. split; [exact Hi|exact Hl].
Defined.

(** C6 at the provider string "bogus", with an OpenAI key around. *)
Lemma unrecognized_provider_falls_back_to_openai_witness :
  (settings_file Scenario.bogus = Ok (PDict [("llmProvider", PStr "bogus")])
   ∧ dict_lookup "llmProvider" [("llmProvider", PStr "bogus")] = Some (PStr "bogus")
   ∧ PStr "bogus" ≠ PStr "openai"
   ∧ PStr "bogus" ≠ PStr "github_copilot")
  ∧ provider_type_or_default (PStr "bogus") = Ok OPENAI
  ∧ (∃ w st',
       ChatAIWithoutDocuments_init false Scenario.bogus = (Ok w, st')
       ∧ llm w = mkChatOpenAI (PInt 0) (PStr "gpt-3.5-turbo") (Some "sk") None [])
  ∧ check_credentials Scenario.bogus = (Ok true, Scenario.bogus).
Proof.
  assert (PStr "bogus" ≠ PStr "openai") as H1 by discriminate.
  assert (PStr "bogus" ≠ PStr "github_copilot") as H2 by discriminate.
  split; [by repeat split|].
  destruct (@unrecognized_provider_falls_back_to_openai X
              [("llmProvider", PStr "bogus")] (PStr "bogus") false
              Scenario.bogus eq_refl eq_refl H1 H2) as (Hp & _ & H & Hcheck).
  match type of H with
  | match ?c with _ => _ end =>
      assert (c = Ok (mkChatOpenAI (PInt 0) (PStr "gpt-3.5-turbo") (Some "sk") None []))
        as Hc by (vm_compute; reflexivity);
      rewrite Hc in H
  end.
  destruct H as (w & st' & Hi & Hl & _).
  split; [exact Hp|]. split; [by exists w, st'|].
  rewrite Hcheck. vm_compute. reflexivity.
Defined.

Lemma demo_costs :
  (∀ e rq, (0 <= (@llm_invoke X e rq).1.2)%Q)
  ∧ (∀ c e m, (0 <= o_cost (@wd_step X c e m))%Q)
  ∧ (∀ c h e m, (0 <= o_cost (@ci_step X c h e m))%Q).
Proof.
  split; [|split].
  - intros e rq. simpl. unfold Qle. simpl. lia.
  - intros c e m. destruct c; simpl; unfold Qle; simpl; lia.
  - intros c h e m. destruct c; simpl; unfold Qle; simpl; lia.
Defined.

(** C3 on a run with two answered requests and one malformed line. *)
Lemma total_cost_attached_and_nondecreasing_witness :
  ((∀ e rq, (0 <= (@llm_invoke X e rq).1.2)%Q)
   ∧ (∀ c e m, (0 <= o_cost (@wd_step X c e m))%Q)
   ∧ (∀ c h e m, (0 <= o_cost (@ci_step X c h e m))%Q))
  ∧ ∃ out acc,
      stdout (main_loop [Demo.ask_hi; Demo.not_json; Demo.clear; Demo.ask_x]
                (enter_loop Demo.ready))
      = (stdout Demo.ready ++ out)%list
      ∧ Forall envelope_ok out
      ∧ nondecreasing (omap cost_of out)
      ∧ accumulated (main_loop [Demo.ask_hi; Demo.not_json; Demo.clear; Demo.ask_x]
                       (enter_loop Demo.ready)) = Some acc
      ∧ Forall (λ q, (q <= acc)%Q) (omap cost_of out).
Proof.
  split; [exact demo_costs|].
  destruct demo_costs as (H1 & H2 & H3).
  destruct (@total_cost_attached_and_nondecreasing X
              [Demo.ask_hi; Demo.not_json; Demo.clear; Demo.ask_x] Demo.ready H1 H2 H3)
    as (_ & _ & _ & H).
  exact H.
Defined.

(** C3, counterexample: the SUBMODULE_ERROR response to a malformed line
    has the payload {"error": ...} and no [total_cost] field. *)
Lemma error_response_has_no_total_cost :
  stdout (@loop_body X Demo.not_json Demo.ready)
  = (stdout Demo.ready ++ [error_line "Invalid JSON input: not json"])%list
  ∧ payload (error_line "Invalid JSON input: not json")
    = Some [("error", PStr "Invalid JSON input: not json")]
  ∧ cost_of (error_line "Invalid JSON input: not json") = None.
Proof. vm_compute. repeat split. Qed.

(** C4 at the line "not json", and at a line made of a no-break space, a
    tab and an ideographic space. *)
Lemma invalid_json_reported_once_witness :
  strip Demo.not_json ≠ ""
  ∧ @json_loads X (strip Demo.not_json) = Raise (JSONDecodeError "Expecting value")
  ∧ @loop_body X Demo.not_json Demo.ready
    = say (error_line ("Invalid JSON input: " +:+ strip Demo.not_json)) Demo.ready
  ∧ main_loop [Demo.not_json; Demo.ask_hi] Demo.ready
    = main_loop [Demo.ask_hi]
        (say (error_line ("Invalid JSON input: " +:+ strip Demo.not_json)) Demo.ready)
  ∧ @loop_body X Scenario.unicode_blank Demo.ready = Demo.ready.
Proof.
  assert (strip Demo.not_json ≠ "") as Hne by (vm_compute; discriminate).
  split; [exact Hne|]. split; [reflexivity|].
  destruct (@invalid_json_reported_once X Demo.not_json "Expecting value"
              [Demo.ask_hi] Demo.ready Hne eq_refl) as (Hb & Hl & Hblank).
  split; [exact Hb|]. split; [exact Hl|].
  exact (proj1 (Hblank Scenario.unicode_blank eq_refl)).
Defined.

(** C4, counterexample: a line of three spaces is not empty and is not
    valid JSON, and the loop prints nothing for it. *)
Lemma blank_line_gets_no_response :
  Demo.blank ≠ ""
  ∧ @json_loads X Demo.blank = Raise (JSONDecodeError "Expecting value")
  ∧ @loop_body X Demo.blank Demo.ready = Demo.ready.
Proof.
  split; [discriminate|]. split; [reflexivity|]. vm_compute. reflexivity.
Qed.


(** C2 at the tag "FOO". *)
Lemma unrecognized_tag_reported_or_ignored_witness :
  strip Demo.unknown ≠ ""
  ∧ @json_loads X (strip Demo.unknown) = Ok (PDict [("cmd", PStr "FOO")])
  ∧ dict_lookup "cmd" [("cmd", PStr "FOO")] = Some (PStr "FOO")
  ∧ (∀ c, InterprocessCommand.getitem (PStr "FOO") = Ok c → is_request c = false)
  ∧ (∃ text, @loop_body X Demo.unknown Demo.ready = say (error_line text) Demo.ready)
  ∧ main_loop [Demo.unknown; Demo.ask_hi] Demo.ready
    = main_loop [Demo.ask_hi] (@loop_body X Demo.unknown Demo.ready).
Proof.
  assert (strip Demo.unknown ≠ "") as Hne by (vm_compute; discriminate).
  assert (∀ c, InterprocessCommand.getitem (PStr "FOO") = Ok c → is_request c = false)
    as Hun by (intros c H; vm_compute in H; discriminate H).
  split; [exact Hne|]. split; [reflexivity|]. split; [reflexivity|].
  split; [exact Hun|].
  exact (@unrecognized_tag_reported_or_ignored X Demo.unknown
           [("cmd", PStr "FOO")] (PStr "FOO") [Demo.ask_hi] Demo.ready
           Hne eq_refl eq_refl Hun).
Defined.

(** C2, counterexample: the tag "FOO" is not a recognized command tag,
    and the line gets a SUBMODULE_ERROR response. *)
Lemma unknown_tag_gets_error_response :
  @json_loads X (strip Demo.unknown) = Ok (PDict [("cmd", PStr "FOO")])
  ∧ InterprocessCommand.by_name "FOO" = None
  ∧ stdout (@loop_body X Demo.unknown Demo.ready)
    = (stdout Demo.ready ++ [error_line "'FOO'"])%list.
Proof. vm_compute. repeat split. Qed.

(** C9 at a start with no credentials, followed by an ask. *)
Lemma startup_outcomes_witness :
  @startup_outcome X (Ok ∅) ∅ (Ok (PDict [])) 0%nat = MissingCredential "OPENAI_API_KEY"
  ∧ stdout (startup (Ok ∅) (@initial X ∅ (Ok (PDict [])) 0%nat))
    = [error_line "Please set OPENAI_API_KEY"; success_line]
  ∧ unbound (startup (Ok ∅) (@initial X ∅ (Ok (PDict [])) 0%nat))
  ∧ ∃ text,
      @loop_body X Demo.ask_hi (main_loop [] Demo.bare)
      = say (error_line text) (main_loop [] Demo.bare).
Proof.
  assert (@startup_outcome X (Ok ∅) ∅ (Ok (PDict [])) 0%nat
          = MissingCredential "OPENAI_API_KEY") as Ho by (vm_compute; reflexivity).
  assert (strip Demo.ask_hi ≠ "") as Hne by (vm_compute; discriminate).
  split; [exact Ho|].
  destruct (@startup_outcomes X (Ok ∅) ∅ (Ok (PDict [])) 0%nat)
    as (Htable & Hunbound & _).
  rewrite Ho in Htable. destruct Htable as [Hout Hu].
  split; [exact Hout|]. split; [exact Hu|].
  exact (Hunbound Hu [] Demo.ask_hi
           [("cmd", PStr "ASK_CONVERSATION_NO_DOCUMENTS"); ("query", PStr "hi")]
           ASK_CONVERSATION_NO_DOCUMENTS Hne eq_refl eq_refl eq_refl
           ltac:(discriminate)).
Defined.

(** A start with OPENAI_API_KEY set to the empty string: the credential
    check passes, [ChatAIWithDocuments()] returns, and the constructor of
    the chat-model handle refuses the key.  One error response and no
    success line are printed, and [withDocumentsAI] alone is bound. *)
Example start_with_an_empty_key :
  @startup_outcome X (Ok ∅) {["OPENAI_API_KEY" := ""]} (Ok (PDict [])) 0%nat
  = FailedHalfway (OtherError "ValidationError" "Did not find openai_api_key")
  ∧ stdout (startup (Ok ∅) (@initial X {["OPENAI_API_KEY" := ""]} (Ok (PDict [])) 0%nat))
    = [error_line "Did not find openai_api_key"]
  ∧ withDocumentsAI
      (startup (Ok ∅) (@initial X {["OPENAI_API_KEY" := ""]} (Ok (PDict [])) 0%nat))
    = Some (mkChatAIWithDocuments 0)
  ∧ withoutDocumentsAI
      (startup (Ok ∅) (@initial X {["OPENAI_API_KEY" := ""]} (Ok (PDict [])) 0%nat))
    = None.
Proof. vm_compute. repeat split. Qed.

(** A start with the temperature "hot" in the settings ends the same
    way. *)
Example start_with_a_temperature_that_is_no_number :
  @startup_outcome X (Ok ∅) {["OPENAI_API_KEY" := "sk"]}
    (Ok (PDict [("temperature", PStr "hot")])) 0%nat
  = FailedHalfway (OtherError "ValidationError" "value is not a valid float").
Proof. vm_compute. reflexivity. Qed.

(** An ask whose query is null: the request is made and answered, the
    chain refuses to store the exchange, and the line gets an error
    response. *)
Example run_ask_with_a_null_query :
  stdout (@loop_body X (Json.dq "{'cmd': 'ASK_CONVERSATION_NO_DOCUMENTS', 'query': null}")
            Demo.ready)
  = [success_line; error_line "str type expected"]
  ∧ length (requests
              (@loop_body X
                 (Json.dq "{'cmd': 'ASK_CONVERSATION_NO_DOCUMENTS', 'query': null}")
                 Demo.ready)) = 1%nat.
Proof. vm_compute. split; reflexivity. Qed.

(** C9, counterexample: the start fails for want of OPENAI_API_KEY, no
    wrapper is bound, and yet the success line is printed after the error
    response. *)
Lemma missing_credential_still_reports_success :
  getenv ∅ "OPENAI_API_KEY" = None
  ∧ withoutDocumentsAI (startup (Ok ∅) (@initial X ∅ (Ok (PDict [])) 0%nat)) = None
  ∧ stdout (startup (Ok ∅) (@initial X ∅ (Ok (PDict [])) 0%nat))
    = [error_line "Please set OPENAI_API_KEY"; success_line].
Proof. vm_compute. repeat split. Qed.

(** C7 on the three commands, in the Copilot installation. *)
Lemma clear_then_ask_has_no_history_witness :
  (@startup_outcome X (Ok ∅) Demo.copilot_env (Ok Demo.copilot_settings) 0%nat = Started
   ∧ strip Demo.ask_hi ≠ "" ∧ strip Demo.clear ≠ "" ∧ strip Demo.ask_x ≠ ""
   ∧ @json_loads X (strip Demo.ask_hi)
     = Ok (PDict [("cmd", PStr "ASK_CONVERSATION_NO_DOCUMENTS"); ("query", PStr "hi")])
   ∧ @json_loads X (strip Demo.clear) = Ok (PDict [("cmd", PStr "CLEAR_CONVERSATION")])
   ∧ @json_loads X (strip Demo.ask_x)
     = Ok (PDict [("cmd", PStr "ASK_CONVERSATION_NO_DOCUMENTS"); ("query", PStr "X")]))
  ∧ ∃ w,
      withoutDocumentsAI Demo.ready = Some w
      ∧ requests (main_loop [Demo.ask_hi; Demo.clear; Demo.ask_x] Demo.ready)
        = [mkRequest (llm w) [] (PStr "hi"); mkRequest (llm w) [] (PStr "X")].
Proof.
  assert (strip Demo.ask_hi ≠ "") as H1 by (vm_compute; discriminate).
  assert (strip Demo.clear ≠ "") as H2 by (vm_compute; discriminate).
  assert (strip Demo.ask_x ≠ "") as H3 by (vm_compute; discriminate).
  assert (@startup_outcome X (Ok ∅) Demo.copilot_env (Ok Demo.copilot_settings) 0%nat
          = Started) as Hs by (vm_compute; reflexivity).
  split; [repeat split; solve [reflexivity | assumption]|].
  destruct (@clear_then_ask_has_no_history X (Ok ∅) Demo.copilot_env
              (Ok Demo.copilot_settings) 0%nat [] Demo.ask_hi Demo.clear Demo.ask_x
              [("cmd", PStr "ASK_CONVERSATION_NO_DOCUMENTS"); ("query", PStr "hi")]
              [("cmd", PStr "CLEAR_CONVERSATION")]
              [("cmd", PStr "ASK_CONVERSATION_NO_DOCUMENTS"); ("query", PStr "X")]
              "hi" "X"
              Hs H1 eq_refl eq_refl eq_refl H2 eq_refl eq_refl H3 eq_refl
              eq_refl eq_refl)
    as (_ & w & o1 & o2 & o3 & Hw & _ & _ & _ & _ & Hrq).
  exists w. split; [exact Hw|].
  change (main (Ok ∅) [] (@initial X Demo.copilot_env (Ok Demo.copilot_settings) 0%nat))
    with Demo.ready in Hrq.
  rewrite Hrq. vm_compute in Hw. injection Hw as <-. reflexivity.
Defined.

(** C10 at a CLEAR_CONVERSATION line that follows an answered ask. *)
Lemma clear_conversation_frame_witness :
  (@startup_outcome X (Ok ∅) Demo.copilot_env (Ok Demo.copilot_settings) 0%nat = Started
   ∧ strip Demo.clear ≠ ""
   ∧ @json_loads X (strip Demo.clear) = Ok (PDict [("cmd", PStr "CLEAR_CONVERSATION")])
   ∧ dict_lookup "cmd" [("cmd", PStr "CLEAR_CONVERSATION")]
     = Some (PStr "CLEAR_CONVERSATION"))
  ∧ ∃ wd w sq,
      withDocumentsAI (main_loop [Demo.ask_hi] Demo.ready) = Some wd
      ∧ withoutDocumentsAI (main_loop [Demo.ask_hi] Demo.ready) = Some w
      ∧ withoutDocumentsSingleQuery (main_loop [Demo.ask_hi] Demo.ready) = Some sq
      ∧ buffer (@loop_body X Demo.clear (main_loop [Demo.ask_hi] Demo.ready)) (memory w)
        = []
      ∧ buffer (@loop_body X Demo.clear (main_loop [Demo.ask_hi] Demo.ready)) (memory sq)
        = buffer (main_loop [Demo.ask_hi] Demo.ready) (memory sq)
      ∧ requests (@loop_body X Demo.clear (main_loop [Demo.ask_hi] Demo.ready))
        = requests (main_loop [Demo.ask_hi] Demo.ready).
Proof.
  assert (strip Demo.clear ≠ "") as Hne by (vm_compute; discriminate).
  assert (@startup_outcome X (Ok ∅) Demo.copilot_env (Ok Demo.copilot_settings) 0%nat
          = Started) as Hs by (vm_compute; reflexivity).
  split; [repeat split; solve [reflexivity | assumption]|].
  destruct (@clear_conversation_frame X (Ok ∅) Demo.copilot_env
              (Ok Demo.copilot_settings) 0%nat [Demo.ask_hi] Demo.clear
              [("cmd", PStr "CLEAR_CONVERSATION")] Hs Hne eq_refl eq_refl)
    as (wd & w & sq & cb & Hwd & Hw & Hsq & _ & _ & _ & Hbw & Hbsq & H).
  exists wd, w, sq.
  split; [exact Hwd|]. split; [exact Hw|]. split; [exact Hsq|].
  split; [exact Hbw|]. split; [exact Hbsq|]. apply H.
Defined.

End Instances.

(** * Further properties of the code *)

Section MoreProperties.

Context {E : Externals}.

(** Unfolds the plumbing of the state-and-exception monad. *)
Ltac exec :=
  cbv [mbind mret M_bind M_ret bind ret lift gets modify load_settings global
       try_except report module_error _module_return say].

(** ** Providers *)

(** X1: the factory keeps the requested kind and the temperature; the
    provider's model is the supplied one when it is truthy, whether or not
    it is listed as available, and otherwise the kind's default, which is
    "gpt-3.5-turbo" for OpenAI and "gpt-4o" for GitHub Copilot and is one
    of the models listed as available for the kind. *)
Theorem factory_model_supplied_or_available_default (t : LLMProviderType)
    (m temp : pyval) :
  let default :=
    match t with
    | OPENAI => "gpt-3.5-turbo"
    | GITHUB_COPILOT => "gpt-4o"
    end in
  kind (create_provider t m temp) = t
  ∧ LLMProvider.temperature (create_provider t m temp) = temp
  ∧ LLMProvider.model_name (create_provider t m temp)
    = (if truthy m then m else PStr default)
  ∧ default ∈ get_available_models t.
Proof.
  destruct t; simpl; unfold py_or.
  - split; [done|]. split; [done|]. split; [done|]. set_solver.
  - split; [done|]. split; [done|]. split; [done|].
    unfold AVAILABLE_MODELS. set_solver.
Qed.

(** X3: the credential check of the dispatcher and the provider's own
    [validate_credentials] agree: for the kind the settings select, the
    check returns what [validate_credentials] returns for a provider of
    that kind built by the factory. *)
Theorem check_credentials_agrees_with_validate_credentials (st : State)
    (t : LLMProviderType) (m temp : pyval) :
  configured_provider st = Ok t →
  (check_credentials st).1
  = Ok (validate_credentials (environ st) (create_provider t m temp)).
Proof.
  intros Ht. rewrite check_credentials_eq, Ht.
  destruct t; simpl.
  - by destruct (getenv (environ st) "OPENAI_API_KEY").
  - by destruct (getenv (environ st) "GITHUB_COPILOT_TOKEN").
Qed.

(** ** The conversation wrapper *)

Lemma provider_type_or_default_total (v : pyval) :
  ∃ t, provider_type_or_default v = Ok t.
Proof.
  unfold provider_type_or_default, LLMProviderType_call.
  destruct v; try by eexists.
  destruct (String.eqb s "openai"); [by eexists|].
  destruct (String.eqb s "github_copilot"); by eexists.
Qed.

(** X4: [__init__] builds a wrapper or changes nothing.  It returns
    exactly when the settings file decodes to a dict and the constructor
    of the chat-model handle returns, and the wrapper then holds that
    handle.  For any other JSON value it raises the AttributeError of
    [data.get]; an error of reading the file or of the constructor is
    passed on; and in every failing case nothing has been allocated or
    changed. *)
Theorem init_builds_a_wrapper_or_changes_nothing (verbose : bool) (st : State) :
  match settings_file st with
  | Ok (PDict d) =>
      ∃ t,
        provider_type_or_default
          (from_option id (PStr "openai") (dict_lookup "llmProvider" d)) = Ok t
        ∧ match get_llm (environ st)
                  (create_provider t
                     (from_option id (PStr "gpt-3.5-turbo") (dict_lookup "llmModel" d))
                     (from_option id (PInt 0) (dict_lookup "temperature" d))) with
          | Ok handle =>
              ∃ w st',
                ChatAIWithoutDocuments_init verbose st = (Ok w, st')
                ∧ llm w = handle
          | Raise e => ChatAIWithoutDocuments_init verbose st = (Raise e, st)
          end
  | Ok v =>
      ChatAIWithoutDocuments_init verbose st
      = (Raise (AttributeError
                  ("'" +:+ type_name v +:+ "' object has no attribute 'get'")), st)
  | Raise e => ChatAIWithoutDocuments_init verbose st = (Raise e, st)
  end.
Proof.
  destruct (settings_file st) as [v|e] eqn:Hs.
  - destruct v;
      try (unfold ChatAIWithoutDocuments_init; exec; rewrite Hs; reflexivity).
    destruct (provider_type_or_default_total
                (from_option id (PStr "openai") (dict_lookup "llmProvider" d)))
      as [t Ht].
    exists t. split; [exact Ht|].
    rewrite (ChatAIWithoutDocuments_init_dict d verbose st t Hs Ht).
    destruct (get_llm _ _) as [handle|ex]; [|reflexivity].
    by eexists _, _.
  - unfold ChatAIWithoutDocuments_init. exec. by rewrite Hs.
Qed.

Lemma init_inv (verbose : bool) (st st' : State) (w : ChatAIWithoutDocuments) :
  ChatAIWithoutDocuments_init verbose st = (Ok w, st') →
  memory w = fresh (dom (heap st))
  ∧ st' = set_heap (<[memory w := []]> (heap st)) st
  ∧ cc_memory (conversationChain w) = memory w
  ∧ cc_llm (conversationChain w) = llm w.
Proof.
  unfold ChatAIWithoutDocuments_init. exec.
  destruct (settings_file st) as [data|]; [|discriminate].
  destruct (py_get data "temperature" (PInt 0)); [|discriminate].
  destruct (py_get data "llmModel" (PStr "gpt-3.5-turbo")); [|discriminate].
  destruct (py_get data "llmProvider" (PStr "openai")); [|discriminate].
  destruct (provider_type_or_default a1); [|discriminate].
  simpl. destruct (get_llm _ _); [|discriminate].
  simpl. intros [= <- <-]. by repeat split.
Qed.

(** X5: every wrapper gets a buffer of its own.  The buffer [__init__]
    allocates is new and empty, the chain reads that very buffer, and the
    existing buffers and the rest of the state are as before; hence two
    wrappers built one after the other never share a buffer. *)
Theorem init_allocates_a_buffer_of_its_own (v1 v2 : bool) (st st1 st2 : State)
    (w1 w2 : ChatAIWithoutDocuments) :
  ChatAIWithoutDocuments_init v1 st = (Ok w1, st1) →
  ChatAIWithoutDocuments_init v2 st1 = (Ok w2, st2) →
  heap st !! memory w1 = None
  ∧ st1 = set_heap (<[memory w1 := []]> (heap st)) st
  ∧ cc_memory (conversationChain w1) = memory w1
  ∧ (∀ l, l ≠ memory w1 → heap st1 !! l = heap st !! l)
  ∧ memory w1 ≠ memory w2
  ∧ buffer st2 (memory w1) = []
  ∧ buffer st2 (memory w2) = [].
Proof.
  intros H1 H2.
  destruct (init_inv _ _ _ _ H1) as (Hm1 & Hs1 & Hc1 & _).
  destruct (init_inv _ _ _ _ H2) as (Hm2 & Hs2 & _ & _).
  assert (heap st !! memory w1 = None) as Hf1.
  { rewrite Hm1. apply not_elem_of_dom. apply is_fresh. }
  assert (memory w1 ≠ memory w2) as Hne.
  { intros Heq. assert (heap st1 !! memory w2 = None) as Hf2.
    { rewrite Hm2. apply not_elem_of_dom. apply is_fresh. }
    rewrite <- Heq, Hs1 in Hf2. simpl in Hf2. by rewrite lookup_insert_eq in Hf2. }
  split; [exact Hf1|]. split; [exact Hs1|]. split; [exact Hc1|].
  split. { intros l Hl. rewrite Hs1. simpl. by rewrite lookup_insert_ne. }
  split; [exact Hne|].
  rewrite Hs2, Hs1. unfold buffer. simpl. split.
  - rewrite lookup_insert_ne; [|done]. by rewrite lookup_insert_eq.
  - by rewrite lookup_insert_eq.
Qed.

(** X6: keys that are missing from the settings dict take their defaults:
    without "llmProvider", "llmModel" and "temperature" the handle is
    asked of [ChatOpenAI] for "gpt-3.5-turbo" at temperature 0, with no
    base URL and no explicit key, and the wrapper is built around it
    exactly when that constructor returns. *)
Theorem init_defaults_for_missing_keys (d : list (string * pyval)) (verbose : bool)
    (st : State) :
  settings_file st = Ok (PDict d) →
  dict_lookup "temperature" d = None →
  dict_lookup "llmModel" d = None →
  dict_lookup "llmProvider" d = None →
  match ChatOpenAI_new (environ st)
          (mkChatOpenAI (PInt 0) (PStr "gpt-3.5-turbo") None None []) with
  | Ok handle =>
      ∃ w st',
        ChatAIWithoutDocuments_init verbose st = (Ok w, st')
        ∧ llm w = handle
  | Raise ex => ChatAIWithoutDocuments_init verbose st = (Raise ex, st)
  end.
Proof.
  intros Hs Ht Hm Hp.
  rewrite (ChatAIWithoutDocuments_init_dict d verbose st OPENAI Hs); [|by rewrite Hp].
  rewrite Ht, Hm.
  change (get_llm (environ st) _)
    with (ChatOpenAI_new (environ st)
            (mkChatOpenAI (PInt 0) (PStr "gpt-3.5-turbo") None None [])).
  destruct (ChatOpenAI_new _ _) as [handle|ex]; [|reflexivity].
  by eexists _, _.
Qed.

(** ** Lines the loop rejects or ignores *)

(** X8: a line made of whitespace only, the empty line that [readline]
    returns at end of input included, is skipped: nothing is printed and
    nothing changes, for any number of such lines. *)
Theorem whitespace_lines_are_skipped (lines : list string) (st : State) :
  Forall (λ line, all_space line = true) lines →
  main_loop lines st = st.
Proof.
  revert st. induction lines as [|line lines IH]; intros st H; [done|].
  inversion H as [|? ? Hl Hr]; subst.
  rewrite main_loop_cons. unfold loop_body. rewrite (strip_all_space line Hl).
  simpl. by apply IH.
Qed.

(** X9: a line that decodes to anything but a non-empty JSON object (a
    list, a string, a number, null, or the empty object) is answered by
    exactly one "Malformed module input" error that quotes the value, and
    is not looked at any further. *)
Theorem non_object_input_is_malformed (line : string) (v : pyval) (st : State) :
  strip line ≠ "" →
  json_loads (strip line) = Ok v →
  (∀ d, v = PDict d → d = []) →
  loop_body line st
  = say (error_line ("<ChatAI Module> Malformed module input: " +:+ py_str v)) st.
Proof.
  intros Hne Hd Hv. unfold loop_body.
  apply String.eqb_neq in Hne. rewrite Hne, Hd.
  destruct v; simpl; try reflexivity.
  - by destruct (negb b).
  - by destruct (negb (negb (z =? 0)%Z)).
  - by destruct (negb (negb (Qeq_bool q 0))).
  - by destruct (negb (negb (String.eqb s ""))).
  - by destruct l.
  - by rewrite (Hv d eq_refl).
Qed.

Lemma check_credentials_passed (st : State) :
  (check_credentials st).1 = Ok true → check_credentials st = (Ok true, st).
Proof.
  rewrite check_credentials_eq.
  destruct (configured_provider st) as [t|]; [|discriminate].
  by destruct (getenv (environ st) (credential_var t)).
Qed.

(** X10: a command object without a "cmd" key is answered, once the
    credential check has passed, by exactly one error response carrying
    the KeyError for that key; nothing else changes. *)
Theorem missing_cmd_key_is_reported (line : string) (d : list (string * pyval))
    (st : State) :
  strip line ≠ "" →
  json_loads (strip line) = Ok (PDict d) →
  d ≠ [] →
  dict_lookup "cmd" d = None →
  (check_credentials st).1 = Ok true →
  loop_body line st = say (error_line (py_repr (PStr "cmd"))) st.
Proof.
  intros Hne Hd Hd0 Hcmd Hc.
  rewrite (loop_body_dict line d st Hne Hd Hd0).
  rewrite handle_module_input_eq, (check_credentials_passed st Hc).
  unfold execute. exec. simpl. by rewrite Hcmd.
Qed.

(** X11: an ASK_CONVERSATION_NO_DOCUMENTS or ASK_CONVERSATION_DOCUMENTS
    command without a "query" key is answered by exactly one error
    response carrying the KeyError for that key; the wrapper is not
    called: no request is sent and no buffer changes. *)
Theorem ask_without_query_sends_nothing (line : string) (d : list (string * pyval))
    (tag : string) (st : State) :
  strip line ≠ "" →
  json_loads (strip line) = Ok (PDict d) →
  dict_lookup "cmd" d = Some (PStr tag) →
  dict_lookup "query" d = None →
  (check_credentials st).1 = Ok true →
  (tag = "ASK_CONVERSATION_NO_DOCUMENTS" ∧ is_Some (withoutDocumentsAI st))
  ∨ (tag = "ASK_CONVERSATION_DOCUMENTS" ∧ is_Some (withDocumentsAI st)) →
  loop_body line st = say (error_line (py_repr (PStr "query"))) st.
Proof.
  intros Hne Hd Htag Hq Hc Hw.
  assert (d ≠ []) as Hd0 by (intros ->; discriminate).
  rewrite (loop_body_dict line d st Hne Hd Hd0).
  rewrite handle_module_input_eq, (check_credentials_passed st Hc).
  unfold execute. exec. simpl. rewrite Htag.
  destruct Hw as [[-> [w Hw]]|[-> [w Hw]]]; simpl; unfold dispatch; exec;
    rewrite Hw; simpl; by rewrite Hq.
Qed.

Lemma dict_lookup_set_ne (k k' : string) (v : pyval) (d : list (string * pyval)) :
  k ≠ k' → dict_lookup k (dict_set k' v d) = dict_lookup k d.
Proof.
  intros Hne. induction d as [|[k0 v0] d IH]; simpl.
  - apply String.eqb_neq in Hne. by rewrite Hne.
  - destruct (String.eqb k' k0) eqn:Hk; simpl.
    + apply String.eqb_eq in Hk. subst k0.
      apply String.eqb_neq in Hne. by rewrite Hne.
    + destruct (String.eqb k k0); [done|exact IH].
Qed.

(** X12: under a callback handler, [module_return] prints one envelope
    whose payload has [total_cost] set to the accumulator, overriding a
    value the caller may have put there, and every other field exactly as
    the caller gave it; without a handler it raises and prints nothing. *)
Theorem module_return_keeps_the_payload (cmd : IC) (data : list (string * pyval))
    (st : State) :
  match oa_cb st with
  | Some (Some cb) =>
      ∃ data',
        module_return cmd data st
        = (Ok tt, say (PDict [("cmd", PStr (InterprocessCommand.value cmd));
                              ("data", PDict data')]) st)
        ∧ dict_lookup "total_cost" data' = Some (PFloat (total_cost cb))
        ∧ ∀ k, k ≠ "total_cost" → dict_lookup k data' = dict_lookup k data
  | _ => ∃ e, module_return cmd data st = (Raise e, st)
  end.
Proof.
  unfold module_return. destruct (oa_cb st) as [[cb|]|]; try by eexists.
  exists (dict_set "total_cost" (PFloat (total_cost cb)) data).
  split; [reflexivity|]. split; [apply dict_lookup_set_eq|].
  intros k Hk. by apply dict_lookup_set_ne.
Qed.

Lemma for_each_lift {A B} (f : A → result B) (l : list A) (st : State) :
  for_each (λ x, lift (f x)) l st = (collect f l, st).
Proof.
  induction l as [|x l IH]; [done|].
  cbn [for_each collect]. unfold mbind, M_bind, bind. cbn beta.
  unfold lift at 1. destruct (f x) as [y|e]; [|done].
  rewrite IH. by destruct (collect f l).
Qed.

Lemma collect_raises {A B} (f : A → result B) (l : list A) :
  Exists (λ x, is_ok (f x) = false) l → ∃ e, collect f l = Raise e.
Proof.
  induction 1 as [x l Hx|x l _ IH]; simpl.
  - destruct (f x); [discriminate|by eexists].
  - destruct (f x); [|by eexists]. destruct IH as [e ->]. by eexists.
Qed.

(** X13: ADD_DOCUMENTS reads the path of every document before it adds
    any: when one of the documents has no "path", the command is answered
    by exactly one error response and no document has been added, the
    with-documents wrapper not having been called at all. *)
Theorem add_documents_adds_nothing_when_a_path_is_missing (line : string)
    (d : list (string * pyval)) (documents : pyval) (docs : list pyval) (st : State) :
  strip line ≠ "" →
  json_loads (strip line) = Ok (PDict d) →
  dict_lookup "cmd" d = Some (PStr "ADD_DOCUMENTS") →
  dict_lookup "documents" d = Some documents →
  py_iter documents = Ok docs →
  Exists (λ doc, is_ok (py_getitem doc "path") = false) docs →
  (check_credentials st).1 = Ok true →
  ∃ text, loop_body line st = say (error_line text) st.
Proof.
  intros Hne Hd Htag Hdocs Hit Hex Hc.
  assert (d ≠ []) as Hd0 by (intros ->; discriminate).
  rewrite (loop_body_dict line d st Hne Hd Hd0).
  rewrite handle_module_input_eq, (check_credentials_passed st Hc).
  destruct (collect_raises (λ doc, py_getitem doc "path") docs Hex) as [e He].
  exists (str_exn e).
  unfold execute. exec. simpl. rewrite Htag. simpl.
  unfold dispatch. unfold mbind at 1, M_bind at 1, bind at 1.
  unfold lift at 1. simpl. rewrite Hdocs.
  unfold mbind at 1, M_bind at 1, bind at 1. unfold lift at 1. rewrite Hit.
  unfold mbind at 1, M_bind at 1, bind at 1.
  rewrite (for_each_lift (λ doc, py_getitem doc "path") docs st), He.
  reflexivity.
Qed.

(** ** What the loop never does *)

Lemma same_bindings_stable (st0 : State) : stable (λ _, True) (same_bindings st0).
Proof.
  split; try (intros ? st H; exact H).
  - intros c st _ H. unfold add_cost. by destruct (oa_cb st) as [[cb|]|].
  - intros cmd data st _ H. unfold module_return. by destruct (oa_cb st) as [[cb|]|].
Qed.

Lemma main_loop_same_bindings (lines : list string) (st : State) :
  same_bindings st (main_loop lines st).
Proof.
  apply (main_loop_preserved _ _ (same_bindings_stable st) costs_satisfy_True).
  by repeat split.
Qed.

(** X14: whatever lines it reads, the loop never changes the environment
    or the settings it consults and never binds, rebinds or unbinds a
    wrapper. *)
Theorem loop_never_rebinds (lines : list string) (st : State) :
  environ (main_loop lines st) = environ st
  ∧ settings_file (main_loop lines st) = settings_file st
  ∧ withDocumentsAI (main_loop lines st) = withDocumentsAI st
  ∧ withoutDocumentsAI (main_loop lines st) = withoutDocumentsAI st
  ∧ withoutDocumentsSingleQuery (main_loop lines st) = withoutDocumentsSingleQuery st.
Proof. exact (main_loop_same_bindings lines st). Qed.

Lemma configured_provider_same (st st' : State) :
  settings_file st' = settings_file st →
  configured_provider st' = configured_provider st.
Proof. intros H. unfold configured_provider. by rewrite H. Qed.

Lemma startup_missing_credential (dotenv : result (gmap string string))
    (env : gmap string string) (settings : result pyval) (e : Ext) (var : string) :
  startup_outcome dotenv env settings e = MissingCredential var →
  ∃ vars t,
    var = credential_var t
    ∧ configured_provider (initial (vars ∪ env) settings e) = Ok t
    ∧ getenv (vars ∪ env) var = None
    ∧ startup dotenv (initial env settings e)
      = say success_line
          (say (error_line ("Please set " +:+ var)) (initial (vars ∪ env) settings e)).
Proof.
  unfold startup_outcome. intros Ho.
  destruct dotenv as [vars|]; [|discriminate].
  destruct (configured_provider (initial (vars ∪ env) settings e)) as [t|] eqn:Ht;
    [|discriminate].
  destruct (getenv (vars ∪ env) (credential_var t)) eqn:Hk.
  { destruct ((wd_new (vars ∪ env) settings e).2); [|discriminate].
    destruct ((ChatAIWithoutDocuments_init false _).1); discriminate. }
  injection Ho as <-. exists vars, t.
  split; [done|]. split; [done|]. split; [done|].
  unfold startup. exec. simpl. rewrite check_credentials_eq.
  change (set_environ (vars ∪ env) (initial env settings e))
    with (initial (vars ∪ env) settings e).
  rewrite Ht. simpl. by rewrite Hk.
Qed.

(** X15: a start that found the credential missing is never recovered
    from: however many lines have been read since, every line that decodes
    to a command object is answered by the same single "Please set ..."
    error and has no other effect. *)
Theorem missing_credential_is_never_recovered (dotenv : result (gmap string string))
    (env : gmap string string) (settings : result pyval) (e : Ext) (var : string)
    (lines : list string) (line : string) (d : list (string * pyval)) :
  startup_outcome dotenv env settings e = MissingCredential var →
  strip line ≠ "" →
  json_loads (strip line) = Ok (PDict d) →
  d ≠ [] →
  loop_body line (main dotenv lines (initial env settings e))
  = say (error_line ("Please set " +:+ var)) (main dotenv lines (initial env settings e)).
Proof.
  intros Ho Hne Hd Hd0.
  destruct (startup_missing_credential _ _ _ _ _ Ho) as (vars & t & -> & Ht & Hk & Hst).
  unfold main. set (st := main_loop lines _).
  destruct (main_loop_same_bindings lines
              (enter_loop (startup dotenv (initial env settings e))))
    as (He & Hs & _). fold st in He, Hs.
  rewrite (loop_body_dict line d st Hne Hd Hd0).
  rewrite handle_module_input_eq, check_credentials_eq.
  rewrite (configured_provider_same _ st Hs), He, Hst. simpl.
  change (configured_provider _)
    with (configured_provider (initial (vars ∪ env) settings e)).
  rewrite Ht. simpl. by rewrite Hk.
Qed.

(** ** One line in, at most one line out *)

Lemma triple_ret {A} (P : State → Prop) (a : A) (Q : A → State → Prop)
    (Qe : State → Prop) :
  (∀ st, P st → Q a st) → triple P (mret a) Q Qe.
Proof. intros H st HP. by apply H. Qed.

Lemma triple_bind {A B} (P : State → Prop) (m : M A) (k : A → M B)
    (R : A → State → Prop) (Q : B → State → Prop) (Qe : State → Prop) :
  triple P m R Qe → (∀ a, triple (R a) (k a) Q Qe) → triple P (m ≫= k) Q Qe.
Proof.
  intros Hm Hk st HP. specialize (Hm st HP). unfold mbind, M_bind, bind.
  destruct (m st) as [[a|e] st']; [by apply Hk|exact Hm].
Qed.

Lemma triple_lift_bind {A B} (P : State → Prop) (r : result A) (k : A → M B)
    (Q : B → State → Prop) (Qe : State → Prop) :
  (∀ st, P st → Qe st) → (∀ a, triple P (k a) Q Qe) → triple P (lift r ≫= k) Q Qe.
Proof.
  intros He Hk. apply (triple_bind P _ _ (λ _, P)); [|exact Hk].
  intros st HP. unfold lift. destruct r; [exact HP|by apply He].
Qed.

Lemma triple_global_bind {A B} (P : State → Prop) (name : string)
    (f : State → option A) (k : A → M B) (Q : B → State → Prop) (Qe : State → Prop) :
  (∀ st, P st → Qe st) →
  (∀ a, triple (λ st, P st ∧ f st = Some a) (k a) Q Qe) →
  triple P (global name f ≫= k) Q Qe.
Proof.
  intros He Hk. apply (triple_bind P _ _ (λ a st, P st ∧ f st = Some a)); [|exact Hk].
  intros st HP. unfold global. destruct (f st) eqn:Hf; simpl; [by split|by apply He].
Qed.

Lemma triple_lift {A} (P : State → Prop) (r : result A) :
  triple P (lift r) (λ _, P) P.
Proof. intros st HP. unfold lift. by destruct r. Qed.

Lemma triple_weaken {A} (P P' : State → Prop) (m : M A) (Q : A → State → Prop)
    (Qe : State → Prop) :
  (∀ st, P' st → P st) → triple P m Q Qe → triple P' m Q Qe.
Proof. intros H Hm st HP. apply Hm. by apply H. Qed.

Lemma triple_try_except {A} (P : State → Prop) (m : M A) (h : exn → M A)
    (R : State → Prop) (Q : A → State → Prop) (Qe : State → Prop) :
  triple P m Q R → (∀ e, triple R (h e) Q Qe) → triple P (try_except m h) Q Qe.
Proof.
  intros Hm Hh st HP. specialize (Hm st HP). unfold try_except.
  destruct (m st) as [[a|e] st']; [exact Hm|by apply Hh].
Qed.

Lemma triple_for_each {A B} (P : State → Prop) (f : A → M B) (l : list A) :
  (∀ a, triple P (f a) (λ _, P) P) → triple P (for_each f l) (λ _, P) P.
Proof.
  intros Hf. induction l as [|x l IH]; cbn [for_each].
  - by apply triple_ret.
  - apply (triple_bind P _ _ (λ _, P)); [apply Hf|]. intros y.
    apply (triple_bind P _ _ (λ _, P)); [exact IH|]. intros ys. by apply triple_ret.
Qed.

Section Counting.

Variable base : list pyval.

Local Abbreviation silent := (quiet base).
Local Abbreviation single := (once base).

Lemma quiet_add_cost (c : Q) (st : State) : silent st → silent (add_cost c st).
Proof. unfold quiet, add_cost. by destruct (oa_cb st) as [[cb|]|]. Qed.

Lemma quiet_predict (chain : ConversationChain) (input : pyval) :
  triple silent (predict chain input) (λ _, silent) silent.
Proof.
  intros st H. unfold predict.
  destruct (llm_invoke _ _) as [[e' cost] [reply|ex]]; simpl;
    try destruct (match input with PStr _ => _ | _ => _ end); simpl;
    unfold quiet, add_cost; simpl; by destruct (oa_cb st) as [[cb|]|].
Qed.

Lemma quiet_human_message (self : ChatAIWithoutDocuments) (query : pyval) :
  triple silent (human_message self query) (λ _, silent) silent.
Proof.
  unfold human_message. apply (triple_bind silent _ _ (λ _, silent));
    [apply quiet_predict|]. intros reply. by apply triple_ret.
Qed.

Lemma quiet_clear_memory (self : ChatAIWithoutDocuments) :
  triple silent (clear_memory self) (λ _, silent) silent.
Proof. intros st H. exact H. Qed.

Lemma quiet_wd_clear_memory (self : ChatAIWithDocuments) :
  triple silent (wd_clear_memory self) (λ _, silent) silent.
Proof. intros st H. exact H. Qed.

Lemma quiet_ci_invoke (self : ChatAIWithoutDocuments) (c : ci_call) :
  triple silent (ci_invoke self c) (λ _, silent) silent.
Proof.
  intros st H. unfold ci_invoke.
  destruct (o_result _); simpl; unfold quiet, add_cost; simpl;
    by destruct (oa_cb st) as [[cb|]|].
Qed.

Lemma quiet_wd_invoke (self : ChatAIWithDocuments) (c : wd_call) :
  triple silent (wd_invoke self c) (λ _, silent) silent.
Proof.
  intros st H. unfold wd_invoke.
  destruct (o_result _); simpl; unfold quiet, add_cost; simpl;
    by destruct (oa_cb st) as [[cb|]|].
Qed.

Lemma module_return_once (cmd : IC) (data : list (string * pyval)) :
  triple silent (module_return cmd data) (λ _, single) silent.
Proof.
  intros st H. unfold module_return.
  destruct (oa_cb st) as [[cb|]|]; simpl; try exact H.
  eexists. simpl. by rewrite H.
Qed.

Lemma module_error_once (text : string) (Qe : State → Prop) :
  triple silent (module_error text) (λ _, single) Qe.
Proof. intros st H. simpl. eexists. simpl. by rewrite H. Qed.

(** Splits a goal [triple silent m _ quiet] along the structure of [m]. *)
Ltac count :=
  repeat first
    [ apply module_return_once | apply module_error_once | apply triple_lift
    | apply quiet_human_message | apply quiet_clear_memory
    | apply quiet_wd_clear_memory | apply quiet_ci_invoke | apply quiet_wd_invoke
    | (apply triple_lift_bind; [done|intros ?])
    | (apply triple_global_bind;
       [done|intros ?; apply (triple_weaken silent); [by intros ? [? _]|]])
    | (apply (triple_bind silent _ _ (λ _, silent)); [|intros ?])
    | (apply (triple_try_except silent _ _ silent); [|intros ?])
    | (apply triple_for_each; intros ?)
    | match goal with
      | |- triple _ (if ?b then _ else _) _ _ => destruct b
      end ].

Lemma dispatch_once (cmd : IC) (data : pyval) :
  is_request cmd = true → triple silent (dispatch cmd data) (λ _, single) silent.
Proof. destruct cmd; try discriminate; intros _; unfold dispatch; count. Qed.

End Counting.

Lemma execute_at_most_once (base : list pyval) (data : pyval) :
  triple (quiet base) (execute data) (λ _ st, quiet base st ∨ once base st) (quiet base).
Proof.
  intros st HP. unfold execute, mbind, M_bind, bind, lift.
  destruct (py_getitem data "cmd") as [tag|]; [|exact HP].
  destruct (InterprocessCommand.getitem tag) as [c|]; [|exact HP].
  destruct (is_request c) eqn:Hc.
  - pose proof (dispatch_once base c data Hc st HP) as H.
    destruct (dispatch c data st) as [[a|e] st']; [by right|exact H].
  - destruct c; try discriminate; by left.
Qed.

Lemma loop_body_at_most_once (line : string) (st : State) :
  ∃ out, stdout (loop_body line st) = (stdout st ++ out)%list ∧ (length out ≤ 1)%nat.
Proof.
  assert (∀ text, ∃ out, stdout (say (error_line text) st) = (stdout st ++ out)%list
                         ∧ (length out ≤ 1)%nat) as Herr.
  { intros text. exists [error_line text]. split; [done|simpl; lia]. }
  unfold loop_body. destruct (String.eqb (strip line) "").
  { exists []. rewrite app_nil_r. split; [done|simpl; lia]. }
  destruct (json_loads (strip line)) as [v|e].
  2:{ destruct e; apply Herr. }
  destruct (negb (truthy v) || negb (is_dict v)); [apply Herr|].
  rewrite handle_module_input_eq, check_credentials_eq.
  destruct (configured_provider st) as [t|e]; [|apply Herr].
  destruct (getenv (environ st) (credential_var t)); [|apply Herr].
  pose proof (execute_at_most_once (stdout st) v st eq_refl) as H.
  destruct (execute v st) as [[a|e] st']; simpl.
  - destruct H as [H|[o H]]; rewrite H.
    + exists []. rewrite app_nil_r. split; [done|simpl; lia].
    + exists [o]. split; [done|simpl; lia].
  - unfold quiet in H. rewrite H. exists [error_line (str_exn e)]. split; [done|simpl; lia].
Qed.

(** X16: standard output only grows, and by at most one line for each line
    read: after any sequence of input lines, what was printed before is
    still there and the responses do not outnumber the lines. *)
Theorem responses_never_outnumber_lines (lines : list string) (st : State) :
  ∃ out,
    stdout (main_loop lines st) = (stdout st ++ out)%list
    ∧ (length out ≤ length lines)%nat.
Proof.
  revert st. induction lines as [|line lines IH]; intros st.
  - exists []. rewrite app_nil_r. split; [done|simpl; lia].
  - rewrite main_loop_cons.
    destruct (loop_body_at_most_once line st) as (out1 & H1 & Hl1).
    destruct (IH (loop_body line st)) as (out2 & H2 & Hl2).
    exists (out1 ++ out2)%list. rewrite H2, H1, <- app_assoc.
    split; [done|]. rewrite length_app. simpl. lia.
Qed.

(** X17: a line that decodes to a command object with one of the eight
    request tags gets exactly one response line, whatever the credential
    check, the wrappers and the external calls do. *)
Theorem request_gets_exactly_one_response (line : string) (d : list (string * pyval))
    (c : IC) (st : State) :
  strip line ≠ "" →
  json_loads (strip line) = Ok (PDict d) →
  dict_lookup "cmd" d = Some (PStr (InterprocessCommand.name c)) →
  is_request c = true →
  ∃ response, stdout (loop_body line st) = (stdout st ++ [response])%list.
Proof.
  intros Hne Hd Htag Hc.
  assert (d ≠ []) as Hd0 by (intros ->; discriminate).
  rewrite (loop_body_dict line d st Hne Hd Hd0).
  rewrite handle_module_input_eq, check_credentials_eq.
  destruct (configured_provider st) as [t|e]; [|by eexists].
  destruct (getenv (environ st) (credential_var t)); [|by eexists].
  unfold execute, mbind, M_bind, bind, lift. simpl. rewrite Htag, getitem_name.
  pose proof (dispatch_once (stdout st) c (PDict d) Hc st eq_refl) as H.
  destruct (dispatch c (PDict d) st) as [[a|e] st']; simpl.
  - exact H.
  - unfold quiet in H. rewrite H. by eexists.
Qed.

(** ** The conversation buffer *)

Lemma triple_global_known {A B} (P : State → Prop) (name : string)
    (f : State → option A) (v : A) (k : A → M B) (Q : B → State → Prop)
    (Qe : State → Prop) :
  (∀ st, P st → f st = Some v) → triple P (k v) Q Qe →
  triple P (global name f ≫= k) Q Qe.
Proof.
  intros Hf Hk st HP. unfold mbind, M_bind, bind, global.
  rewrite (Hf st HP). by apply Hk.
Qed.

Lemma getitem_sound (tag : pyval) (c : IC) :
  InterprocessCommand.getitem tag = Ok c → tag = PStr (InterprocessCommand.name c).
Proof.
  unfold InterprocessCommand.getitem. destruct tag; try discriminate.
  destruct (by_name s) as [c'|] eqn:Hn; [|discriminate].
  intros [= ->]. unfold by_name in Hn. apply find_some in Hn as [_ Hn].
  apply String.eqb_eq in Hn. by rewrite Hn.
Qed.

Section Conversation.

Variables (wd : ChatAIWithDocuments) (w sq : ChatAIWithoutDocuments).
Variable K : list turn → list Request → Prop.
Variables ask_allowed clear_allowed : Prop.

Hypothesis chain_w : cc_memory (conversationChain w) = memory w
                     ∧ cc_llm (conversationChain w) = llm w.
Hypothesis distinct : wd_memory wd ≠ memory w ∧ memory sq ≠ memory w.
Hypothesis Q_ask :
  ask_allowed → ∀ l r q turns,
    K l r →
    K (l ++ turns)%list (r ++ [mkRequest (llm w) l q])%list
    ∧ K l (r ++ [mkRequest (llm w) l q])%list.
Hypothesis Q_clear : clear_allowed → ∀ l r, K l r → K [] r.

Local Abbreviation talk := (conversation wd w sq K).

Lemma talk_add_cost (c : Q) (st : State) : talk st → talk (add_cost c st).
Proof. unfold add_cost. by destruct (oa_cb st) as [[cb|]|]. Qed.

Lemma talk_heap_other (l : loc) (turns : list turn) (st : State) :
  l ≠ memory w → talk st → talk (set_heap (<[l := turns]> (heap st)) st).
Proof.
  intros Hl (H1 & H2 & H3 & H4). repeat split; try done.
  unfold buffer in *. simpl. by rewrite lookup_insert_ne.
Qed.

Lemma talk_module_error (text : string) : triple talk (module_error text) (λ _, talk) talk.
Proof. intros st H. exact H. Qed.

Lemma talk_module_return (cmd : IC) (data : list (string * pyval)) :
  triple talk (module_return cmd data) (λ _, talk) talk.
Proof. intros st H. unfold module_return. by destruct (oa_cb st) as [[cb|]|]. Qed.

Lemma talk_wd_invoke (c : wd_call) : triple talk (wd_invoke wd c) (λ _, talk) talk.
Proof.
  intros st H. unfold wd_invoke.
  assert (talk (add_cost (o_cost (wd_step c (ext st) (buffer st (wd_memory wd))))
                  (set_heap (<[wd_memory wd :=
                               o_memory (wd_step c (ext st) (buffer st (wd_memory wd)))]>
                             (heap st))
                     (set_ext (o_ext (wd_step c (ext st) (buffer st (wd_memory wd))))
                        st)))) as H'.
  { apply talk_add_cost.
    apply (talk_heap_other _ _ (set_ext _ st)); [apply distinct|exact H]. }
  by destruct (o_result _).
Qed.

Lemma talk_ci_invoke (c : ci_call) : triple talk (ci_invoke sq c) (λ _, talk) talk.
Proof.
  intros st H. unfold ci_invoke.
  assert (talk (add_cost (o_cost (ci_step c (llm sq) (ext st) (buffer st (memory sq))))
                  (set_heap (<[memory sq :=
                               o_memory (ci_step c (llm sq) (ext st)
                                           (buffer st (memory sq)))]>
                             (heap st))
                     (set_ext (o_ext (ci_step c (llm sq) (ext st) (buffer st (memory sq))))
                        st)))) as H'.
  { apply talk_add_cost.
    apply (talk_heap_other _ _ (set_ext _ st)); [apply distinct|exact H]. }
  by destruct (o_result _).
Qed.

Lemma talk_wd_clear_memory : triple talk (wd_clear_memory wd) (λ _, talk) talk.
Proof. intros st H. simpl. apply talk_heap_other; [apply distinct|exact H]. Qed.

Lemma talk_clear_memory :
  clear_allowed → triple talk (clear_memory w) (λ _, talk) talk.
Proof.
  intros Hc st (H1 & H2 & H3 & H4). simpl. repeat split; try done.
  unfold buffer. simpl. rewrite lookup_insert_eq. simpl.
  by apply (Q_clear Hc (buffer st (memory w))).
Qed.

Lemma talk_human_message (query : pyval) :
  ask_allowed → triple talk (human_message w query) (λ _, talk) talk.
Proof.
  intros Ha st (H1 & H2 & H3 & H4). unfold human_message, predict.
  unfold mbind, M_bind, bind, mret, M_ret, ret.
  destruct chain_w as [-> ->].
  destruct (Q_ask Ha _ _ query [] H4) as [_ Hfail].
  destruct (llm_invoke _ _) as [[e' cost] [reply|ex]]; simpl.
  - destruct (match query with PStr _ => _ | _ => _ end) as [turns|ex]; simpl.
    + destruct (Q_ask Ha _ _ query turns H4) as [Hok _].
      unfold add_cost; simpl; destruct (oa_cb st) as [[cb|]|]; simpl;
        (repeat split; try done); unfold buffer; simpl; by rewrite lookup_insert_eq.
    + unfold add_cost; simpl; destruct (oa_cb st) as [[cb|]|]; simpl;
        by repeat split.
  - unfold add_cost; simpl; destruct (oa_cb st) as [[cb|]|]; simpl;
      by repeat split.
Qed.

(** Splits a goal [triple talk m _ talk] along the structure of [m]. *)
Ltac converse :=
  repeat first
    [ apply talk_module_return | apply talk_module_error | apply triple_lift
    | apply talk_wd_clear_memory | apply talk_ci_invoke | apply talk_wd_invoke
    | (apply talk_human_message; assumption)
    | (apply talk_clear_memory; assumption)
    | (apply triple_lift_bind; [done|intros ?])
    | (apply (triple_global_known talk _ _ wd); [by intros ? (? & ? & ? & ?)|])
    | (apply (triple_global_known talk _ _ w); [by intros ? (? & ? & ? & ?)|])
    | (apply (triple_global_known talk _ _ sq); [by intros ? (? & ? & ? & ?)|])
    | (apply (triple_bind talk _ _ (λ _, talk)); [|intros ?])
    | (apply (triple_try_except talk _ _ talk); [|intros ?])
    | (apply triple_for_each; intros ?)
    | (apply triple_ret; done)
    | match goal with
      | |- triple _ (if ?b then _ else _) _ _ => destruct b
      end ].

Lemma dispatch_talk (cmd : IC) (data : pyval) :
  (cmd = ASK_CONVERSATION_NO_DOCUMENTS → ask_allowed) →
  (cmd = CLEAR_CONVERSATION → clear_allowed) →
  triple talk (dispatch cmd data) (λ _, talk) talk.
Proof.
  intros Ha Hc. destruct cmd; unfold dispatch;
    try specialize (Ha eq_refl); try specialize (Hc eq_refl); converse.
Qed.

Lemma loop_body_talk (line : string) (st : State) :
  (∀ d tag c,
      json_loads (strip line) = Ok (PDict d) →
      dict_lookup "cmd" d = Some tag →
      InterprocessCommand.getitem tag = Ok c →
      (c = ASK_CONVERSATION_NO_DOCUMENTS → ask_allowed)
      ∧ (c = CLEAR_CONVERSATION → clear_allowed)) →
  talk st → talk (loop_body line st).
Proof.
  intros Hline H. unfold loop_body.
  destruct (String.eqb (strip line) ""); [exact H|].
  destruct (json_loads (strip line)) as [v|e] eqn:Hv.
  2:{ by destruct e. }
  destruct (negb (truthy v) || negb (is_dict v)) eqn:Hd; [exact H|].
  destruct v as [|b|z|q|s|l|d];
    try (simpl in Hd; rewrite ?orb_true_r in Hd; discriminate).
  rewrite handle_module_input_eq, check_credentials_eq.
  destruct (configured_provider st) as [t|e]; [|exact H].
  destruct (getenv (environ st) (credential_var t)); [|exact H].
  unfold execute, mbind, M_bind, bind, lift. simpl.
  destruct (dict_lookup "cmd" d) as [tag|] eqn:Htag; [|exact H].
  destruct (InterprocessCommand.getitem tag) as [c|e] eqn:Hc; [|exact H].
  destruct (Hline d tag c eq_refl Htag Hc) as [Ha Hcl].
  pose proof (dispatch_talk c (PDict d) Ha Hcl st H) as H'.
  by destruct (dispatch c (PDict d) st) as [[a|e] st'].
Qed.

End Conversation.


(** X23: EXPLAIN_TOPIC with a falsy "use_documents" is served by the
    single-query wrapper alone: its inherited [explain_topic] is called
    once, with the topic and exactly the four options custom_prompt,
    level_of_detail, level_of_expertise and language, and what it returns
    is sent back as the "explanation" of a DID_EXPLAIN_TOPIC response, or
    what it raises as an error response; no other buffer than that
    wrapper's changes. *)
Theorem explain_topic_without_documents (dotenv : result (gmap string string))
    (env : gmap string string) (settings : result pyval) (e : Ext)
    (lines : list string) (line : string) (d o : list (string * pyval))
    (topic cp ld le ud lang : pyval) :
  startup_outcome dotenv env settings e = Started →
  strip line ≠ "" →
  json_loads (strip line) = Ok (PDict d) →
  dict_lookup "cmd" d = Some (PStr "EXPLAIN_TOPIC") →
  dict_lookup "topic" d = Some topic →
  dict_lookup "options" d = Some (PDict o) →
  dict_lookup "custom_prompt" o = Some cp →
  dict_lookup "level_of_detail" o = Some ld →
  dict_lookup "level_of_expertise" o = Some le →
  dict_lookup "use_documents" o = Some ud →
  dict_lookup "language" o = Some lang →
  truthy ud = false →
  ∃ sq cb,
    withoutDocumentsSingleQuery (main dotenv lines (initial env settings e)) = Some sq
    ∧ oa_cb (main dotenv lines (initial env settings e)) = Some (Some cb)
    ∧ let st := main dotenv lines (initial env settings e) in
      let out :=
        ci_step
          (CI_explain_topic topic
             (PDict [("custom_prompt", cp); ("level_of_detail", ld);
                     ("level_of_expertise", le); ("language", lang)]))
          (llm sq) (ext st) (buffer st (memory sq)) in
      let st1 :=
        add_cost (o_cost out)
          (set_heap (<[memory sq := o_memory out]> (heap st)) (set_ext (o_ext out) st)) in
      loop_body line st
      = match o_result out with
        | Ok explanation =>
            say (response_line DID_EXPLAIN_TOPIC [("explanation", explanation)]
                   (mkHandler (total_cost cb + o_cost out))) st1
        | Raise ex => say (error_line (str_exn ex)) st1
        end.
Proof.
  intros Hs Hne Hd Htag Htopic Hopt Hcp Hld Hle Hud Hlang Hfalse.
  destruct (started_ready dotenv env settings e Hs) as (wd & w & sq & _ & _ & Hr).
  specialize (Hr lines). set (st := main dotenv lines (initial env settings e)) in *.
  destruct (Ready_handler _ _ _ _ Hr) as [cb Hcb].
  exists sq, cb. split; [apply (ready_sq _ _ _ _ Hr)|]. split; [exact Hcb|].
  cbn zeta.
  assert (d ≠ []) as Hd0 by (intros ->; discriminate).
  rewrite (loop_body_dict line d st Hne Hd Hd0).
  rewrite handle_module_input_eq, (ready_credentials _ _ _ _ Hr).
  unfold execute. exec. simpl. rewrite Htag. simpl.
  unfold dispatch. exec. simpl.
  rewrite Htopic, Hopt. simpl. rewrite Hcp, Hld, Hle, Hud, Hlang, Hfalse.
  rewrite (ready_sq _ _ _ _ Hr). unfold ci_invoke.
  destruct (o_result _) as [explanation|ex]; simpl.
  - unfold module_return, add_cost. simpl. rewrite Hcb. reflexivity.
  - unfold add_cost. simpl. rewrite Hcb. reflexivity.
Qed.

(** ** The token dialog *)

Import GitHubCopilotTokenDialog.

(** X20: [save_token] saves nothing when it cannot.  For a token that is
    empty or whitespace only it shows the "Invalid Token" warning and
    returns, changing nothing else; for any other token, when the .env
    file cannot be written, the error of [set_key] is passed on and
    nothing at all has changed, no warning being shown.  In both cases
    the file is untouched, the callback is not called and the dialog
    stays open. *)
Theorem save_token_without_a_token_or_a_file (self : Dialog) :
  all_space (token_input self) = true ∨ is_Some (dotenv_error self) →
  (all_space (token_input self) = true →
   save_token self
   = (Ok tt,
      set_warnings
        (warnings self
         ++ [("Invalid Token", "Please enter a valid GitHub Copilot token.")])%list
        self))
  ∧ (all_space (token_input self) = false →
     ∀ e, dotenv_error self = Some e → save_token self = (Raise e, self))
  ∧ dotenv (save_token self).2 = dotenv self
  ∧ calls (save_token self).2 = calls self
  ∧ finished (save_token self).2 = finished self.
Proof.
  intros H. unfold save_token.
  destruct (String.eqb (strip (token_input self)) "") eqn:Hs.
  - apply String.eqb_eq, strip_empty_iff in Hs. rewrite Hs.
    split; [done|]. split; [done|]. by repeat split.
  - assert (all_space (token_input self) = false) as Hn.
    { destruct (all_space (token_input self)) eqn:Ha; [|done].
      apply strip_all_space in Ha. rewrite Ha in Hs. discriminate. }
    rewrite Hn in H. destruct H as [H|[e He]]; [discriminate|].
    unfold set_key. rewrite He. simpl.
    split; [by rewrite Hn|]. split; [by intros _ e' [= <-]|]. by repeat split.
Qed.

(** X21: for a token with a visible character and a writable file,
    [save_token] stores the token stripped of surrounding whitespace, and
    so never an empty or padded one, under GITHUB_COPILOT_TOKEN, leaves
    every other variable of the file alone and shows no warning; the
    callback, if there is one, is called once with the stored token, and
    the dialog is accepted unless the callback raises. *)
Theorem save_token_stores_the_stripped_token (self : Dialog) :
  all_space (token_input self) = false →
  dotenv_error self = None →
  let token := strip (token_input self) in
  dotenv (save_token self).2 = <["GITHUB_COPILOT_TOKEN" := token]> (dotenv self)
  ∧ token ≠ ""
  ∧ strip token = token
  ∧ (∀ k, k ≠ "GITHUB_COPILOT_TOKEN" →
          dotenv (save_token self).2 !! k = dotenv self !! k)
  ∧ warnings (save_token self).2 = warnings self
  ∧ match callback self with
    | None =>
        (save_token self).1 = Ok tt
        ∧ calls (save_token self).2 = calls self
        ∧ finished (save_token self).2 = Some Accepted
    | Some call =>
        calls (save_token self).2 = (calls self ++ [token])%list
        ∧ match call token with
          | Ok _ =>
              (save_token self).1 = Ok tt
              ∧ finished (save_token self).2 = Some Accepted
          | Raise e =>
              (save_token self).1 = Raise e
              ∧ finished (save_token self).2 = finished self
          end
    end.
Proof.
  intros Ha He token.
  assert (token ≠ "") as Hne.
  { intros Ht%strip_empty_iff. congruence. }
  assert (strip token = token) as Hid by apply strip_idem.
  unfold save_token. fold token.
  apply String.eqb_neq in Hne as Hb. rewrite Hb. unfold set_key. rewrite He. simpl.
  assert (∀ m : gmap string string, ∀ k, k ≠ "GITHUB_COPILOT_TOKEN" →
            <["GITHUB_COPILOT_TOKEN" := token]> m !! k = m !! k) as Hk.
  { intros m k Hkk. by rewrite lookup_insert_ne. }
  destruct (callback self) as [call|]; simpl; [destruct (call token); simpl|];
    (split; [done|]); (split; [done|]); (split; [done|]);
    (split; [intros k Hkk; by apply Hk|]); by repeat split.
Qed.

(** X22: the dialog remedies a missing GitHub-Copilot credential: once
    [save_token] has stored a token, a process that loads the file the
    dialog wrote, with settings that select "github_copilot", passes the
    credential check, whatever else the environment holds, and so does
    not start with a missing credential. *)
Theorem saved_token_passes_the_credential_check (self : Dialog)
    (env : gmap string string) (d : list (string * pyval)) (e : Ext) :
  all_space (token_input self) = false →
  dotenv_error self = None →
  dict_lookup "llmProvider" d = Some (PStr "github_copilot") →
  is_Some (getenv (dotenv (save_token self).2 ∪ env) "GITHUB_COPILOT_TOKEN")
  ∧ check_credentials (initial (dotenv (save_token self).2 ∪ env) (Ok (PDict d)) e)
    = (Ok true, initial (dotenv (save_token self).2 ∪ env) (Ok (PDict d)) e)
  ∧ ∀ var, startup_outcome (Ok (dotenv (save_token self).2)) env (Ok (PDict d)) e
           ≠ MissingCredential var.
Proof.
  intros Ha He Hp.
  assert (dotenv (save_token self).2
          = <["GITHUB_COPILOT_TOKEN" := strip (token_input self)]> (dotenv self)) as Hf.
  { assert (strip (token_input self) ≠ "") as Hne.
    { intros Ht%strip_empty_iff. congruence. }
    unfold save_token. apply String.eqb_neq in Hne. rewrite Hne.
    unfold set_key. rewrite He. simpl.
    destruct (callback self) as [call|]; [|done].
    by destruct (call (strip (token_input self))). }
  assert (getenv (dotenv (save_token self).2 ∪ env) "GITHUB_COPILOT_TOKEN"
          = Some (strip (token_input self))) as Hg.
  { rewrite Hf. unfold getenv. apply lookup_union_Some_l. apply lookup_insert_eq. }
  assert (configured_provider
            (initial (dotenv (save_token self).2 ∪ env) (Ok (PDict d)) e)
          = Ok GITHUB_COPILOT) as Hc.
  { unfold configured_provider. simpl. by rewrite Hp. }
  split; [by rewrite Hg|]. split.
  - rewrite check_credentials_eq, Hc. simpl.
    change (environ (initial ?a _ _)) with a. by rewrite Hg.
  - intros var. unfold startup_outcome. rewrite Hc. simpl. rewrite Hg.
    destruct ((wd_new _ _ _).2); [|done].
    by destruct ((ChatAIWithoutDocuments_init false _).1).
Qed.

(** X24: the check box only ever changes how the token is displayed: after
    any sequence of state changes the token is shown in clear exactly when
    the last change was to [Checked] (and as before when there was none),
    while the text, the callback, the .env file, the warnings and the
    open dialog are as they were. *)
Theorem toggles_only_change_the_echo_mode (states : list Z) (self : Dialog) :
  let self' := fold_left (λ d state, toggle_token_visibility state d) states self in
  echo_mode self'
  = match last states with
    | None => echo_mode self
    | Some state => if (state =? Checked)%Z then Normal else Password
    end
  ∧ set_echo_mode (echo_mode self) self' = self.
Proof.
  cbn zeta. split.
  - induction states as [|state states IH] using rev_ind; [done|].
    rewrite fold_left_app, last_snoc. simpl. unfold toggle_token_visibility.
    by destruct (state =? Checked)%Z.
  - revert self. induction states as [|state states IH]; intros self.
    + by destruct self.
    + simpl. specialize (IH (toggle_token_visibility state self)).
      apply (f_equal (set_echo_mode (echo_mode self))) in IH.
      etransitivity; [|etransitivity; [exact IH|]].
      * by destruct (fold_left _ states _).
      * unfold toggle_token_visibility.
        by destruct (state =? Checked)%Z, self.
Qed.

End MoreProperties.

(** * The further properties on the concrete runtime *)

Section MoreInstances.

Local Abbreviation X := Demo.externals.
Import GitHubCopilotTokenDialog.

(** X3 in the started Copilot process. *)
Lemma check_credentials_agrees_with_validate_credentials_witness :
  configured_provider Demo.ready = Ok GITHUB_COPILOT
  ∧ (check_credentials Demo.ready).1
    = Ok (validate_credentials (environ Demo.ready)
            (create_provider GITHUB_COPILOT (PStr "gpt-4") (PInt 0))).
Proof.
  assert (configured_provider Demo.ready = Ok GITHUB_COPILOT) as H
    by (vm_compute; reflexivity).
  split; [exact H|].
  exact (@check_credentials_agrees_with_validate_credentials X Demo.ready
           GITHUB_COPILOT (PStr "gpt-4") (PInt 0) H).
Defined.

(** X5 at two wrappers built in the fresh Copilot installation. *)
Lemma init_allocates_a_buffer_of_its_own_witness :
  (ChatAIWithoutDocuments_init false Scenario.installed
   = (Ok (Scenario.wrapper 0), set_heap (<[0%nat := []]> ∅) Scenario.installed)
   ∧ ChatAIWithoutDocuments_init false
       (set_heap (<[0%nat := []]> ∅) Scenario.installed)
     = (Ok (Scenario.wrapper 1),
        set_heap (<[1%nat := []]> (<[0%nat := []]> ∅)) Scenario.installed))
  ∧ memory (Scenario.wrapper 0) ≠ memory (Scenario.wrapper 1)
  ∧ buffer (set_heap (<[1%nat := []]> (<[0%nat := []]> ∅)) Scenario.installed)
      (memory (Scenario.wrapper 0)) = [].
Proof.
  assert (ChatAIWithoutDocuments_init false Scenario.installed
          = (Ok (Scenario.wrapper 0), set_heap (<[0%nat := []]> ∅) Scenario.installed))
    as H1 by (vm_compute; reflexivity).
  assert (ChatAIWithoutDocuments_init false
            (set_heap (<[0%nat := []]> ∅) Scenario.installed)
          = (Ok (Scenario.wrapper 1),
             set_heap (<[1%nat := []]> (<[0%nat := []]> ∅)) Scenario.installed))
    as H2 by (vm_compute; reflexivity).
  split; [by split|].
  destruct (@init_allocates_a_buffer_of_its_own X _ _ _ _ _ _ _ H1 H2)
    as (_ & _ & _ & _ & Hne & Hb & _).
  by split.
Defined.

(** X6 at the empty settings object, with an OpenAI key around. *)
Lemma init_defaults_for_missing_keys_witness :
  (settings_file (@initial X {["OPENAI_API_KEY" := "sk"]} (Ok (PDict [])) 0%nat)
   = Ok (PDict [])
   ∧ dict_lookup "temperature" [] = None
   ∧ dict_lookup "llmModel" [] = None
   ∧ dict_lookup "llmProvider" [] = None)
  ∧ ∃ w st',
      ChatAIWithoutDocuments_init false
        (@initial X {["OPENAI_API_KEY" := "sk"]} (Ok (PDict [])) 0%nat) = (Ok w, st')
      ∧ llm w = mkChatOpenAI (PInt 0) (PStr "gpt-3.5-turbo") (Some "sk") None [].
Proof.
  split; [by repeat split|].
  pose proof (@init_defaults_for_missing_keys X [] false
                (@initial X {["OPENAI_API_KEY" := "sk"]} (Ok (PDict [])) 0%nat)
                eq_refl eq_refl eq_refl eq_refl) as H.
  match type of H with
  | match ?c with _ => _ end =>
      assert (c = Ok (mkChatOpenAI (PInt 0) (PStr "gpt-3.5-turbo") (Some "sk") None []))
        as Hc by (vm_compute; reflexivity);
      rewrite Hc in H
  end.
  exact H.
Defined.

(** X8 at an empty line followed by a line of three spaces. *)
Lemma whitespace_lines_are_skipped_witness :
  Forall (λ line, all_space line = true) [""; Demo.blank]
  ∧ @main_loop X [""; Demo.blank] Demo.ready = Demo.ready.
Proof.
  assert (Forall (λ line, all_space line = true) [""; Demo.blank]) as H
    by (repeat constructor).
  split; [exact H|].
  exact (@whitespace_lines_are_skipped X _ Demo.ready H).
Defined.

(** X9 at the empty object. *)
Lemma non_object_input_is_malformed_witness :
  (strip Scenario.empty_object ≠ ""
   ∧ @json_loads X (strip Scenario.empty_object) = Ok (PDict [])
   ∧ ∀ d, PDict [] = PDict d → d = [])
  ∧ @loop_body X Scenario.empty_object Demo.ready
    = say (error_line ("<ChatAI Module> Malformed module input: "
                       +:+ @py_str X (PDict []))) Demo.ready.
Proof.
  assert (strip Scenario.empty_object ≠ "") as Hne by (vm_compute; discriminate).
  assert (∀ d, PDict [] = PDict d → d = []) as Hd by (intros d [= <-]; reflexivity).
  split; [by repeat split|].
  exact (@non_object_input_is_malformed X Scenario.empty_object (PDict []) Demo.ready
           Hne eq_refl Hd).
Defined.

(** X10 at an object with a query and no command. *)
Lemma missing_cmd_key_is_reported_witness :
  (strip Scenario.no_cmd ≠ ""
   ∧ @json_loads X (strip Scenario.no_cmd) = Ok (PDict [("query", PStr "hi")])
   ∧ [("query", PStr "hi")] ≠ []
   ∧ dict_lookup "cmd" [("query", PStr "hi")] = None
   ∧ (check_credentials Demo.ready).1 = Ok true)
  ∧ @loop_body X Scenario.no_cmd Demo.ready
    = say (error_line (@py_repr X (PStr "cmd"))) Demo.ready.
Proof.
  assert (strip Scenario.no_cmd ≠ "") as Hne by (vm_compute; discriminate).
  assert ([("query", PStr "hi")] ≠ []) as Hd0 by discriminate.
  assert ((check_credentials Demo.ready).1 = Ok true) as Hc by (vm_compute; reflexivity).
  split; [by repeat split|].
  exact (@missing_cmd_key_is_reported X Scenario.no_cmd [("query", PStr "hi")]
           Demo.ready Hne eq_refl Hd0 eq_refl Hc).
Defined.

(** X11 at an ask that carries no query. *)
Lemma ask_without_query_sends_nothing_witness :
  (strip Scenario.ask_without_query ≠ ""
   ∧ @json_loads X (strip Scenario.ask_without_query)
     = Ok (PDict [("cmd", PStr "ASK_CONVERSATION_NO_DOCUMENTS")])
   ∧ (check_credentials Demo.ready).1 = Ok true
   ∧ is_Some (withoutDocumentsAI Demo.ready))
  ∧ @loop_body X Scenario.ask_without_query Demo.ready
    = say (error_line (@py_repr X (PStr "query"))) Demo.ready.
Proof.
  assert (strip Scenario.ask_without_query ≠ "") as Hne by (vm_compute; discriminate).
  assert ((check_credentials Demo.ready).1 = Ok true) as Hc by (vm_compute; reflexivity).
  assert (is_Some (withoutDocumentsAI Demo.ready)) as Hw by (vm_compute; by eexists).
  split; [by repeat split|].
  exact (@ask_without_query_sends_nothing X Scenario.ask_without_query
           [("cmd", PStr "ASK_CONVERSATION_NO_DOCUMENTS")]
           "ASK_CONVERSATION_NO_DOCUMENTS" Demo.ready Hne eq_refl eq_refl eq_refl Hc
           (or_introl (conj eq_refl Hw))).
Defined.

(** X13 at two documents, the second of which has no path. *)
Lemma add_documents_adds_nothing_when_a_path_is_missing_witness :
  (strip Scenario.add_two_one_bad ≠ ""
   ∧ @json_loads X (strip Scenario.add_two_one_bad)
     = Ok (PDict [("cmd", PStr "ADD_DOCUMENTS");
                  ("documents", PList [PDict [("path", PStr "a.pdf")];
                                       PDict [("name", PStr "b")]])])
   ∧ Exists (λ doc, is_ok (py_getitem doc "path") = false)
       [PDict [("path", PStr "a.pdf")]; PDict [("name", PStr "b")]]
   ∧ (check_credentials Demo.ready).1 = Ok true)
  ∧ ∃ text,
      @loop_body X Scenario.add_two_one_bad Demo.ready = say (error_line text) Demo.ready.
Proof.
  assert (strip Scenario.add_two_one_bad ≠ "") as Hne by (vm_compute; discriminate).
  assert (Exists (λ doc, is_ok (py_getitem doc "path") = false)
            [PDict [("path", PStr "a.pdf")]; PDict [("name", PStr "b")]]) as Hex
    by (apply Exists_cons_tl, Exists_cons_hd; reflexivity).
  assert ((check_credentials Demo.ready).1 = Ok true) as Hc by (vm_compute; reflexivity).
  split; [by repeat split|].
  exact (@add_documents_adds_nothing_when_a_path_is_missing X Scenario.add_two_one_bad
           _ _ _ Demo.ready Hne eq_refl eq_refl eq_refl eq_refl Hex Hc).
Defined.

(** X15 in a process started without credentials, one ask later. *)
Lemma missing_credential_is_never_recovered_witness :
  (@startup_outcome X (Ok ∅) ∅ (Ok (PDict [])) 0%nat = MissingCredential "OPENAI_API_KEY"
   ∧ strip Demo.clear ≠ ""
   ∧ @json_loads X (strip Demo.clear) = Ok (PDict [("cmd", PStr "CLEAR_CONVERSATION")])
   ∧ [("cmd", PStr "CLEAR_CONVERSATION")] ≠ [])
  ∧ @loop_body X Demo.clear
      (main (Ok ∅) [Demo.ask_hi] (@initial X ∅ (Ok (PDict [])) 0%nat))
    = say (error_line ("Please set " +:+ "OPENAI_API_KEY"))
        (main (Ok ∅) [Demo.ask_hi] (@initial X ∅ (Ok (PDict [])) 0%nat)).
Proof.
  assert (@startup_outcome X (Ok ∅) ∅ (Ok (PDict [])) 0%nat
          = MissingCredential "OPENAI_API_KEY") as Ho by (vm_compute; reflexivity).
  assert (strip Demo.clear ≠ "") as Hne by (vm_compute; discriminate).
  assert ([("cmd", PStr "CLEAR_CONVERSATION")] ≠ []) as Hd0 by discriminate.
  split; [by repeat split|].
  exact (@missing_credential_is_never_recovered X (Ok ∅) ∅ (Ok (PDict [])) 0%nat
           "OPENAI_API_KEY" [Demo.ask_hi] Demo.clear _ Ho Hne eq_refl Hd0).
Defined.

(** X17 at an ask, in a process without credentials. *)
Lemma request_gets_exactly_one_response_witness :
  (strip Demo.ask_hi ≠ ""
   ∧ @json_loads X (strip Demo.ask_hi)
     = Ok (PDict [("cmd", PStr "ASK_CONVERSATION_NO_DOCUMENTS"); ("query", PStr "hi")])
   ∧ is_request ASK_CONVERSATION_NO_DOCUMENTS = true)
  ∧ ∃ response,
      stdout (@loop_body X Demo.ask_hi Demo.bare) = (stdout Demo.bare ++ [response])%list.
Proof.
  assert (strip Demo.ask_hi ≠ "") as Hne by (vm_compute; discriminate).
  split; [by repeat split|].
  exact (@request_gets_exactly_one_response X Demo.ask_hi _
           ASK_CONVERSATION_NO_DOCUMENTS Demo.bare Hne eq_refl eq_refl eq_refl).
Defined.


(** X23 at the EXPLAIN_TOPIC line, first thing after the start. *)
Lemma explain_topic_without_documents_witness :
  (@startup_outcome X (Ok ∅) Demo.copilot_env (Ok Demo.copilot_settings) 0%nat = Started
   ∧ strip Scenario.explain ≠ ""
   ∧ @json_loads X (strip Scenario.explain) = Ok (PDict Scenario.explain_object)
   ∧ truthy (PBool false) = false)
  ∧ ∃ sq cb,
      withoutDocumentsSingleQuery (main (Ok ∅) [] Scenario.installed) = Some sq
      ∧ oa_cb (main (Ok ∅) [] Scenario.installed) = Some (Some cb).
Proof.
  assert (@startup_outcome X (Ok ∅) Demo.copilot_env (Ok Demo.copilot_settings) 0%nat
          = Started) as Hs by (vm_compute; reflexivity).
  assert (strip Scenario.explain ≠ "") as Hne by (vm_compute; discriminate).
  split; [by repeat split|].
  destruct (@explain_topic_without_documents X (Ok ∅) Demo.copilot_env
              (Ok Demo.copilot_settings) 0%nat [] Scenario.explain
              Scenario.explain_object Scenario.explain_options
              (PStr "cells") (PStr "") (PStr "low") (PStr "novice") (PBool false)
              (PStr "English")
              Hs Hne eq_refl eq_refl eq_refl eq_refl eq_refl eq_refl eq_refl eq_refl
              eq_refl eq_refl) as (sq & cb & Hsq & Hcb & _).
  exists sq, cb. by split.
Defined.

(** X20 at a dialog in which only blanks, among them a no-break space,
    were typed. *)
Lemma save_token_without_a_token_or_a_file_witness :
  (all_space (token_input Scenario.typed_blanks) = true
   ∨ is_Some (dotenv_error Scenario.typed_blanks))
  ∧ save_token Scenario.typed_blanks
    = (Ok tt,
       set_warnings [("Invalid Token", "Please enter a valid GitHub Copilot token.")]
         Scenario.typed_blanks)
  ∧ dotenv (save_token Scenario.typed_blanks).2 = ∅
  ∧ finished (save_token Scenario.typed_blanks).2 = None.
Proof.
  assert (all_space (token_input Scenario.typed_blanks) = true
          ∨ is_Some (dotenv_error Scenario.typed_blanks)) as H
    by (left; reflexivity).
  split; [exact H|].
  destruct (save_token_without_a_token_or_a_file _ H) as (Hw & _ & Hd & _ & Hf).
  split; [exact (Hw eq_refl)|]. by split.
Defined.

(** X21 at the dialog in which the padded "ghu_abc" was typed. *)
Lemma save_token_stores_the_stripped_token_witness :
  (all_space (token_input Scenario.typed) = false
   ∧ dotenv_error Scenario.typed = None)
  ∧ dotenv (save_token Scenario.typed).2
    = <["GITHUB_COPILOT_TOKEN" := strip (token_input Scenario.typed)]>
        {["OPENAI_API_KEY" := "sk"]}
  ∧ strip (token_input Scenario.typed) = "ghu_abc".
Proof.
  split; [by split|].
  destruct (save_token_stores_the_stripped_token Scenario.typed eq_refl eq_refl)
    as (Hd & _).
  split; [exact Hd|reflexivity].
Defined.

(** X22 at that dialog and the Copilot settings. *)
Lemma saved_token_passes_the_credential_check_witness :
  (all_space (token_input Scenario.typed) = false
   ∧ dotenv_error Scenario.typed = None
   ∧ dict_lookup "llmProvider"
       [("temperature", PInt 0); ("llmModel", PStr "gpt-4");
        ("llmProvider", PStr "github_copilot")] = Some (PStr "github_copilot"))
  ∧ is_Some (getenv (dotenv (save_token Scenario.typed).2 ∪ ∅) "GITHUB_COPILOT_TOKEN").
Proof.
  split; [by repeat split|].
  exact (proj1 (@saved_token_passes_the_credential_check X Scenario.typed ∅
                  [("temperature", PInt 0); ("llmModel", PStr "gpt-4");
                   ("llmProvider", PStr "github_copilot")] 0%nat
                  eq_refl eq_refl eq_refl)).
Defined.

End MoreInstances.
